(** * Domra Tech lexicon viewer: a shallow embedding of [assets/js/app.js]

    The program is a browser script.  Its data are JSON documents, so the
    embedding works on JavaScript values as [JSON.parse] produces them; its
    functions read and write a handful of globals and DOM elements, so the
    stateful ones are written in a state-and-exception monad over a [world]
    record.  Builtins of the host whose full definition lies outside the
    script ([String.prototype.toLowerCase], [JSON.stringify]) are the fields
    of the [Host] class; an instance that folds the ASCII letters is used
    for the concrete runs. *)

From Stdlib Require Import String Ascii List ZArith Lia Bool DecimalString.
Import ListNotations.
Local Open Scope string_scope.

(** ** Values *)

(** A value as [JSON.parse] builds it, plus [undefined].

    Numbers are kept as integers (of the size that prints in plain
    decimal): the script only tests them for truthiness and prints them.
    An object is the list of its own properties in enumeration order.
    Text is kept in UTF-8, as the script and its documents are stored;
    substring search, escaping and splitting at an ASCII character agree
    with the host's view of the same text.  Counting or indexing the units
    of a string is by byte here; the script only does that to a string
    that stands where the terms array or the categories object should
    be. *)
#[warnings="-register-all"]
Inductive value : Type :=
| VUndefined
| VNull
| VBool (b : bool)
| VNum (n : Z)
| VStr (s : string)
| VArr (xs : list value)
| VObj (props : list (string * value)).

Inductive error : Type :=
| TypeError
| NetworkError
| AbortError
| HttpError (status : N)
| SyntaxError
| HostError.

(** Outcome of evaluating an expression: a value or a thrown exception. *)
Inductive result (A : Type) : Type :=
| Ok (a : A)
| Throw (e : error).
Arguments Ok {A} a.
Arguments Throw {A} e.

Definition rbind {A B : Type} (r : result A) (k : A -> result B) : result B :=
  match r with
  | Ok a => k a
  | Throw e => Throw e
  end.

Declare Scope js_scope.
Delimit Scope js_scope with js.
Notation "'let?' x ':=' r 'in' k" := (rbind r (fun x => k))
  (at level 10, x name, r at level 100, k at level 200) : js_scope.
Local Open Scope js_scope.

(** The builtins the script calls but does not define.  Of case folding
    the development uses one law: it maps the empty string, and nothing
    else, to the empty string. *)
Class Host : Type := {
  toLowerCase : string -> string;
  JSON_stringify : value -> string;
  toLowerCase_empty : forall s, toLowerCase s = EmptyString <-> s = EmptyString
}.

(** ** Strings *)

Definition dquote : string := String (ascii_of_nat 34) EmptyString.
Definition backtick : ascii := ascii_of_nat 96.

(** Markup templates are written with a backtick wherever the script has a
    double quote; [tpl] puts the double quotes back.  (No template of the
    script contains a backtick.) *)
Fixpoint tpl (s : string) : string :=
  match s with
  | EmptyString => EmptyString
  | String c rest =>
      String (if Ascii.eqb c backtick then ascii_of_nat 34 else c) (tpl rest)
  end.

(** [hay.includes(needle)] on strings. *)
Fixpoint includes (hay needle : string) : bool :=
  String.prefix needle hay ||
  match hay with
  | EmptyString => false
  | String _ rest => includes rest needle
  end.

(** [xs.join(sep)] on an array of strings. *)
Fixpoint join (sep : string) (xs : list string) : string :=
  match xs with
  | [] => EmptyString
  | [x] => x
  | x :: rest => x ++ sep ++ join sep rest
  end.

Definition string_of_Z (n : Z) : string := NilZero.string_of_int (Z.to_int n).
Definition string_of_nat (n : nat) : string := NilZero.string_of_uint (Nat.to_uint n).

(** Folding of the ASCII capitals, the part of [toLowerCase] that is the
    same in every locale. *)
Definition ascii_lower (c : ascii) : ascii :=
  let n := nat_of_ascii c in
  if (65 <=? n)%nat && (n <=? 90)%nat then ascii_of_nat (n + 32) else c.

Fixpoint ascii_toLowerCase (s : string) : string :=
  match s with
  | EmptyString => EmptyString
  | String c rest => String (ascii_lower c) (ascii_toLowerCase rest)
  end.

(** ** Operators on values *)

Definition truthy (v : value) : bool :=
  match v with
  | VUndefined | VNull => false
  | VBool b => b
  | VNum n => negb (n =? 0)%Z
  | VStr s => negb (s =? EmptyString)
  | VArr _ | VObj _ => true
  end.

Definition nullish (v : value) : bool :=
  match v with
  | VUndefined | VNull => true
  | _ => false
  end.

Fixpoint own (props : list (string * value)) (k : string) : option value :=
  match props with
  | [] => None
  | (k', v) :: rest => if k' =? k then Some v else own rest k
  end.

(** [o.k] for the member names the script reads on JSON data ([english],
    [khmer], [category], [description], [tags], [examples], [icon], [name],
    [dateAdded], [reference], [contributors], [status], [project],
    [version], [terms], [categories]).  None of them is a member of a
    builtin prototype, so only own properties of objects answer. *)
Definition get (o : value) (k : string) : result value :=
  match o with
  | VUndefined | VNull => Throw TypeError
  | VObj props =>
      match own props k with
      | Some v => Ok v
      | None => Ok VUndefined
      end
  | _ => Ok VUndefined
  end.

(** [o.length]. *)
Definition get_length (o : value) : result value :=
  match o with
  | VUndefined | VNull => Throw TypeError
  | VArr xs => Ok (VNum (Z.of_nat (List.length xs)))
  | VStr s => Ok (VNum (Z.of_nat (String.length s)))
  | VObj props =>
      match own props "length" with
      | Some v => Ok v
      | None => Ok VUndefined
      end
  | _ => Ok VUndefined
  end.

(** [a || b] and [a && b]: the value of the operand that decides. *)
Definition or_else (a b : result value) : result value :=
  let? x := a in if truthy x then Ok x else b.

Definition and_then (a b : result value) : result value :=
  let? x := a in if truthy x then b else Ok x.

Infix "|||" := or_else (at level 50, left associativity) : js_scope.
Infix "&&&" := and_then (at level 40, left associativity) : js_scope.

(** [v === s] for a string [s]. *)
Definition strict_eq_string (v : value) (s : string) : bool :=
  match v with
  | VStr t => t =? s
  | _ => false
  end.

(** [ToString], as a template literal applies it.  An object parsed from
    JSON prints through [Object.prototype.toString] unless it has an own
    [toString] property, which is then not callable. *)
Fixpoint to_string (v : value) : result string :=
  match v with
  | VUndefined => Ok "undefined"
  | VNull => Ok "null"
  | VBool true => Ok "true"
  | VBool false => Ok "false"
  | VNum n => Ok (string_of_Z n)
  | VStr s => Ok s
  | VArr xs =>
      let elem x := if nullish x then Ok EmptyString else to_string x in
      (fix join_elems (ys : list value) : result string :=
         match ys with
         | [] => Ok EmptyString
         | [y] => elem y
         | y :: rest =>
             let? s := elem y in
             let? r := join_elems rest in
             Ok (s ++ "," ++ r)
         end) xs
  | VObj props =>
      match own props "toString" with
      | Some _ => Throw TypeError
      | None => Ok "[object Object]"
      end
  end.

(** ** Array and string methods *)

(** [v.includes(needle)] for a string [needle]: substring search on a
    string, membership on an array, no such method elsewhere. *)
Definition call_includes (v : value) (needle : string) : result bool :=
  match v with
  | VStr s => Ok (includes s needle)
  | VArr xs => Ok (existsb (fun x => strict_eq_string x needle) xs)
  | _ => Throw TypeError
  end.

(** [xs.some(f)], stopping at the first element that passes or throws. *)
Fixpoint some_of (f : value -> result value) (xs : list value) : result bool :=
  match xs with
  | [] => Ok false
  | x :: rest =>
      let? r := f x in
      if truthy r then Ok true else some_of f rest
  end.

Definition call_some (v : value) (f : value -> result value) : result bool :=
  match v with
  | VArr xs => some_of f xs
  | _ => Throw TypeError
  end.

(** [xs.filter(f)]: the elements that pass, in order; an exception of the
    callback ends the traversal. *)
Fixpoint filter_array (f : value -> result bool) (xs : list value) : result (list value) :=
  match xs with
  | [] => Ok []
  | x :: rest =>
      let? b := f x in
      let? kept := filter_array f rest in
      Ok (if b then x :: kept else kept)
  end.


(** ** Markup *)

Definition escape_char (c : ascii) : string :=
  if Ascii.eqb c "&" then "&amp;"
  else if Ascii.eqb c "<" then "&lt;"
  else if Ascii.eqb c ">" then "&gt;"
  else if Ascii.eqb c (ascii_of_nat 34) then "&quot;"
  else if Ascii.eqb c "'" then "&#039;"
  else String c EmptyString.

(** [text.replace(..., (m) => map[m])]: each of the five characters of
    the pattern gives way to its entity. *)
Fixpoint escape_string (s : string) : string :=
  match s with
  | EmptyString => EmptyString
  | String c rest => escape_char c ++ escape_string rest
  end.

(** [escapeHtml]: anything that is not a string is handed back as it is. *)
Definition escapeHtml (text : value) : value :=
  match text with
  | VStr s => VStr (escape_string s)
  | v => v
  end.

(** [xs.map(f)] for a callback that may throw. *)
Fixpoint map_array {A : Type} (f : value -> result A) (xs : list value) : result (list A) :=
  match xs with
  | [] => Ok []
  | x :: rest =>
      let? y := f x in
      let? ys := map_array f rest in
      Ok (y :: ys)
  end.

Definition renderExamples (examples : value) : result string :=
  if negb (truthy examples) then Ok EmptyString
  else
    let? en := get examples "english" in
    let? km := get examples "khmer" in
    if negb (truthy en) && negb (truthy km) then Ok EmptyString
    else
      let? en_part :=
        if truthy en then
          let? s := to_string (escapeHtml en) in
          Ok (tpl "<div class=`example-text`>`" ++ s ++ tpl "`</div>")
        else Ok EmptyString in
      let? km_part :=
        if truthy km then
          let? s := to_string (escapeHtml km) in
          Ok (tpl "<div class=`example-text khmer`>`" ++ s ++ tpl "`</div>")
        else Ok EmptyString in
      Ok (tpl "
        <div class=`word-examples`>
            <div class=`example-label`>Examples:</div>
            " ++ en_part ++ "
            " ++ km_part ++ "
        </div>
    ").

Definition renderTags (tags : value) : result string :=
  match tags with
  | VArr (t :: ts) =>
      let? spans := map_array (fun tag =>
                      let? s := to_string (escapeHtml tag) in
                      Ok (tpl "<span class=`tag`>" ++ s ++ "</span>")) (t :: ts) in
      Ok (tpl "
        <div class=`word-tags`>
            " ++ join EmptyString spans ++ "
        </div>
    ")
  | _ => Ok EmptyString
  end.

Definition renderReference (reference : value) : result string :=
  if negb (truthy reference) || strict_eq_string reference "#" then Ok EmptyString
  else
    let? s := to_string (escapeHtml reference) in
    Ok (tpl "
        <a href=`" ++ s ++ tpl "` class=`word-reference` target=`_blank` rel=`noopener`>
            <span>📂</span>
            Reference
        </a>
    ").

(** Members every object parsed from JSON inherits from [Object.prototype]. *)
Definition inherited_methods : list string :=
  [ "constructor"; "hasOwnProperty"; "isPrototypeOf"; "propertyIsEnumerable";
    "toLocaleString"; "toString"; "valueOf"; "__defineGetter__";
    "__defineSetter__"; "__lookupGetter__"; "__lookupSetter__" ].

(** What [createWordCard] can see of an inherited member: a builtin
    function is truthy, has no [icon], and has its own name as [name]
    ([constructor] is the function [Object]); [__proto__] is
    [Object.prototype] itself, truthy with neither [icon] nor [name]. *)
Definition inherited (key : string) : value :=
  if key =? "__proto__" then VObj []
  else if key =? "constructor" then VObj [("name", VStr "Object")]
  else if existsb (String.eqb key) inherited_methods then VObj [("name", VStr key)]
  else VUndefined.

Fixpoint nth_entry (key : string) (i : nat) (xs : list value) : value :=
  match xs with
  | [] => VUndefined
  | x :: rest => if string_of_nat i =? key then x else nth_entry key (S i) rest
  end.

Fixpoint chars (s : string) : list value :=
  match s with
  | EmptyString => []
  | String c rest => VStr (String c EmptyString) :: chars rest
  end.

(** [categoriesData[key]].  Own properties, array elements and string
    positions are exact, and so are the members an object inherits; the
    methods arrays, strings, numbers and booleans inherit are left out
    (they read as [undefined] here). *)
Definition computed_get (o : value) (key : string) : result value :=
  match o with
  | VUndefined | VNull => Throw TypeError
  | VObj props =>
      match own props key with
      | Some v => Ok v
      | None => Ok (inherited key)
      end
  | VArr xs =>
      if key =? "length" then Ok (VNum (Z.of_nat (List.length xs)))
      else Ok (nth_entry key 0 xs)
  | VStr s =>
      if key =? "length" then Ok (VNum (Z.of_nat (String.length s)))
      else Ok (nth_entry key 0 (chars s))
  | _ => Ok VUndefined
  end.

Definition createWordCard (categoriesData word : value) : result string :=
  let? categoryKey := get word "category" in
  let? key := to_string categoryKey in
  let? category :=
    computed_get categoriesData key
    ||| Ok (VObj [("icon", VStr "📝"); ("name", VObj [("english", categoryKey)])]) in
  let? english := get word "english" in
  let? s_english := to_string (escapeHtml english) in
  let? khmer := get word "khmer" in
  let? s_khmer := to_string (escapeHtml khmer) in
  let? icon := get category "icon" in
  let? s_icon := to_string icon in
  let? name := get category "name" in
  let? name_english := get name "english" in
  let? s_name := to_string name_english in
  let? description := get word "description" ||| Ok (VStr "No description available") in
  let? s_description := to_string (escapeHtml description) in
  let? examples := get word "examples" in
  let? s_examples := renderExamples examples in
  let? tags := get word "tags" in
  let? s_tags := renderTags tags in
  let? dateAdded := get word "dateAdded" ||| Ok (VStr "Unknown") in
  let? s_date := to_string dateAdded in
  let? reference := get word "reference" in
  let? s_reference := renderReference reference in
  Ok (tpl "
        <div class=`word-card slide-up`>
            <div class=`word-english`>" ++ s_english ++ tpl "</div>
            <div class=`word-khmer`>" ++ s_khmer ++ tpl "</div>
            <div class=`word-category`>
                " ++ s_icon ++ " " ++ s_name ++ tpl "
            </div>
            <div class=`word-description`>" ++ s_description ++ tpl "</div>
            " ++ s_examples ++ "
            " ++ s_tags ++ tpl "
            <div class=`word-footer`>
                <div class=`word-date`>Added: " ++ s_date ++ "</div>
                " ++ s_reference ++ "
            </div>
        </div>
    ").

(** How every card begins. *)
Definition cardOpening : string :=
  tpl "
        <div class=`word-card slide-up`>".

Definition noResultsMarkup : string :=
  tpl "
        <div class=`no-results`>
            <h3>No terms found</h3>
            <p>Try adjusting your search or filter criteria</p>
            <button onclick=`openContributeModal()` class=`btn btn-primary` style=`margin-top: 25px;`>
                <span>➕</span>
                Contribute New Terms
            </button>
        </div>
    ".

(** ** The world: globals, page, and what the host is asked to do *)

(** The five globals of the script. *)
Record globals : Type := {
  lexiconData : value;
  categoriesData : value;
  websiteInfo : value;
  currentFilter : string;
  currentSearch : string
}.

(** A button built by [createFilterButton]. *)
Record button : Type := {
  className : string;
  dataset_category : string;
  button_innerHTML : string;
  aria_pressed : string
}.

(** The [elements] table once [initializeElements] has run.  An element the
    page lacks is [None] (or [false] where the script only looks at its
    presence); a present one carries the properties the script writes. *)
Record page : Type := {
  loading : option string;                      (* style.display *)
  error_box : option string;                    (* elements.error: style.display *)
  mainContent : option (string * list string);  (* style.display, classList *)
  searchInput : bool;
  filterButtons : option (list button);         (* children *)
  wordGrid : option string;                     (* innerHTML *)
  resultsCount : option string;                 (* textContent *)
  statsContainer : option string;               (* innerHTML *)
  contributeModal : bool
}.

Inductive panel : Type := Loading | ErrorBox | MainContent.

(** Effects in the order they happen. *)
Inductive event : Type :=
| Display (p : panel) (v : string)
| ConsoleLog (msg : string) (args : list value)
| ConsoleError (msg : string)
| Alert (msg : string)
| Listen (target type : string)
| Download (filename content : string).

(** What one request does: no reply at all, or a reply with a status and
    a body that parses as JSON or does not.  [after_ms] is when [fetch]
    settles, that is when the request fails or the head of the reply is
    in; reading the body comes after [clearTimeout] and is not timed. *)
Inductive exchange : Type :=
| Unreachable (after_ms : N)
| Responds (after_ms : N) (status : N) (body : option value).

Record response : Type := {
  resp_status : N;
  resp_body : option value
}.

Record world : Type := {
  app : globals;
  dom : page;
  trace : list event;
  network : string -> exchange;   (* what [fetch] meets for each url *)
  clock : string;                 (* [new Date().toISOString()] *)
  download_works : bool           (* whether Blob, object URL and link click succeed *)
}.

Definition with_app (g : globals) (w : world) : world :=
  {| app := g; dom := dom w; trace := trace w; network := network w;
     clock := clock w; download_works := download_works w |}.

Definition with_dom (d : page) (w : world) : world :=
  {| app := app w; dom := d; trace := trace w; network := network w;
     clock := clock w; download_works := download_works w |}.

Definition emit (e : event) (w : world) : world :=
  {| app := app w; dom := dom w; trace := trace w ++ [e]; network := network w;
     clock := clock w; download_works := download_works w |}.

Definition set_loading (v : option string) (d : page) : page :=
  {| loading := v; error_box := error_box d; mainContent := mainContent d;
     searchInput := searchInput d; filterButtons := filterButtons d;
     wordGrid := wordGrid d; resultsCount := resultsCount d;
     statsContainer := statsContainer d; contributeModal := contributeModal d |}.

Definition set_error_box (v : option string) (d : page) : page :=
  {| loading := loading d; error_box := v; mainContent := mainContent d;
     searchInput := searchInput d; filterButtons := filterButtons d;
     wordGrid := wordGrid d; resultsCount := resultsCount d;
     statsContainer := statsContainer d; contributeModal := contributeModal d |}.

Definition set_mainContent (v : option (string * list string)) (d : page) : page :=
  {| loading := loading d; error_box := error_box d; mainContent := v;
     searchInput := searchInput d; filterButtons := filterButtons d;
     wordGrid := wordGrid d; resultsCount := resultsCount d;
     statsContainer := statsContainer d; contributeModal := contributeModal d |}.

Definition set_filterButtons (v : option (list button)) (d : page) : page :=
  {| loading := loading d; error_box := error_box d; mainContent := mainContent d;
     searchInput := searchInput d; filterButtons := v;
     wordGrid := wordGrid d; resultsCount := resultsCount d;
     statsContainer := statsContainer d; contributeModal := contributeModal d |}.

Definition set_wordGrid (v : option string) (d : page) : page :=
  {| loading := loading d; error_box := error_box d; mainContent := mainContent d;
     searchInput := searchInput d; filterButtons := filterButtons d;
     wordGrid := v; resultsCount := resultsCount d;
     statsContainer := statsContainer d; contributeModal := contributeModal d |}.

Definition set_resultsCount (v : option string) (d : page) : page :=
  {| loading := loading d; error_box := error_box d; mainContent := mainContent d;
     searchInput := searchInput d; filterButtons := filterButtons d;
     wordGrid := wordGrid d; resultsCount := v;
     statsContainer := statsContainer d; contributeModal := contributeModal d |}.

Definition set_statsContainer (v : option string) (d : page) : page :=
  {| loading := loading d; error_box := error_box d; mainContent := mainContent d;
     searchInput := searchInput d; filterButtons := filterButtons d;
     wordGrid := wordGrid d; resultsCount := resultsCount d;
     statsContainer := v; contributeModal := contributeModal d |}.

Definition set_lexiconData (v : value) (g : globals) : globals :=
  {| lexiconData := v; categoriesData := categoriesData g; websiteInfo := websiteInfo g;
     currentFilter := currentFilter g; currentSearch := currentSearch g |}.

Definition set_categoriesData (v : value) (g : globals) : globals :=
  {| lexiconData := lexiconData g; categoriesData := v; websiteInfo := websiteInfo g;
     currentFilter := currentFilter g; currentSearch := currentSearch g |}.

Definition set_websiteInfo (v : value) (g : globals) : globals :=
  {| lexiconData := lexiconData g; categoriesData := categoriesData g; websiteInfo := v;
     currentFilter := currentFilter g; currentSearch := currentSearch g |}.

(** ** The monad of the stateful functions *)

(** A statement runs in a world and leaves a world, with a value or with
    an exception; the writes made before a throw stay. *)
Definition M (A : Type) : Type := world -> result A * world.

Definition ret {A : Type} (a : A) : M A := fun w => (Ok a, w).

Definition bind {A B : Type} (m : M A) (k : A -> M B) : M B :=
  fun w =>
    match m w with
    | (Ok a, w') => k a w'
    | (Throw e, w') => (Throw e, w')
    end.

Definition throw {A : Type} (e : error) : M A := fun w => (Throw e, w).

Definition lift {A : Type} (r : result A) : M A := fun w => (r, w).

Definition read : M world := fun w => (Ok w, w).

Definition write (f : world -> world) : M unit := fun w => (Ok tt, f w).

(** [try { m } catch (error) { h }] *)
Definition try_catch {A : Type} (m : M A) (h : error -> M A) : M A :=
  fun w =>
    match m w with
    | (Ok a, w') => (Ok a, w')
    | (Throw e, w') => h e w'
    end.

Notation "x <- m ;; k" := (bind m (fun x => k))
  (at level 61, m at next level, right associativity) : js_scope.
Notation "m ;; k" := (bind m (fun _ => k))
  (at level 61, right associativity) : js_scope.

Definition log (e : event) : M unit := write (emit e).

(** ** UI state management *)

(** The page after [elements.<panel>.style.display = v]; [None] when the
    page has no such element. *)
Definition put_display (p : panel) (v : string) (d : page) : option page :=
  match p with
  | Loading =>
      match loading d with
      | Some _ => Some (set_loading (Some v) d)
      | None => None
      end
  | ErrorBox =>
      match error_box d with
      | Some _ => Some (set_error_box (Some v) d)
      | None => None
      end
  | MainContent =>
      match mainContent d with
      | Some (_, classes) => Some (set_mainContent (Some (v, classes)) d)
      | None => None
      end
  end.

(** [elements.<panel>.style.display = v] *)
Definition set_display (p : panel) (v : string) : M unit :=
  w <- read ;;
  match put_display p v (dom w) with
  | Some d => write (fun w => emit (Display p v) (with_dom d w))
  | None => throw TypeError
  end.

Definition showLoading : M unit :=
  set_display Loading "block" ;;
  set_display ErrorBox "none" ;;
  set_display MainContent "none".

Definition hideLoading : M unit :=
  set_display Loading "none".

Definition showError : M unit :=
  set_display Loading "none" ;;
  set_display ErrorBox "block" ;;
  set_display MainContent "none".

(** [classList.add(c)] *)
Definition classList_add (c : string) (classes : list string) : list string :=
  if existsb (String.eqb c) classes then classes else (classes ++ [c])%list.

Definition showMainContent : M unit :=
  set_display MainContent "block" ;;
  w <- read ;;
  match mainContent (dom w) with
  | Some (d, classes) =>
      write (with_dom (set_mainContent (Some (d, classList_add "fade-in" classes)) (dom w)))
  | None => throw TypeError
  end.

(** ** Interface initialisation *)

Definition createFilterButton (categoryKey : string) (name icon : value) (isActive : bool)
  : result button :=
  let? s_icon := to_string icon in
  let? s_name := to_string name in
  Ok {| className := "filter-btn " ++ (if isActive then "active" else EmptyString);
        dataset_category := categoryKey;
        button_innerHTML := s_icon ++ " " ++ s_name;
        aria_pressed := if isActive then "true" else "false" |}.

Fixpoint indexed (i : nat) (xs : list value) : list (string * value) :=
  match xs with
  | [] => []
  | x :: rest => (string_of_nat i, x) :: indexed (S i) rest
  end.

(** [Object.entries(o)] *)
Definition Object_entries (o : value) : result (list (string * value)) :=
  match o with
  | VUndefined | VNull => Throw TypeError
  | VObj props => Ok props
  | VArr xs => Ok (indexed 0 xs)
  | VStr s => Ok (indexed 0 (chars s))
  | _ => Ok []
  end.

(** [elements.filterButtons.appendChild(b)] *)
Definition appendButton (b : button) : M unit :=
  w <- read ;;
  match filterButtons (dom w) with
  | Some bs => write (with_dom (set_filterButtons (Some (bs ++ [b])%list) (dom w)))
  | None => throw TypeError
  end.

(** [xs.forEach(f)] for a callback with effects. *)
Fixpoint for_each {A : Type} (f : A -> M unit) (xs : list A) : M unit :=
  match xs with
  | [] => ret tt
  | x :: rest => f x ;; for_each f rest
  end.

Definition populateCategoryButtons : M unit :=
  w <- read ;;
  match filterButtons (dom w) with
  | None => ret tt
  | Some _ =>
      write (with_dom (set_filterButtons (Some []) (dom w))) ;;
      allButton <- lift (createFilterButton "all" (VStr "All Categories") (VStr "📚") true) ;;
      appendButton allButton ;;
      entries <- lift (Object_entries (categoriesData (app w))) ;;
      for_each (fun '(categoryKey, category) =>
        b <- lift (let? name := get category "name" in
                   let? name_english := get name "english" in
                   let? icon := get category "icon" ||| Ok (VStr "📝") in
                   createFilterButton categoryKey name_english icon false) ;;
        appendButton b) entries
  end.

(** Equality of a [Set]: by value on primitives; every array and object
    parsed from JSON is an element of its own. *)
Definition same_value (a b : value) : bool :=
  match a, b with
  | VUndefined, VUndefined => true
  | VNull, VNull => true
  | VBool x, VBool y => Bool.eqb x y
  | VNum x, VNum y => (x =? y)%Z
  | VStr x, VStr y => x =? y
  | _, _ => false
  end.

(** [new Set(xs).size] *)
Fixpoint set_size (seen xs : list value) : nat :=
  match xs with
  | [] => 0
  | x :: rest =>
      if existsb (same_value x) seen then set_size seen rest
      else S (set_size (x :: seen) rest)
  end.

(** [xs.flatMap(f)]: an array handed back by the callback is spliced in,
    anything else is one element. *)
Fixpoint flat_map_array (f : value -> result value) (xs : list value) : result (list value) :=
  match xs with
  | [] => Ok []
  | x :: rest =>
      let? y := f x in
      let? ys := flat_map_array f rest in
      Ok (match y with
          | VArr items => (items ++ ys)%list
          | _ => y :: ys
          end)
  end.

Definition statCard (number label : string) : string :=
  tpl "
        <div class=`stat-card`>
            <div class=`stat-number`>" ++ number ++ tpl "</div>
            <div class=`stat-label`>" ++ label ++ "</div>
        </div>
    ".

Definition updateStats : M unit :=
  w <- read ;;
  match statsContainer (dom w) with
  | None => ret tt
  | Some _ =>
      totalTerms <- lift (get_length (lexiconData (app w))) ;;
      categoryEntries <- lift (Object_entries (categoriesData (app w))) ;;
      contributors <- lift (match lexiconData (app w) with
                            | VArr terms =>
                                flat_map_array (fun term =>
                                  get term "contributors" ||| Ok (VArr [])) terms
                            | _ => Throw TypeError
                            end) ;;
      verified <- lift (match lexiconData (app w) with
                        | VArr terms =>
                            filter_array (fun term =>
                              let? status := get term "status" in
                              Ok (strict_eq_string status "verified")) terms
                        | _ => Throw TypeError
                        end) ;;
      s_totalTerms <- lift (to_string totalTerms) ;;
      write (with_dom (set_statsContainer (Some (join EmptyString
        [ statCard s_totalTerms "Technical Terms";
          statCard (string_of_nat (List.length categoryEntries)) "Categories";
          statCard (string_of_nat (set_size [] contributors)) "Contributors";
          statCard (string_of_nat (List.length verified)) "Verified Terms" ])) (dom w)))
  end.

Definition setupEventListeners : M unit :=
  w <- read ;;
  (if searchInput (dom w) then log (Listen "searchInput" "input") else ret tt) ;;
  match filterButtons (dom w) with
  | Some _ => log (Listen "filterButtons" "click")
  | None => ret tt
  end ;;
  (if contributeModal (dom w) then log (Listen "contributeModal" "click") else ret tt) ;;
  log (Listen "document" "keydown") ;;
  log (Listen "window" "resize").

Definition initializeInterface : M unit :=
  populateCategoryButtons ;;
  updateStats ;;
  setupEventListeners.

(** ** Fetching *)

(** [response.ok] *)
Definition status_ok (status : N) : bool := ((200 <=? status) && (status <=? 299))%N.

(** [fetchWithTimeout(url, timeout)].  The timer aborts a request that has
    not been answered when it fires; an answer in the very millisecond of
    the deadline counts as late. *)
Definition fetchWithTimeout (url : string) (timeout : N) : M response :=
  w <- read ;;
  match network w url with
  | Unreachable after_ms =>
      if (timeout <=? after_ms)%N then throw AbortError else throw NetworkError
  | Responds after_ms status body =>
      if (timeout <=? after_ms)%N then throw AbortError
      else if status_ok status then ret {| resp_status := status; resp_body := body |}
      else throw (HttpError status)
  end.

(** The three documents [loadData] asks for. *)
Definition urls : list string :=
  ["data/lexicon.json"; "data/categories.json"; "data/website.json"].

(** [await response.json()] *)
Definition json (r : response) : M value :=
  match resp_body r with
  | Some v => ret v
  | None => throw SyntaxError
  end.

(** ** Export *)

(** [s.split('T')[0]] *)
Fixpoint before_T (s : string) : string :=
  match s with
  | EmptyString => EmptyString
  | String c rest => if Ascii.eqb c "T" then EmptyString else String c (before_T rest)
  end.

Definition getCurrentDateString : M string :=
  w <- read ;;
  ret (before_T (clock w)).

(** Blob, object URL, hidden link, click and clean-up: the host either
    carries the download through or throws on the way. *)
Definition download (filename content : string) : M unit :=
  w <- read ;;
  if download_works w then log (Download filename content) else throw HostError.

(** ** The script, over its host *)

Section Program.
Context {host : Host}.

(** [v.toLowerCase()]: only strings have the method. *)
Definition call_toLowerCase (v : value) : result string :=
  match v with
  | VStr s => Ok (toLowerCase s)
  | _ => Throw TypeError
  end.

(** [v?.toLowerCase().includes(needle)] *)
Definition opt_lower_includes (v : value) (needle : string) : result value :=
  if nullish v then Ok VUndefined
  else
    let? l := call_toLowerCase v in
    Ok (VBool (includes l needle)).

(** [v?.includes(needle)] *)
Definition opt_includes (v : value) (needle : string) : result value :=
  if nullish v then Ok VUndefined
  else
    let? b := call_includes v needle in
    Ok (VBool b).

(** ** The query: [searchMatches] and the callback of [filterWords] *)

(** The five operands of the disjunction in [searchMatches], in order. *)

(** [word.english.toLowerCase().includes(searchLower)] *)
Definition englishCheck (word : value) (searchLower : string) : result value :=
  let? e := get word "english" in
  let? l := call_toLowerCase e in
  Ok (VBool (includes l searchLower)).

(** [word.khmer.includes(searchTerm)] *)
Definition khmerCheck (word : value) (searchTerm : string) : result value :=
  let? k := get word "khmer" in
  let? b := call_includes k searchTerm in
  Ok (VBool b).

(** [word.description && word.description.toLowerCase().includes(searchLower)] *)
Definition descriptionCheck (word : value) (searchLower : string) : result value :=
  get word "description" &&&
  (let? d := get word "description" in
   let? l := call_toLowerCase d in
   Ok (VBool (includes l searchLower))).

(** [word.tags && word.tags.some(tag => tag.toLowerCase().includes(searchLower))] *)
Definition tagsCheck (word : value) (searchLower : string) : result value :=
  get word "tags" &&&
  (let? ts := get word "tags" in
   let? b := call_some ts (fun tag =>
               let? l := call_toLowerCase tag in
               Ok (VBool (includes l searchLower))) in
   Ok (VBool b)).

(** [word.examples && (word.examples.english?.toLowerCase().includes(searchLower)
                       || word.examples.khmer?.includes(searchTerm))] *)
Definition examplesCheck (word : value) (searchTerm searchLower : string) : result value :=
  get word "examples" &&&
  ((let? ex := get word "examples" in
    let? e := get ex "english" in
    opt_lower_includes e searchLower)
   |||
   (let? ex := get word "examples" in
    let? k := get ex "khmer" in
    opt_includes k searchTerm)).

Definition searchMatches (word : value) (searchTerm : string) : result value :=
  let searchLower := toLowerCase searchTerm in
  englishCheck word searchLower
  ||| khmerCheck word searchTerm
  ||| descriptionCheck word searchLower
  ||| tagsCheck word searchLower
  ||| examplesCheck word searchTerm searchLower.

(** [const matchesSearch = currentSearch === '' || searchMatches(word, currentSearch)] *)
Definition matchesSearch (currentSearch : string) (word : value) : result value :=
  if currentSearch =? EmptyString then Ok (VBool true)
  else searchMatches word currentSearch.

(** [const matchesCategory = currentFilter === 'all' || word.category === currentFilter] *)
Definition matchesCategory (currentFilter : string) (word : value) : result bool :=
  if currentFilter =? "all" then Ok true
  else
    let? c := get word "category" in
    Ok (strict_eq_string c currentFilter).

(** The arrow function handed to [lexiconData.filter]. *)
Definition keeps (currentSearch currentFilter : string) (word : value) : result bool :=
  let? s := matchesSearch currentSearch word in
  let? c := matchesCategory currentFilter word in
  Ok (truthy s && c).

(** ** Word rendering *)

Definition filterWords : M (list value) :=
  w <- read ;;
  match lexiconData (app w) with
  | VArr words =>
      lift (filter_array (keeps (currentSearch (app w)) (currentFilter (app w))) words)
  | _ => throw TypeError
  end.

Definition renderNoResults : M unit :=
  w <- read ;;
  match wordGrid (dom w) with
  | Some _ => write (with_dom (set_wordGrid (Some noResultsMarkup) (dom w)))
  | None => throw TypeError
  end.

Definition renderWordCards (words : list value) : M unit :=
  w <- read ;;
  cards <- lift (map_array (createWordCard (categoriesData (app w))) words) ;;
  match wordGrid (dom w) with
  | Some _ => write (with_dom (set_wordGrid (Some (join EmptyString cards)) (dom w)))
  | None => throw TypeError
  end.

Definition renderWords : M unit :=
  w <- read ;;
  match wordGrid (dom w), resultsCount (dom w) with
  | Some _, Some _ =>
      filteredWords <- filterWords ;;
      write (fun w => with_dom (set_resultsCount
               (Some (string_of_nat (List.length filteredWords) ++ " terms found")) (dom w)) w) ;;
      if Nat.eqb (List.length filteredWords) 0 then renderNoResults
      else renderWordCards filteredWords
  | _, _ => ret tt
  end.

(** ** Data loading *)

(** The body of [loadData] from the stores on. *)
Definition store_and_show (lexiconJson categoriesJson websiteJson : value) : M unit :=
  terms <- lift (get lexiconJson "terms" ||| Ok (VArr [])) ;;
  write (fun w => with_app (set_lexiconData terms (app w)) w) ;;
  categories <- lift (get categoriesJson "categories" ||| Ok (VObj [])) ;;
  write (fun w => with_app (set_categoriesData categories (app w)) w) ;;
  info <- lift (Ok websiteJson ||| Ok (VObj [])) ;;
  write (fun w => with_app (set_websiteInfo info (app w)) w) ;;
  hideLoading ;;
  showMainContent ;;
  initializeInterface ;;
  renderWords ;;
  w <- read ;;
  n_terms <- lift (get_length (lexiconData (app w))) ;;
  entries <- lift (Object_entries (categoriesData (app w))) ;;
  log (ConsoleLog "Data loaded successfully:"
         [VObj [("terms", n_terms);
                ("categories", VNum (Z.of_nat (List.length entries)))]]).

(** The awaits of [loadData] up to the three parsed documents.  The
    three requests are in flight together and [Promise.all] rejects as
    soon as one of them does; which rejection reaches the handler depends
    on their timing, and the handler does not look at it. *)
Definition fetch_documents : M (value * value * value) :=
  lexiconResponse <- fetchWithTimeout "data/lexicon.json" 10000 ;;
  categoriesResponse <- fetchWithTimeout "data/categories.json" 10000 ;;
  websiteResponse <- fetchWithTimeout "data/website.json" 10000 ;;
  lexiconJson <- json lexiconResponse ;;
  categoriesJson <- json categoriesResponse ;;
  websiteJson <- json websiteResponse ;;
  ret (lexiconJson, categoriesJson, websiteJson).

(** [loadData], one run from the call to the settling of its promise,
    taken as a whole: no other handler of the page is run at its awaits. *)
Definition loadData : M unit :=
  try_catch
    (showLoading ;;
     documents <- fetch_documents ;;
     let '(lexiconJson, categoriesJson, websiteJson) := documents in
     store_and_show lexiconJson categoriesJson websiteJson)
    (fun _ =>
       log (ConsoleError "Error loading data:") ;;
       showError).

(** ** Export functionality *)

(** The object [exportJSON] serialises. *)
Definition dataToExport (exportDate : string) (totalTerms version : value) (g : globals) : value :=
  VObj [ ("metadata", VObj [ ("exportDate", VStr exportDate);
                             ("totalTerms", totalTerms);
                             ("version", version);
                             ("exportedBy", VStr "Domra Tech Lexicon") ]);
         ("terms", lexiconData g);
         ("categories", categoriesData g) ].

Definition exportJSON : M unit :=
  try_catch
    (w <- read ;;
     totalTerms <- lift (get_length (lexiconData (app w))) ;;
     version <- lift ((let? project := get (websiteInfo (app w)) "project" in
                       if nullish project then Ok VUndefined else get project "version")
                      ||| Ok (VStr "1.0.0")) ;;
     let dataStr := JSON_stringify (dataToExport (clock w) totalTerms version (app w)) in
     date <- getCurrentDateString ;;
     download ("domra-tech-lexicon-" ++ date ++ ".json") dataStr ;;
     log (ConsoleLog "Data exported successfully" []))
    (fun _ =>
       log (ConsoleError "Error exporting data:") ;;
       log (Alert "Error exporting data. Please try again.")).

End Program.

(** ** A host for concrete runs *)

Definition hex_digit (n : nat) : ascii :=
  ascii_of_nat (if (n <? 10)%nat then 48 + n else 87 + n).

(** A character inside a JSON string literal, as [JSON.stringify] quotes it. *)
Definition quote_char (c : ascii) : string :=
  let n := nat_of_ascii c in
  if (n =? 34)%nat then String "\" dquote
  else if (n =? 92)%nat then "\\"
  else if (n =? 8)%nat then "\b"
  else if (n =? 9)%nat then "\t"
  else if (n =? 10)%nat then "\n"
  else if (n =? 12)%nat then "\f"
  else if (n =? 13)%nat then "\r"
  else if (n <? 32)%nat then
    "\u00" ++ String (hex_digit (n / 16)) (String (hex_digit (n mod 16)) EmptyString)
  else String c EmptyString.

Fixpoint quote_chars (s : string) : string :=
  match s with
  | EmptyString => EmptyString
  | String c rest => quote_char c ++ quote_chars rest
  end.

Definition quote (s : string) : string := dquote ++ quote_chars s ++ dquote.

Fixpoint spaces (n : nat) : string :=
  match n with
  | O => EmptyString
  | S k => String " " (spaces k)
  end.

(** [JSON.stringify(v, null, 2)] at a given depth; [None] for a value that
    has no JSON text ([undefined]). *)
Fixpoint stringify_at (depth : nat) (v : value) : option string :=
  match v with
  | VUndefined => None
  | VNull => Some "null"
  | VBool true => Some "true"
  | VBool false => Some "false"
  | VNum n => Some (string_of_Z n)
  | VStr s => Some (quote s)
  | VArr xs =>
      let items :=
        (fix go (ys : list value) : list string :=
           match ys with
           | [] => []
           | y :: rest =>
               (spaces (2 * S depth) ++
                match stringify_at (S depth) y with
                | Some t => t
                | None => "null"
                end) :: go rest
           end) xs in
      match items with
      | [] => Some "[]"
      | _ => Some ("[" ++ String "010" (join (String "," (String "010" EmptyString)) items)
                   ++ String "010" (spaces (2 * depth)) ++ "]")
      end
  | VObj props =>
      let items :=
        (fix go (ps : list (string * value)) : list string :=
           match ps with
           | [] => []
           | (k, y) :: rest =>
               match stringify_at (S depth) y with
               | Some t => (spaces (2 * S depth) ++ quote k ++ ": " ++ t) :: go rest
               | None => go rest
               end
           end) props in
      match items with
      | [] => Some "{}"
      | _ => Some ("{" ++ String "010" (join (String "," (String "010" EmptyString)) items)
                   ++ String "010" (spaces (2 * depth)) ++ "}")
      end
  end.

Definition stringify_pretty (v : value) : string :=
  match stringify_at 0 v with
  | Some t => t
  | None => "undefined"
  end.

Definition ascii_toLowerCase_empty :
  forall s, ascii_toLowerCase s = EmptyString <-> s = EmptyString.
Proof.
  destruct s; simpl; split; intro H; try reflexivity; discriminate H.
Qed.

#[export] Instance ascii_host : Host := {|
  toLowerCase := ascii_toLowerCase;
  JSON_stringify := stringify_pretty;
  toLowerCase_empty := ascii_toLowerCase_empty
|}.

(** ** The specification's reading of the query *)

Module Spec.

(** The data model of the specification, as far as the query looks at
    it.  An optional field is [None] when the document leaves it out or
    gives [null]. *)
Record Examples : Type := {
  englishExample : option string;
  khmerExample : option string
}.

Record Term : Type := {
  englishName : string;
  khmerName : string;
  categoryKey : option string;
  description : option string;
  tags : option (list string);
  examples : option Examples
}.

(** An optional string field: left out, or a string. *)
Definition optional_string (v : value) : option (option string) :=
  match v with
  | VUndefined | VNull => Some None
  | VStr s => Some (Some s)
  | _ => None
  end.

Fixpoint strings (xs : list value) : option (list string) :=
  match xs with
  | [] => Some []
  | VStr s :: rest =>
      match strings rest with
      | Some ss => Some (s :: ss)
      | None => None
      end
  | _ :: _ => None
  end.

Definition optional_tags (v : value) : option (option (list string)) :=
  match v with
  | VUndefined | VNull => Some None
  | VArr xs =>
      match strings xs with
      | Some ss => Some (Some ss)
      | None => None
      end
  | _ => None
  end.

Definition field (props : list (string * value)) (k : string) : value :=
  match own props k with
  | Some v => v
  | None => VUndefined
  end.

Definition optional_examples (v : value) : option (option Examples) :=
  match v with
  | VUndefined | VNull => Some None
  | VObj props =>
      match optional_string (field props "english"), optional_string (field props "khmer") with
      | Some en, Some km => Some (Some {| englishExample := en; khmerExample := km |})
      | _, _ => None
      end
  | _ => None
  end.

(** The term a JSON value stands for, when it has the shape of the data
    model: an object with string names and optional fields of their
    types.  The category key is the [category] string, if there is one. *)
Definition term_of (word : value) : option Term :=
  match word with
  | VObj props =>
      match field props "english", field props "khmer",
            optional_string (field props "description"),
            optional_tags (field props "tags"),
            optional_examples (field props "examples") with
      | VStr en, VStr km, Some d, Some ts, Some ex =>
          Some {| englishName := en;
                  khmerName := km;
                  categoryKey := match field props "category" with
                                 | VStr c => Some c
                                 | _ => None
                                 end;
                  description := d;
                  tags := ts;
                  examples := ex |}
      | _, _, _, _, _ => None
      end
  | _ => None
  end.

Section Predicates.
Context {host : Host}.

(** Substring match after case folding of both sides. *)
Definition ci_substring (needle hay : string) : bool :=
  includes (toLowerCase hay) (toLowerCase needle).

(** Substring match as the text stands. *)
Definition cs_substring (needle hay : string) : bool :=
  includes hay needle.

Definition on_option {A : Type} (p : A -> bool) (o : option A) : bool :=
  match o with
  | Some a => p a
  | None => false
  end.

(** The five checks of the text match. *)
Definition check_english (t : Term) (s : string) : bool :=
  ci_substring s (englishName t).

Definition check_khmer (t : Term) (s : string) : bool :=
  cs_substring s (khmerName t).

Definition check_description (t : Term) (s : string) : bool :=
  on_option (ci_substring s) (description t).

Definition check_tags (t : Term) (s : string) : bool :=
  on_option (existsb (ci_substring s)) (tags t).

Definition check_examples (t : Term) (s : string) : bool :=
  on_option (fun ex =>
               on_option (ci_substring s) (englishExample ex)
               || on_option (cs_substring s) (khmerExample ex))
            (examples t).

Definition textMatches (t : Term) (searchText : string) : bool :=
  if searchText =? EmptyString then true
  else check_english t searchText
       || check_khmer t searchText
       || check_description t searchText
       || check_tags t searchText
       || check_examples t searchText.

Definition categoryMatches (t : Term) (selectedCategory : string) : bool :=
  (selectedCategory =? "all")
  || match categoryKey t with
     | Some c => c =? selectedCategory
     | None => false
     end.

(** Whether a loaded value is in the visible set. *)
Definition visible (selectedCategory searchText : string) (word : value) : bool :=
  match term_of word with
  | Some t => categoryMatches t selectedCategory && textMatches t searchText
  | None => false
  end.

End Predicates.

(** [l] is [m] with some elements left out: same order, nothing twice,
    nothing new. *)
Inductive subsequence {A : Type} : list A -> list A -> Prop :=
| subsequence_nil : subsequence [] []
| subsequence_skip : forall x l m, subsequence l m -> subsequence l (x :: m)
| subsequence_keep : forall x l m, subsequence l m -> subsequence (x :: l) (x :: m).

(** A resource fails when it cannot be fetched, answers after the ten
    seconds, answers with a status outside 200-299, or has a body that is
    not JSON. *)
Definition resource_fails (x : exchange) : bool :=
  match x with
  | Unreachable _ => true
  | Responds after_ms status body =>
      (10000 <? after_ms)%N
      || negb ((200 <=? status) && (status <=? 299))%N
      || match body with
         | Some _ => false
         | None => true
         end
  end.

(** A resource arrives: within the ten seconds, with a success status and
    a body that parses to [doc]. *)
Definition delivers (x : exchange) (doc : value) : Prop :=
  exists after_ms status,
    x = Responds after_ms status (Some doc)
    /\ (after_ms < 10000)%N
    /\ (200 <= status <= 299)%N.

(** The three panels [loadData] switches between are on the page. *)
Definition panels_present (d : page) : Prop :=
  loading d <> None /\ error_box d <> None /\ mainContent d <> None.

(** A category of the data model: an object with a [name] object whose
    [english] is a string, and an [icon] that is left out or a string. *)
Definition category_ok (v : value) : bool :=
  match v with
  | VObj props =>
      match field props "name", optional_string (field props "icon") with
      | VObj nprops, Some _ =>
          match field nprops "english" with
          | VStr _ => true
          | _ => false
          end
      | _, _ => false
      end
  | _ => false
  end.

Definition categories_ok (cats : value) : bool :=
  match cats with
  | VObj props => forallb (fun entry => category_ok (snd entry)) props
  | _ => false
  end.

(** A term the renderer can print: a term of the data model whose
    category key is a string other than [__proto__], and whose date and
    reference are left out or strings. *)
Definition term_ok (word : value) : bool :=
  match term_of word, word with
  | Some t, VObj props =>
      match categoryKey t,
            optional_string (field props "dateAdded"),
            optional_string (field props "reference") with
      | Some c, Some _, Some _ => negb (c =? "__proto__")
      | _, _, _ => false
      end
  | _, _ => false
  end.

(** The member of a document under a top-level key; [undefined] when the
    document lacks the key. *)
Definition member (doc : value) (k : string) : value :=
  match doc with
  | VObj props => field props k
  | _ => VUndefined
  end.

(** The [terms] member of the lexicon document: lacking, or an array of
    terms the renderer can print. *)
Definition optional_terms_ok (m : value) : bool :=
  match m with
  | VUndefined => true
  | VArr words => forallb term_ok words
  | _ => false
  end.

(** The [categories] member of the categories document: lacking, or a
    mapping of categories of the data model. *)
Definition optional_categories_ok (m : value) : bool :=
  match m with
  | VUndefined => true
  | VObj _ => categories_ok m
  | _ => false
  end.

End Spec.

(** ** Frames *)

(** Events that switch no panel and report no error. *)
Definition quiet (e : event) : bool :=
  match e with
  | Display _ _ | ConsoleError _ | Alert _ => false
  | _ => true
  end.

(** [w'] is [w] after steps that leave the globals and the three panels
    alone and add only quiet events to the trace. *)
Definition settled (w w' : world) : Prop :=
  app w' = app w
  /\ loading (dom w') = loading (dom w)
  /\ error_box (dom w') = error_box (dom w)
  /\ mainContent (dom w') = mainContent (dom w)
  /\ exists events, trace w' = (trace w ++ events)%list /\ forallb quiet events = true.

(** [w'] has the word grid and the results label of [w]. *)
Definition same_results (w w' : world) : Prop :=
  wordGrid (dom w') = wordGrid (dom w)
  /\ resultsCount (dom w') = resultsCount (dom w).

(** ** Sample data *)

Definition cacheTerm : value :=
  VObj [("english", VStr "Cache"); ("khmer", VStr "឴ឃាស"); ("category", VStr "storage")].

Definition schedulerTerm : value :=
  VObj [("english", VStr "Scheduler"); ("khmer", VStr "឴សឈេឌ"); ("category", VStr "compute")].

Definition sampleGlobals (terms : list value) (filter search : string) : globals :=
  {| lexiconData := VArr terms;
     categoriesData := VObj [];
     websiteInfo := VObj [];
     currentFilter := filter;
     currentSearch := search |}.

Definition fullPage : page :=
  {| loading := Some EmptyString;
     error_box := Some EmptyString;
     mainContent := Some (EmptyString, []);
     searchInput := true;
     filterButtons := Some [];
     wordGrid := Some EmptyString;
     resultsCount := Some EmptyString;
     statsContainer := Some EmptyString;
     contributeModal := true |}.

Definition sampleWorld (g : globals) (net : string -> exchange) : world :=
  {| app := g;
     dom := fullPage;
     trace := [];
     network := net;
     clock := "2024-05-17T08:30:00.000Z";
     download_works := true |}.

Definition offline : string -> exchange := fun _ => Unreachable 5.

(** A term whose description is a number. *)
Definition malformedTerm : value :=
  VObj [("english", VStr "Cache"); ("khmer", VStr "឴ឃាស"); ("category", VStr "storage");
        ("description", VNum 404)].

(** A term whose date carries markup, and one whose category key does. *)
Definition markupDateTerm : value :=
  VObj [("english", VStr "Cache"); ("khmer", VStr "឴ឃាស"); ("category", VStr "storage");
        ("dateAdded", VStr "<script>alert(1)</script>")].

Definition markupCategoryTerm : value :=
  VObj [("english", VStr "Cache"); ("khmer", VStr "឴ឃាស");
        ("category", VStr "<img src=x onerror=alert(1)>")].

(** A category whose display name carries markup. *)
Definition markupCategories : value :=
  VObj [("storage", VObj [("name", VObj [("english", VStr "<b>Storage</b>")]);
                          ("icon", VStr "💾")])].

Definition storageCategories : value :=
  VObj [("storage", VObj [("name", VObj [("english", VStr "Storage"); ("khmer", VStr "ផ្ទុក")]);
                          ("icon", VStr "💾")])].

(** A server that answers each of the three urls with a document. *)
Definition serves (lexiconDoc categoriesDoc websiteDoc : value) : string -> exchange :=
  fun url =>
    if url =? "data/lexicon.json" then Responds 120 200 (Some lexiconDoc)
    else if url =? "data/categories.json" then Responds 80 200 (Some categoriesDoc)
    else Responds 95 200 (Some websiteDoc).

(** A page that has the results label but no word grid. *)
Definition pageWithoutGrid : page :=
  set_wordGrid None (set_resultsCount (Some "2 terms found") fullPage).

(** A term with every optional field of the query, and the term of the
    data model it stands for. *)
Definition gatewayTerm : value :=
  VObj [("english", VStr "api gateway"); ("khmer", VStr "ច្រកទ្វារ");
        ("category", VStr "network");
        ("description", VStr "Single entry point for client requests");
        ("tags", VArr [VStr "Networking"; VStr "HTTP"]);
        ("examples", VObj [("english", VStr "The gateway routes calls");
                           ("khmer", VStr "ឧទាហរណ៍")])].

Definition gatewayView : Spec.Term :=
  {| Spec.englishName := "api gateway";
     Spec.khmerName := "ច្រកទ្វារ";
     Spec.categoryKey := Some "network";
     Spec.description := Some "Single entry point for client requests";
     Spec.tags := Some ["Networking"; "HTTP"];
     Spec.examples := Some {| Spec.englishExample := Some "The gateway routes calls";
                              Spec.khmerExample := Some "ឧទាហរណ៍" |} |}.

Definition sampleTerms : list value := [cacheTerm; schedulerTerm].

(** The page and globals of a session on the sample terms. *)
Definition session (filter search : string) : world :=
  sampleWorld (sampleGlobals sampleTerms filter search) offline.

(** A session whose server answers with the given documents. *)
Definition online (lexiconDoc categoriesDoc websiteDoc : value) : world :=
  sampleWorld (sampleGlobals [] "all" EmptyString) (serves lexiconDoc categoriesDoc websiteDoc).

(** ** More of the script: text helpers *)

(** The five characters [escapeHtml] replaces. *)
Definition markup_char (c : ascii) : bool :=
  Ascii.eqb c "&" || Ascii.eqb c "<" || Ascii.eqb c ">"
  || Ascii.eqb c (ascii_of_nat 34) || Ascii.eqb c "'".

Fixpoint count_char (c : ascii) (s : string) : nat :=
  match s with
  | EmptyString => 0
  | String a rest => (if Ascii.eqb a c then 1 else 0) + count_char c rest
  end.

Fixpoint count_if (p : ascii -> bool) (s : string) : nat :=
  match s with
  | EmptyString => 0
  | String a rest => (if p a then 1 else 0) + count_if p rest
  end.

Fixpoint all_chars (p : ascii -> bool) (s : string) : bool :=
  match s with
  | EmptyString => true
  | String a rest => p a && all_chars p rest
  end.

(** ** More of the script: query state *)

(** The world once the two handlers have set the selection and the search
    text ([currentFilter = ...], [currentSearch = ...]). *)
Definition with_query (filter search : string) (w : world) : world :=
  with_app {| lexiconData := lexiconData (app w);
              categoriesData := categoriesData (app w);
              websiteInfo := websiteInfo (app w);
              currentFilter := filter;
              currentSearch := search |} w.

(** The world with another array of terms loaded ([lexiconData = terms]). *)
Definition with_terms (terms : list value) (w : world) : world :=
  with_app (set_lexiconData (VArr terms) (app w)) w.

(** ** More of the script: theme management *)

(** What the theme functions touch: the [data-theme] attribute of the
    body ([None] while it is not set), the text of the [themeIcon]
    element ([None] when the page has none) and the entry
    [domra-tech-theme] of the local storage ([None] while nothing is
    saved).  The storage is taken as available. *)
Record theme_page : Type := {
  data_theme : option string;
  themeIcon : option string;
  saved_theme : option string
}.

Definition sunIcon : string := "☀️".
Definition moonIcon : string := "🌙".

(** [themeIcon.textContent = text] *)
Definition set_themeIcon (text : string) (p : theme_page) : result unit * theme_page :=
  match themeIcon p with
  | Some _ => (Ok tt, {| data_theme := data_theme p; themeIcon := Some text;
                         saved_theme := saved_theme p |})
  | None => (Throw TypeError, p)
  end.

Definition set_data_theme (theme : string) (p : theme_page) : theme_page :=
  {| data_theme := Some theme; themeIcon := themeIcon p; saved_theme := saved_theme p |}.

Definition save_theme (theme : string) (p : theme_page) : theme_page :=
  {| data_theme := data_theme p; themeIcon := themeIcon p; saved_theme := Some theme |}.

Definition toggleTheme (p : theme_page) : result unit * theme_page :=
  let currentTheme := data_theme p in
  let switch_to theme icon :=
    match set_themeIcon icon (set_data_theme theme p) with
    | (Ok _, p') => (Ok tt, save_theme theme p')
    | (Throw e, p') => (Throw e, p')
    end in
  match currentTheme with
  | Some theme => if theme =? "light" then switch_to "dark" sunIcon
                  else switch_to "light" moonIcon
  | None => switch_to "light" moonIcon
  end.

Definition loadTheme (p : theme_page) : result unit * theme_page :=
  let savedTheme :=
    match saved_theme p with
    | Some theme => if theme =? EmptyString then "light" else theme
    | None => "light"
    end in
  set_themeIcon (if savedTheme =? "dark" then sunIcon else moonIcon)
                (set_data_theme savedTheme p).

(** ** More of the script: the filter buttons *)

(** What [populateCategoryButtons] prints on the button of a category of
    the data model: the icon, or the notepad where the icon is left out or
    empty, and the English name. *)
Definition category_icon (category : value) : string :=
  match Spec.member category "icon" with
  | VStr s => if s =? EmptyString then "📝" else s
  | _ => "📝"
  end.

Definition category_english (category : value) : string :=
  match Spec.member (Spec.member category "name") "english" with
  | VStr s => s
  | _ => EmptyString
  end.

Definition allCategoriesButton : button :=
  {| className := "filter-btn active";
     dataset_category := "all";
     button_innerHTML := "📚 All Categories";
     aria_pressed := "true" |}.

(** The [class] attribute of an element read as a [DOMTokenList]: the
    attribute is split at ASCII whitespace, a token counts once, at its
    first place; a change of the list writes the tokens back with one
    space between them. *)
Definition ascii_whitespace (c : ascii) : bool :=
  Ascii.eqb c (ascii_of_nat 9) || Ascii.eqb c (ascii_of_nat 10)
  || Ascii.eqb c (ascii_of_nat 12) || Ascii.eqb c (ascii_of_nat 13)
  || Ascii.eqb c " ".

Definition push_token (cur : string) (ts : list string) : list string :=
  if cur =? EmptyString then ts else cur :: ts.

(** The token that is open at the start of [s], and the tokens after it. *)
Fixpoint split_whitespace (s : string) : string * list string :=
  match s with
  | EmptyString => (EmptyString, [])
  | String c rest =>
      let (cur, ts) := split_whitespace rest in
      if ascii_whitespace c then (EmptyString, push_token cur ts)
      else (String c cur, ts)
  end.

Definition tokens (s : string) : list string :=
  let (cur, ts) := split_whitespace s in push_token cur ts.

Fixpoint ordered_set (xs : list string) : list string :=
  match xs with
  | [] => []
  | x :: rest => x :: filter (fun y => negb (y =? x)) (ordered_set rest)
  end.

Definition classList (cls : string) : list string := ordered_set (tokens cls).

(** A token: not empty, no whitespace in it. *)
Definition token_ok (t : string) : Prop :=
  t <> EmptyString /\ all_chars (fun c => negb (ascii_whitespace c)) t = true.

(** [classList.contains(c)], [classList.remove(c)] and [classList.add(c)]
    on an element whose [class] attribute reads [cls]; the last two give
    the attribute afterwards. *)
Definition classList_contains (c cls : string) : bool :=
  existsb (String.eqb c) (classList cls).

Definition classList_remove (c cls : string) : string :=
  join " " (filter (fun t => negb (t =? c)) (classList cls)).

Definition classList_append (c cls : string) : string :=
  join " " (classList_add c (classList cls)).

(** [btn.classList.remove('active'); btn.setAttribute('aria-pressed', 'false')] *)
Definition release (btn : button) : button :=
  {| className := classList_remove "active" (className btn);
     dataset_category := dataset_category btn;
     button_innerHTML := button_innerHTML btn;
     aria_pressed := "false" |}.

(** [button.classList.add('active'); button.setAttribute('aria-pressed', 'true')] *)
Definition press (btn : button) : button :=
  {| className := classList_append "active" (className btn);
     dataset_category := dataset_category btn;
     button_innerHTML := button_innerHTML btn;
     aria_pressed := "true" |}.

Fixpoint update_nth {A : Type} (i : nat) (f : A -> A) (xs : list A) {struct xs} : list A :=
  match xs, i with
  | [], _ => []
  | x :: rest, O => f x :: rest
  | x :: rest, S j => x :: update_nth j f rest
  end.

(** [querySelectorAll('.filter-btn').forEach(...)] over the children of
    the container. *)
Definition release_all (bs : list button) : list button :=
  map (fun btn => if classList_contains "filter-btn" (className btn) then release btn else btn) bs.

(** ** More of the script: the two handlers of the query *)

Section Handlers.
Context {host : Host}.

(** [handleFilterClick(button)].  The button is a child of the container
    and is named by its place among the children; a place past the last
    child stands for a call without an element. *)
Definition handleFilterClick (target : nat) : M unit :=
  w <- read ;;
  match filterButtons (dom w) with
  | None => throw TypeError
  | Some bs =>
      write (with_dom (set_filterButtons (Some (release_all bs)) (dom w))) ;;
      match nth_error (release_all bs) target with
      | None => throw TypeError
      | Some button =>
          write (fun w => with_dom (set_filterButtons
                   (Some (update_nth target press (release_all bs))) (dom w)) w) ;;
          write (fun w => with_query (dataset_category button) (currentSearch (app w)) w) ;;
          renderWords
      end
  end.

(** The function [setupEventListeners] hands to [debounce] for the search
    box, called with the text of the box; [trim] is
    [String.prototype.trim] of the host. *)
Definition searchInput_input (trim : string -> string) (text : string) : M unit :=
  write (fun w => with_query (currentFilter (app w)) (trim text) w) ;;
  renderWords.

End Handlers.

(** ** More of the script: debounce *)

Section Debounce.
Context {A : Type}.

(** The closure [debounce(func, wait)] returns, with the part of the host
    it works on.  [A] is what a call hands over ([...args]).  Of the
    host's timers only those this closure has set are kept here:
    [setTimeout] hands out an id that was not used before, and
    [clearTimeout(timeout)] can only name an id this closure was given.
    The calls of [func] are written down with their time. *)
Record timer : Type := {
  timer_id : nat;
  due : N;                      (* not run before this time *)
  timer_args : A                (* the [args] its [later] closes over *)
}.

Record debounced : Type := {
  timeout : option nat;         (* the variable [timeout]; [None] while undefined *)
  timers : list timer;          (* timers set and neither run nor cleared *)
  next_id : nat;                (* the id the next [setTimeout] returns *)
  runs : list (N * A)           (* calls of [func]: when, and with what *)
}.

Definition fresh : debounced :=
  {| timeout := None; timers := []; next_id := 1; runs := [] |}.

(** [clearTimeout(id)]: nothing happens for [undefined] or for an id that
    is not pending. *)
Definition clearTimeout (id : option nat) (ts : list timer) : list timer :=
  match id with
  | Some i => filter (fun t => negb (Nat.eqb (timer_id t) i)) ts
  | None => ts
  end.

(** A call of the debounced function at time [now]. *)
Definition executedFunction (wait now : N) (args : A) (s : debounced) : debounced :=
  {| timeout := Some (next_id s);
     timers := (clearTimeout (timeout s) (timers s)
                ++ [ {| timer_id := next_id s; due := (now + wait)%N; timer_args := args |} ])%list;
     next_id := S (next_id s);
     runs := runs s |}.

(** The body of [later], run at time [now]. *)
Definition later (now : N) (args : A) (s : debounced) : debounced :=
  {| timeout := timeout s;
     timers := clearTimeout (timeout s) (timers s);
     next_id := next_id s;
     runs := (runs s ++ [(now, args)])%list |}.

Fixpoint take_timer (id : nat) (ts : list timer) : option (timer * list timer) :=
  match ts with
  | [] => None
  | t :: rest =>
      if Nat.eqb (timer_id t) id then Some (t, rest)
      else match take_timer id rest with
           | Some (found, others) => Some (found, t :: others)
           | None => None
           end
  end.

(** The host runs timer [id] at time [now]: only a pending timer can run,
    and not before it is due; the host takes it off its list and calls
    [later]. *)
Definition fire (now : N) (id : nat) (s : debounced) : option debounced :=
  match take_timer id (timers s) with
  | Some (t, others) =>
      if (due t <=? now)%N
      then Some (later now (timer_args t)
                   {| timeout := timeout s; timers := others;
                      next_id := next_id s; runs := runs s |})
      else None
  | None => None
  end.

(** What happens to the closure: it is called, or one of its timers runs. *)
Inductive input : Type :=
| Call (now : N) (args : A)
| Fire (now : N) (id : nat).

Definition step (wait : N) (e : input) (s : debounced) : option debounced :=
  match e with
  | Call now args => Some (executedFunction wait now args s)
  | Fire now id => fire now id s
  end.

Fixpoint run_events (wait : N) (es : list input) (s : debounced) : option debounced :=
  match es with
  | [] => Some s
  | e :: rest =>
      match step wait e s with
      | Some s' => run_events wait rest s'
      | None => None
      end
  end.

Definition is_call (e : input) : bool :=
  match e with
  | Call _ _ => true
  | Fire _ _ => false
  end.

(** At most one timer is pending, and [timeout] names it. *)
Definition one_timer (s : debounced) : Prop :=
  timers s = [] \/ exists t, timers s = [t] /\ timeout s = Some (timer_id t).

End Debounce.

Arguments timer : clear implicits.
Arguments debounced : clear implicits.
Arguments input : clear implicits.

(** ** More of the script: what the statistics count *)


(** [term.status === 'verified'] *)
Definition verified (word : value) : bool :=
  strict_eq_string (Spec.member word "status") "verified".

(** ** More of the script: the three panels *)


(** The two views a load can end in: the error panel, or the main
    content; the loading panel is hidden in both. *)
Definition error_view (d : page) : Prop :=
  loading d = Some "none"
  /\ error_box d = Some "block"
  /\ exists classes, mainContent d = Some ("none", classes).


(** ** More of the script: the contribute dialog and the keyboard *)

(** What the dialog functions and the key handler touch: the
    [contributeModal] element ([None] when the page has none) with its
    [style.display] and its [aria-hidden] attribute, [style.overflow] of
    the body, and the search box ([None] when the page has none) with
    whether it has the focus. *)
Record dialog : Type := {
  dialog_display : string;
  aria_hidden : option string
}.

Record chrome : Type := {
  contributeModal_element : option dialog;
  body_overflow : string;
  search_focused : option bool
}.

Definition set_dialog (display hidden overflow : string) (c : chrome) : result unit * chrome :=
  match contributeModal_element c with
  | Some _ =>
      (Ok tt, {| contributeModal_element :=
                   Some {| dialog_display := display; aria_hidden := Some hidden |};
                 body_overflow := overflow;
                 search_focused := search_focused c |})
  | None => (Throw TypeError, c)
  end.


Definition closeContributeModal : chrome -> result unit * chrome :=
  set_dialog "none" "true" "auto".


Record key_event : Type := {
  key : string;
  ctrlKey : bool;
  metaKey : bool
}.

(** The [keydown] listener of the document; the boolean of the answer is
    whether the handler has called [preventDefault]. *)
Definition document_keydown (e : key_event) (c : chrome) : result bool * chrome :=
  let escape :=
    if key e =? "Escape" then
      match contributeModal_element c with
      | Some d => if dialog_display d =? "block" then closeContributeModal c else (Ok tt, c)
      | None => (Throw TypeError, c)
      end
    else (Ok tt, c) in
  match escape with
  | (Ok _, c1) =>
      if (ctrlKey e || metaKey e) && (key e =? "k") then
        (Ok true,
         {| contributeModal_element := contributeModal_element c1;
            body_overflow := body_overflow c1;
            search_focused := match search_focused c1 with
                              | Some _ => Some true
                              | None => None
                              end |})
      else (Ok false, c1)
  | (Throw err, c1) => (Throw err, c1)
  end.



(** ** More of the script: what a card counts *)

(** How many of the two example texts are printed: those that are there
    and not empty. *)
Definition printed_examples (v : value) : nat :=
  (if truthy (Spec.member v "english") then 1 else 0)
  + (if truthy (Spec.member v "khmer") then 1 else 0).

(** ** More sample data *)

Definition storageButton : button :=
  {| className := "filter-btn ";
     dataset_category := "storage";
     button_innerHTML := "💾 Storage";
     aria_pressed := "false" |}.

(** A session after a load: the sample terms, one category, the site
    information with a version, and the two buttons on the page. *)
Definition browsing : world :=
  with_dom (set_filterButtons (Some [allCategoriesButton; storageButton]) fullPage)
    (sampleWorld
       {| lexiconData := VArr sampleTerms;
          categoriesData := storageCategories;
          websiteInfo := VObj [("project", VObj [("version", VStr "2.1.0")])];
          currentFilter := "all";
          currentSearch := EmptyString |}
       offline).

Definition lightPage : theme_page :=
  {| data_theme := Some "light"; themeIcon := Some moonIcon; saved_theme := None |}.

Definition pageWithoutIcon : theme_page :=
  {| data_theme := Some "light"; themeIcon := None; saved_theme := Some "light" |}.





Definition bareChrome : chrome :=
  {| contributeModal_element := None; body_overflow := EmptyString; search_focused := None |}.

(** A term filed under the key [__proto__], and a session on it. *)
Definition protoTerm : value :=
  VObj [("english", VStr "Prototype"); ("khmer", VStr "គំរូ"); ("category", VStr "__proto__")].

Definition protoSession : world :=
  with_dom (set_wordGrid (Some cardOpening) (set_resultsCount (Some "7 terms found") fullPage))
    (sampleWorld (sampleGlobals [protoTerm] "all" EmptyString) offline).

(** * Facts *)

(** ** Strings and operators *)

Lemma includes_empty_hay (needle : string) :
  needle <> EmptyString -> includes EmptyString needle = false.
Proof.
  intros H. destruct needle; [congruence | reflexivity].
Qed.

(** [String.prefix] and [includes] say what their names say. *)
Lemma prefix_spec (p s : string) :
  String.prefix p s = true <-> exists post, s = p ++ post.
Proof.
  revert s. induction p as [| c p IH]; intros s.
  - split; [intros _; exists s; reflexivity | intros _; destruct s; reflexivity].
  - destruct s as [| c' s]; simpl.
    + split; [discriminate | intros [post H]; discriminate H].
    + destruct (Ascii.ascii_dec c c') as [<- | Hne].
      * rewrite IH. split; intros [post H]; exists post; [rewrite H; reflexivity |].
        injection H as ->. reflexivity.
      * split; [discriminate | intros [post H]; injection H as <- _; congruence].
Qed.

Lemma includes_unfold (hay needle : string) :
  includes hay needle
  = String.prefix needle hay
    || match hay with
       | EmptyString => false
       | String _ rest => includes rest needle
       end.
Proof.
  destruct hay; reflexivity.
Qed.

Lemma includes_spec (hay needle : string) :
  includes hay needle = true <-> exists pre post, hay = pre ++ needle ++ post.
Proof.
  split.
  - induction hay as [| c rest IH]; rewrite includes_unfold; intros H;
      apply orb_true_iff in H; destruct H as [H | H].
    + apply prefix_spec in H. destruct H as [post H]. exists EmptyString, post. exact H.
    + discriminate H.
    + apply prefix_spec in H. destruct H as [post H]. exists EmptyString, post. exact H.
    + destruct (IH H) as [pre [post Heq]].
      exists (String c pre), post. simpl. rewrite Heq. reflexivity.
  - intros [pre [post H]]. revert hay H.
    induction pre as [| c pre IH]; intros hay H; rewrite includes_unfold.
    + apply orb_true_iff. left. apply prefix_spec. exists post. exact H.
    + subst hay. simpl. apply orb_true_iff. right. apply IH. reflexivity.
Qed.

(** ASCII folding works character by character. *)
Lemma ascii_toLowerCase_app (a b : string) :
  ascii_toLowerCase (a ++ b) = ascii_toLowerCase a ++ ascii_toLowerCase b.
Proof.
  induction a as [| c a IH]; simpl; [reflexivity | rewrite IH; reflexivity].
Qed.

Lemma ascii_toLowerCase_split (h a b : string) :
  ascii_toLowerCase h = a ++ b ->
  exists h1 h2, h = h1 ++ h2 /\ ascii_toLowerCase h1 = a /\ ascii_toLowerCase h2 = b.
Proof.
  revert h. induction a as [| c a IH]; intros h H.
  - exists EmptyString, h. repeat split. exact H.
  - destruct h as [| c' h]; simpl in H; [discriminate H |].
    injection H as Hc Hrest.
    destruct (IH h Hrest) as [h1 [h2 [-> [H1 H2]]]].
    exists (String c' h1), h2. simpl. rewrite Hc, H1. repeat split. exact H2.
Qed.

(** Under ASCII folding, the folded search is a search for a stretch of
    the text that folds to what the needle folds to. *)
Lemma ascii_folded_includes (hay needle : string) :
  includes (ascii_toLowerCase hay) (ascii_toLowerCase needle) = true <->
  exists pre mid post,
    hay = pre ++ mid ++ post /\ ascii_toLowerCase mid = ascii_toLowerCase needle.
Proof.
  rewrite includes_spec. split.
  - intros [pre' [post' H]].
    destruct (ascii_toLowerCase_split hay _ _ H) as [pre [rest [-> [_ Hrest]]]].
    destruct (ascii_toLowerCase_split rest _ _ Hrest) as [mid [post [-> [Hmid _]]]].
    exists pre, mid, post. split; [reflexivity | exact Hmid].
  - intros [pre [mid [post [-> Hmid]]]].
    exists (ascii_toLowerCase pre), (ascii_toLowerCase post).
    rewrite !ascii_toLowerCase_app, Hmid. reflexivity.
Qed.

Lemma eqb_empty_false (s : string) : s <> EmptyString -> (s =? EmptyString) = false.
Proof.
  intros H. apply String.eqb_neq. exact H.
Qed.

Lemma get_object (props : list (string * value)) (k : string) :
  get (VObj props) k = Ok (Spec.field props k).
Proof.
  unfold get, Spec.field. destruct (own props k); reflexivity.
Qed.

(** The truth value of a disjunction of two operands that evaluate. *)
Lemma or_else_truthy (a b : result value) (x y : value) :
  a = Ok x -> b = Ok y ->
  exists z, (a ||| b) = Ok z /\ truthy z = truthy x || truthy y.
Proof.
  intros -> ->. unfold or_else. simpl.
  destruct (truthy x) eqn:Hx.
  - exists x. split; [reflexivity | rewrite Hx; reflexivity].
  - exists y. split; reflexivity.
Qed.

Lemma or_else_ok (v d : value) :
  (Ok v ||| Ok d) = Ok (if truthy v then v else d).
Proof.
  unfold or_else. simpl. destruct (truthy v); reflexivity.
Qed.

(** Chaining: when the left operand's truth value is known in advance. *)
Lemma or_else_chain (a b : result value) (p q : bool) :
  (exists x, a = Ok x /\ truthy x = p) ->
  (exists y, b = Ok y /\ truthy y = q) ->
  exists z, (a ||| b) = Ok z /\ truthy z = p || q.
Proof.
  intros [x [Ha Hx]] [y [Hb Hy]].
  destruct (or_else_truthy a b x y Ha Hb) as [z [Hz Ht]].
  exists z. split; [exact Hz | rewrite Ht, Hx, Hy; reflexivity].
Qed.

(** ** Filtering an array *)

Lemma filter_array_pointwise (f : value -> result bool) (g : value -> bool) (xs : list value) :
  (forall x, In x xs -> f x = Ok (g x)) ->
  filter_array f xs = Ok (filter g xs).
Proof.
  induction xs as [| x rest IH]; intros H; simpl.
  - reflexivity.
  - rewrite (H x (or_introl eq_refl)). simpl.
    rewrite IH by (intros y Hy; apply H; right; exact Hy).
    simpl. destruct (g x); reflexivity.
Qed.

Lemma filter_subsequence {A : Type} (g : A -> bool) (xs : list A) :
  Spec.subsequence (filter g xs) xs.
Proof.
  induction xs as [| x rest IH]; simpl.
  - constructor.
  - destruct (g x); constructor; exact IH.
Qed.

(** Whatever the callback, what [filter] returns is a subsequence. *)
Lemma filter_array_subsequence (f : value -> result bool) (xs kept : list value) :
  filter_array f xs = Ok kept -> Spec.subsequence kept xs.
Proof.
  revert kept. induction xs as [| x rest IH]; intros kept H; simpl in H.
  - injection H as <-. constructor.
  - destruct (f x) as [b |]; simpl in H; [| discriminate].
    destruct (filter_array f rest) as [kept' |]; simpl in H; [| discriminate].
    injection H as <-.
    destruct b; constructor; apply IH; reflexivity.
Qed.

Lemma subsequence_In {A : Type} (l m : list A) :
  Spec.subsequence l m -> forall x, In x l -> In x m.
Proof.
  induction 1 as [| y l m _ IH | y l m _ IH]; intros x Hx.
  - exact Hx.
  - right. apply IH. exact Hx.
  - destruct Hx as [-> | Hx]; [left; reflexivity | right; apply IH; exact Hx].
Qed.

Lemma subsequence_length {A : Type} (l m : list A) :
  Spec.subsequence l m -> List.length l <= List.length m.
Proof.
  induction 1; simpl; lia.
Qed.

(** ** Terms of the data model *)

(** What [term_of] has checked when it answers. *)
Lemma term_of_shape (word : value) (t : Spec.Term) :
  Spec.term_of word = Some t ->
  exists props,
    word = VObj props
    /\ Spec.field props "english" = VStr (Spec.englishName t)
    /\ Spec.field props "khmer" = VStr (Spec.khmerName t)
    /\ Spec.optional_string (Spec.field props "description") = Some (Spec.description t)
    /\ Spec.optional_tags (Spec.field props "tags") = Some (Spec.tags t)
    /\ Spec.optional_examples (Spec.field props "examples") = Some (Spec.examples t)
    /\ Spec.categoryKey t = match Spec.field props "category" with
                            | VStr c => Some c
                            | _ => None
                            end.
Proof.
  intros H. destruct word as [| | | | | | props]; try discriminate H.
  exists props. simpl in H.
  destruct (Spec.field props "english") as [| | | | en | |]; try discriminate H.
  destruct (Spec.field props "khmer") as [| | | | km | |]; try discriminate H.
  destruct (Spec.optional_string (Spec.field props "description")) as [d |]; try discriminate H.
  destruct (Spec.optional_tags (Spec.field props "tags")) as [ts |]; try discriminate H.
  destruct (Spec.optional_examples (Spec.field props "examples")) as [ex |]; try discriminate H.
  injection H as <-. simpl. repeat split; reflexivity.
Qed.

Section QueryFacts.
Context {host : Host}.

Lemma lowered_nonempty (s : string) : s <> EmptyString -> toLowerCase s <> EmptyString.
Proof.
  intros H Hl. apply H. apply toLowerCase_empty. exact Hl.
Qed.

Lemma englishCheck_spec (props : list (string * value)) (en l : string) :
  Spec.field props "english" = VStr en ->
  englishCheck (VObj props) l = Ok (VBool (includes (toLowerCase en) l)).
Proof.
  intros H. unfold englishCheck. rewrite get_object, H. reflexivity.
Qed.

Lemma khmerCheck_spec (props : list (string * value)) (km s : string) :
  Spec.field props "khmer" = VStr km ->
  khmerCheck (VObj props) s = Ok (VBool (includes km s)).
Proof.
  intros H. unfold khmerCheck. rewrite get_object, H. reflexivity.
Qed.

Lemma descriptionCheck_spec (props : list (string * value)) (d : option string) (l : string) :
  l <> EmptyString ->
  Spec.optional_string (Spec.field props "description") = Some d ->
  exists v, descriptionCheck (VObj props) l = Ok v
            /\ truthy v = Spec.on_option (fun x => includes (toLowerCase x) l) d.
Proof.
  intros Hl H. unfold descriptionCheck, and_then. rewrite get_object.
  destruct (Spec.field props "description") as [| | | | s | |]; simpl in H; try discriminate H;
    injection H as <-; simpl.
  - exists VUndefined. split; reflexivity.
  - exists VNull. split; reflexivity.
  - destruct (String.eqb_spec s EmptyString) as [-> | Hs]; simpl.
    + exists (VStr EmptyString). split; [reflexivity |].
      simpl. rewrite (proj2 (toLowerCase_empty EmptyString) eq_refl).
      symmetry. apply includes_empty_hay. exact Hl.
    + eexists. split; reflexivity.
Qed.

Lemma some_of_strings (l : string) (xs : list value) (ss : list string) :
  Spec.strings xs = Some ss ->
  some_of (fun tag => let? low := call_toLowerCase tag in Ok (VBool (includes low l))) xs
  = Ok (existsb (fun x => includes (toLowerCase x) l) ss).
Proof.
  revert ss. induction xs as [| x rest IH]; intros ss H; simpl in H.
  - injection H as <-. reflexivity.
  - destruct x as [| | | | s | |]; try discriminate H.
    destruct (Spec.strings rest) as [ss' |]; try discriminate H.
    injection H as <-. simpl.
    destruct (includes (toLowerCase s) l); simpl; [reflexivity |].
    apply IH. reflexivity.
Qed.

Lemma tagsCheck_spec (props : list (string * value)) (ts : option (list string)) (l : string) :
  Spec.optional_tags (Spec.field props "tags") = Some ts ->
  exists v, tagsCheck (VObj props) l = Ok v
            /\ truthy v = Spec.on_option (existsb (fun x => includes (toLowerCase x) l)) ts.
Proof.
  intros H. unfold tagsCheck, and_then. rewrite get_object.
  destruct (Spec.field props "tags") as [| | | | | xs |]; simpl in H; try discriminate H.
  - injection H as <-. exists VUndefined. split; reflexivity.
  - injection H as <-. exists VNull. split; reflexivity.
  - destruct (Spec.strings xs) as [ss |] eqn:Hss; try discriminate H.
    injection H as <-. simpl.
    rewrite (some_of_strings l xs ss Hss). simpl.
    eexists. split; reflexivity.
Qed.

Lemma opt_lower_includes_spec (v : value) (o : option string) (l : string) :
  Spec.optional_string v = Some o ->
  exists r, opt_lower_includes v l = Ok r
            /\ truthy r = Spec.on_option (fun x => includes (toLowerCase x) l) o.
Proof.
  intros H. destruct v; simpl in H; try discriminate H; injection H as <-;
    eexists; split; reflexivity.
Qed.

Lemma opt_includes_spec (v : value) (o : option string) (s : string) :
  Spec.optional_string v = Some o ->
  exists r, opt_includes v s = Ok r
            /\ truthy r = Spec.on_option (fun x => includes x s) o.
Proof.
  intros H. destruct v; simpl in H; try discriminate H; injection H as <-;
    eexists; split; reflexivity.
Qed.

Lemma examplesCheck_spec (props : list (string * value)) (ex : option Spec.Examples) (s l : string) :
  Spec.optional_examples (Spec.field props "examples") = Some ex ->
  exists v, examplesCheck (VObj props) s l = Ok v
            /\ truthy v = Spec.on_option
                 (fun e => Spec.on_option (fun x => includes (toLowerCase x) l) (Spec.englishExample e)
                           || Spec.on_option (fun x => includes x s) (Spec.khmerExample e)) ex.
Proof.
  intros H. unfold examplesCheck, and_then. rewrite get_object.
  destruct (Spec.field props "examples") as [| | | | | | eprops]; simpl in H; try discriminate H.
  - injection H as <-. exists VUndefined. split; reflexivity.
  - injection H as <-. exists VNull. split; reflexivity.
  - destruct (Spec.optional_string (Spec.field eprops "english")) as [en |] eqn:Hen;
      try discriminate H.
    destruct (Spec.optional_string (Spec.field eprops "khmer")) as [km |] eqn:Hkm;
      try discriminate H.
    injection H as <-. cbn [rbind truthy Spec.on_option Spec.englishExample Spec.khmerExample].
    rewrite !get_object. cbn [rbind].
    apply or_else_chain.
    + apply opt_lower_includes_spec. exact Hen.
    + apply opt_includes_spec. exact Hkm.
Qed.

(** [searchMatches] on a term of the data model: it returns, and its
    truth value is the disjunction of the five checks. *)
Lemma searchMatches_spec (word : value) (t : Spec.Term) (s : string) :
  Spec.term_of word = Some t ->
  s <> EmptyString ->
  exists r, searchMatches word s = Ok r
            /\ truthy r = Spec.check_english t s
                          || Spec.check_khmer t s
                          || Spec.check_description t s
                          || Spec.check_tags t s
                          || Spec.check_examples t s.
Proof.
  intros Ht Hs.
  destruct (term_of_shape word t Ht) as [props [-> [Hen [Hkm [Hd [Hts [Hex _]]]]]]].
  unfold searchMatches.
  repeat apply or_else_chain.
  - eexists. split; [apply englishCheck_spec; exact Hen | reflexivity].
  - eexists. split; [apply khmerCheck_spec; exact Hkm | reflexivity].
  - apply descriptionCheck_spec; [apply lowered_nonempty; exact Hs | exact Hd].
  - apply tagsCheck_spec. exact Hts.
  - apply examplesCheck_spec. exact Hex.
Qed.

Lemma matchesSearch_spec (word : value) (t : Spec.Term) (s : string) :
  Spec.term_of word = Some t ->
  exists r, matchesSearch s word = Ok r /\ truthy r = Spec.textMatches t s.
Proof.
  intros Ht. unfold matchesSearch, Spec.textMatches.
  destruct (String.eqb_spec s EmptyString) as [-> | Hs].
  - exists (VBool true). split; reflexivity.
  - apply searchMatches_spec; assumption.
Qed.

Lemma matchesCategory_spec (word : value) (t : Spec.Term) (sel : string) :
  Spec.term_of word = Some t ->
  matchesCategory sel word = Ok (Spec.categoryMatches t sel).
Proof.
  intros Ht.
  destruct (term_of_shape word t Ht) as [props [-> [_ [_ [_ [_ [_ Hc]]]]]]].
  unfold matchesCategory, Spec.categoryMatches. rewrite Hc.
  destruct (sel =? "all"); [reflexivity |].
  rewrite get_object. simpl.
  destruct (Spec.field props "category"); reflexivity.
Qed.

(** The callback of [filterWords] decides visibility. *)
Lemma keeps_spec (word : value) (search sel : string) :
  Spec.term_of word <> None ->
  keeps search sel word = Ok (Spec.visible sel search word).
Proof.
  intros Hw. unfold keeps, Spec.visible.
  destruct (Spec.term_of word) as [t |] eqn:Ht; [| congruence].
  destruct (matchesSearch_spec word t search Ht) as [r [-> Hr]].
  rewrite (matchesCategory_spec word t sel Ht). simpl.
  rewrite Hr. rewrite andb_comm. reflexivity.
Qed.

Lemma filterWords_spec (w : world) (words : list value) :
  lexiconData (app w) = VArr words ->
  Forall (fun word => Spec.term_of word <> None) words ->
  filterWords w
  = (Ok (filter (Spec.visible (currentFilter (app w)) (currentSearch (app w))) words), w).
Proof.
  intros Hl Hw. unfold filterWords, bind, read, lift. rewrite Hl.
  rewrite (filter_array_pointwise _
             (Spec.visible (currentFilter (app w)) (currentSearch (app w)))).
  - reflexivity.
  - intros x Hx. apply keeps_spec. rewrite Forall_forall in Hw. apply Hw. exact Hx.
Qed.

Lemma filter_array_kept (f : value -> result bool) (xs kept : list value) :
  filter_array f xs = Ok kept -> forall x, In x kept -> f x = Ok true.
Proof.
  revert kept. induction xs as [| y rest IH]; intros kept H x Hx; simpl in H.
  - injection H as <-. contradiction.
  - destruct (f y) as [b |] eqn:Hy; simpl in H; [| discriminate].
    destruct (filter_array f rest) as [kept' |]; simpl in H; [| discriminate].
    injection H as <-. destruct b.
    + destruct Hx as [<- | Hx]; [exact Hy | exact (IH kept' eq_refl x Hx)].
    + exact (IH kept' eq_refl x Hx).
Qed.

(** Whatever the terms look like, a term returned under a selection other
    than [all] has the selection as its [category]. *)
Lemma filterWords_category (w w' : world) (shown : list value) :
  filterWords w = (Ok shown, w') ->
  currentFilter (app w) <> "all" ->
  forall word, In word shown -> get word "category" = Ok (VStr (currentFilter (app w))).
Proof.
  unfold filterWords, bind, read, lift, throw.
  destruct (lexiconData (app w)) as [| | | | | words |]; try discriminate.
  intros H Hsel word Hin. injection H as Hf _.
  pose proof (filter_array_kept _ _ _ Hf word Hin) as Hkeep.
  unfold keeps in Hkeep.
  destruct (matchesSearch (currentSearch (app w)) word) as [r |]; [| discriminate Hkeep].
  simpl in Hkeep. unfold matchesCategory in Hkeep.
  apply String.eqb_neq in Hsel. rewrite Hsel in Hkeep.
  destruct (get word "category") as [c |]; [| discriminate Hkeep].
  simpl in Hkeep. injection Hkeep as Hkeep.
  apply andb_true_iff in Hkeep. destruct Hkeep as [_ Hc].
  destruct c; try discriminate Hc. simpl in Hc.
  apply String.eqb_eq in Hc. rewrite Hc. reflexivity.
Qed.

(** Whatever the terms look like, what [filterWords] returns is a
    subsequence of the loaded collection, and the world is untouched. *)
Lemma filterWords_subsequence (w w' : world) (shown : list value) :
  filterWords w = (Ok shown, w') ->
  w' = w /\ exists words, lexiconData (app w) = VArr words /\ Spec.subsequence shown words.
Proof.
  unfold filterWords, bind, read, lift, throw.
  destruct (lexiconData (app w)) as [| | | | | words |]; try discriminate.
  intros H. injection H as Hf <-. split; [reflexivity |].
  exists words. split; [reflexivity |].
  exact (filter_array_subsequence _ _ _ Hf).
Qed.

End QueryFacts.

(** ** The query engine *)

Section QueryClaims.
Context {host : Host}.

(** C1.  For a collection of terms of the data model and any query state,
    [filterWords] returns exactly the terms that satisfy both the category
    predicate and the text predicate: the list it returns is the input
    filtered by the two predicates, hence a subsequence of the input in
    load order, and a loaded term is in it precisely when both predicates
    hold. *)
Theorem filterWords_exact_subset (w : world) (words : list value) :
  lexiconData (app w) = VArr words ->
  Forall (fun word => Spec.term_of word <> None) words ->
  let shown := filter (Spec.visible (currentFilter (app w)) (currentSearch (app w))) words in
  filterWords w = (Ok shown, w)
  /\ Spec.subsequence shown words
  /\ (forall word t,
        Spec.term_of word = Some t ->
        (In word shown <->
         In word words
         /\ Spec.categoryMatches t (currentFilter (app w)) = true
         /\ Spec.textMatches t (currentSearch (app w)) = true)).
Proof.
  intros Hl Hw shown. split; [| split].
  - apply filterWords_spec; assumption.
  - apply filter_subsequence.
  - intros word t Ht. unfold shown. rewrite filter_In.
    unfold Spec.visible. rewrite Ht. rewrite andb_true_iff. tauto.
Qed.

(** C2.  For a term of the data model and a non-empty search text, the
    text predicate of [filterWords] evaluates, and it holds exactly when
    one of the five checks succeeds: English name (folded), Khmer name (as
    it stands), description when present (folded), some tag when tags are
    present (folded), English example (folded) or Khmer example (as it
    stands) when examples are present.  With an empty search text the
    predicate holds for the term, and the callback keeps it on its
    category alone. *)
Theorem searchMatches_five_checks (word : value) (t : Spec.Term) (s : string) :
  Spec.term_of word = Some t ->
  s <> EmptyString ->
  (exists r, matchesSearch s word = Ok r
             /\ (truthy r = true <->
                 Spec.ci_substring s (Spec.englishName t) = true
                 \/ Spec.cs_substring s (Spec.khmerName t) = true
                 \/ (exists d, Spec.description t = Some d /\ Spec.ci_substring s d = true)
                 \/ (exists ts tag, Spec.tags t = Some ts /\ In tag ts
                                    /\ Spec.ci_substring s tag = true)
                 \/ (exists ex, Spec.examples t = Some ex
                                /\ ((exists e, Spec.englishExample ex = Some e
                                               /\ Spec.ci_substring s e = true)
                                    \/ (exists k, Spec.khmerExample ex = Some k
                                                  /\ Spec.cs_substring s k = true)))))
  /\ matchesSearch EmptyString word = Ok (VBool true)
  /\ (forall sel, keeps EmptyString sel word = matchesCategory sel word).
Proof.
  intros Ht Hs. split; [| split].
  - destruct (searchMatches_spec word t s Ht Hs) as [r [Hr Htr]].
    exists r. split.
    + unfold matchesSearch. rewrite (eqb_empty_false s Hs). exact Hr.
    + rewrite Htr. rewrite !orb_true_iff.
      unfold Spec.check_english, Spec.check_khmer, Spec.check_description,
        Spec.check_tags, Spec.check_examples.
      split.
      * intros [[[[H | H] | H] | H] | H].
        -- left. exact H.
        -- right. left. exact H.
        -- right. right. left.
           destruct (Spec.description t) as [d |]; [| discriminate H].
           exists d. split; [reflexivity | exact H].
        -- right. right. right. left.
           destruct (Spec.tags t) as [ts |]; [| discriminate H].
           simpl in H. apply existsb_exists in H. destruct H as [tag [Hin Htag]].
           exists ts, tag. repeat split; assumption.
        -- right. right. right. right.
           destruct (Spec.examples t) as [ex |]; [| discriminate H].
           exists ex. split; [reflexivity |].
           simpl in H. apply orb_true_iff in H. destruct H as [H | H].
           ++ left. destruct (Spec.englishExample ex) as [e |]; [| discriminate H].
              exists e. split; [reflexivity | exact H].
           ++ right. destruct (Spec.khmerExample ex) as [k |]; [| discriminate H].
              exists k. split; [reflexivity | exact H].
      * intros [H | [H | [[d [Hd H]] | [[ts [tag [Hts [Hin H]]]] | [ex [Hex H]]]]]].
        -- left. left. left. left. exact H.
        -- left. left. left. right. exact H.
        -- left. left. right. rewrite Hd. exact H.
        -- left. right. rewrite Hts. simpl. apply existsb_exists.
           exists tag. split; assumption.
        -- right. rewrite Hex. simpl. apply orb_true_iff.
           destruct H as [[e [He H]] | [k [Hk H]]].
           ++ left. rewrite He. exact H.
           ++ right. rewrite Hk. exact H.
  - reflexivity.
  - intros sel. unfold keeps. simpl.
    destruct (matchesCategory sel word); reflexivity.
Qed.

(** C3.  On terms of the data model, the category predicate of
    [filterWords] holds exactly when the selection is the sentinel [all]
    or the term's category key is the selected string.  Hence a selection
    other than [all] that is no term's category key gives the empty
    result, and every term returned under a selection other than [all]
    has that selection as its category key. *)
Theorem matchesCategory_exact (w : world) (words : list value) :
  lexiconData (app w) = VArr words ->
  Forall (fun word => Spec.term_of word <> None) words ->
  let sel := currentFilter (app w) in
  (forall word t,
     In word words -> Spec.term_of word = Some t ->
     exists b, matchesCategory sel word = Ok b
               /\ (b = true <-> sel = "all" \/ Spec.categoryKey t = Some sel))
  /\ (sel <> "all" ->
      (forall word t, In word words -> Spec.term_of word = Some t ->
                      Spec.categoryKey t <> Some sel) ->
      filterWords w = (Ok [], w))
  /\ (sel <> "all" ->
      exists shown, filterWords w = (Ok shown, w)
                    /\ forall word, In word shown ->
                                    exists t, Spec.term_of word = Some t
                                              /\ Spec.categoryKey t = Some sel).
Proof.
  intros Hl Hw sel.
  assert (Hcat : forall t, Spec.categoryMatches t sel = true <->
                           sel = "all" \/ Spec.categoryKey t = Some sel).
  { intros t. unfold Spec.categoryMatches. rewrite orb_true_iff.
    rewrite String.eqb_eq.
    destruct (Spec.categoryKey t) as [c |].
    - rewrite String.eqb_eq. split; intros [H | H]; auto; right; congruence.
    - split; intros [H | H]; auto; discriminate H. }
  split; [| split].
  - intros word t _ Ht. exists (Spec.categoryMatches t sel). split.
    + apply matchesCategory_spec. exact Ht.
    + apply Hcat.
  - intros Hsel Hnone. rewrite (filterWords_spec w words Hl Hw). f_equal. f_equal.
    fold sel.
    assert (Hall : forall word, In word words ->
                     Spec.visible sel (currentSearch (app w)) word = false).
    { intros word Hin. unfold Spec.visible.
      destruct (Spec.term_of word) as [t |] eqn:Ht; [| reflexivity].
      destruct (Spec.categoryMatches t sel) eqn:Hc; [| reflexivity].
      exfalso. apply Hcat in Hc. destruct Hc as [Hc | Hc]; [contradiction |].
      exact (Hnone word t Hin Ht Hc). }
    clear Hl Hw Hnone. induction words as [| x rest IH]; simpl; [reflexivity |].
    rewrite (Hall x (or_introl eq_refl)). apply IH.
    intros y Hy. apply Hall. right. exact Hy.
  - intros Hsel. exists (filter (Spec.visible sel (currentSearch (app w))) words).
    split; [exact (filterWords_spec w words Hl Hw) |].
    intros word Hin. apply filter_In in Hin. destruct Hin as [_ Hv].
    unfold Spec.visible in Hv.
    destruct (Spec.term_of word) as [t |]; [| discriminate Hv].
    exists t. split; [reflexivity |].
    apply andb_true_iff in Hv. destruct Hv as [Hc _].
    apply Hcat in Hc. destruct Hc as [Hc | Hc]; [contradiction | exact Hc].
Qed.

Lemma and_then_missing (v : value) (k : result value) :
  nullish v = true -> exists r, (Ok v &&& k) = Ok r /\ truthy r = false.
Proof.
  intros H. destruct v; try discriminate H; eexists; split; reflexivity.
Qed.

Lemma optional_string_missing (v : value) :
  Spec.optional_string v = Some None -> nullish v = true.
Proof.
  destruct v; simpl; intros H; try discriminate H; reflexivity.
Qed.

(** C4, as the script has it.  For terms whose English and Khmer names
    are strings and whose optional fields (description, tags, examples and
    the two examples) are each missing or of their type, [filterWords]
    returns for every search text and selection; and on such a term a
    missing description, missing tags or missing examples make their
    check evaluate to a falsy value, not throw. *)
Theorem filterWords_returns_on_typed_terms (w : world) (words : list value) :
  lexiconData (app w) = VArr words ->
  Forall (fun word => Spec.term_of word <> None) words ->
  (exists shown, filterWords w = (Ok shown, w))
  /\ (forall word t searchTerm,
        In word words -> Spec.term_of word = Some t ->
        (Spec.description t = None ->
         exists r, descriptionCheck word (toLowerCase searchTerm) = Ok r /\ truthy r = false)
        /\ (Spec.tags t = None ->
            exists r, tagsCheck word (toLowerCase searchTerm) = Ok r /\ truthy r = false)
        /\ (Spec.examples t = None ->
            exists r, examplesCheck word searchTerm (toLowerCase searchTerm) = Ok r
                      /\ truthy r = false)
        /\ (forall ex, Spec.examples t = Some ex ->
                       Spec.englishExample ex = None -> Spec.khmerExample ex = None ->
                       exists r, examplesCheck word searchTerm (toLowerCase searchTerm) = Ok r
                                 /\ truthy r = false)).
Proof.
  intros Hl Hw. split.
  - eexists. exact (filterWords_spec w words Hl Hw).
  - intros word t s _ Ht.
    destruct (term_of_shape word t Ht) as [props [-> [_ [_ [Hd [Hts [Hex _]]]]]]].
    split; [| split; [| split]].
    + intros Hnone. rewrite Hnone in Hd. unfold descriptionCheck. rewrite get_object.
      apply and_then_missing. apply optional_string_missing. exact Hd.
    + intros Hnone. rewrite Hnone in Hts.
      destruct (tagsCheck_spec props None (toLowerCase s) Hts) as [r [Hr Htr]].
      exists r. split; assumption.
    + intros Hnone. rewrite Hnone in Hex.
      destruct (examplesCheck_spec props None s (toLowerCase s) Hex) as [r [Hr Htr]].
      exists r. split; assumption.
    + intros ex Hsome Hen Hkm. rewrite Hsome in Hex.
      destruct (examplesCheck_spec props (Some ex) s (toLowerCase s) Hex) as [r [Hr Htr]].
      exists r. split; [exact Hr |]. rewrite Htr. simpl. rewrite Hen, Hkm. reflexivity.
Qed.

(** C8.  [filterWords] is a function of the term collection and the query
    state alone: a call leaves the whole world as it found it (globals,
    page and trace, so no term and no mapping is touched), two worlds that
    agree on the collection, the search text and the selection get the
    same answer, and calling again gives the same answer. *)
Theorem filterWords_pure (w w' : world) :
  lexiconData (app w') = lexiconData (app w) ->
  currentSearch (app w') = currentSearch (app w) ->
  currentFilter (app w') = currentFilter (app w) ->
  snd (filterWords w) = w
  /\ fst (filterWords w') = fst (filterWords w)
  /\ fst (filterWords (snd (filterWords w))) = fst (filterWords w).
Proof.
  intros Hl Hs Hf.
  assert (Hframe : forall v, snd (filterWords v) = v).
  { intros v. unfold filterWords, bind, read, lift, throw.
    destruct (lexiconData (app v)); reflexivity. }
  split; [apply Hframe | split].
  - unfold filterWords, bind, read, lift, throw. rewrite Hl, Hs, Hf.
    destruct (lexiconData (app w)); reflexivity.
  - rewrite Hframe. reflexivity.
Qed.

End QueryClaims.

(** ** Markup *)

Lemma rbind_ok {A B : Type} (r : result A) (k : A -> result B) (y : B) :
  rbind r k = Ok y -> exists a, r = Ok a /\ k a = Ok y.
Proof.
  destruct r as [a | e]; simpl; intros H; [| discriminate H].
  exists a. split; [reflexivity | exact H].
Qed.

Lemma map_array_length {A : Type} (f : value -> result A) (xs : list value) (ys : list A) :
  map_array f xs = Ok ys -> List.length ys = List.length xs.
Proof.
  revert ys. induction xs as [| x rest IH]; intros ys H; simpl in H.
  - injection H as <-. reflexivity.
  - apply rbind_ok in H. destruct H as [y [_ H]].
    apply rbind_ok in H. destruct H as [ys' [Hrest H]].
    injection H as <-. simpl. f_equal. apply IH. exact Hrest.
Qed.

Lemma map_array_Forall {A : Type} (f : value -> result A) (P : A -> Prop)
      (xs : list value) (ys : list A) :
  (forall x y, f x = Ok y -> P y) ->
  map_array f xs = Ok ys -> Forall P ys.
Proof.
  intros HP. revert ys. induction xs as [| x rest IH]; intros ys H; simpl in H.
  - injection H as <-. constructor.
  - apply rbind_ok in H. destruct H as [y [Hy H]].
    apply rbind_ok in H. destruct H as [ys' [Hrest H]].
    injection H as <-. constructor; [exact (HP x y Hy) | apply IH; exact Hrest].
Qed.

Lemma prefix_append (p a b : string) :
  String.prefix p a = true -> String.prefix p (a ++ b) = true.
Proof.
  revert a. induction p as [| c p IH]; intros a H.
  - destruct (a ++ b); reflexivity.
  - destruct a as [| c' a]; simpl in *; [discriminate H |].
    destruct (Ascii.ascii_dec c c'); [apply IH; exact H | discriminate H].
Qed.

(** No character of the pattern survives [escape_string]. *)
Lemma escape_string_clean (s : string) (c : ascii) :
  In c (list_ascii_of_string (escape_string s)) ->
  c <> "<"%char /\ c <> ">"%char /\ c <> ascii_of_nat 34 /\ c <> "'"%char.
Proof.
  induction s as [| a s IH]; simpl; intros H; [contradiction |].
  unfold escape_char in H.
  destruct (Ascii.eqb_spec a "&"); [| destruct (Ascii.eqb_spec a "<");
    [| destruct (Ascii.eqb_spec a ">"); [| destruct (Ascii.eqb_spec a (ascii_of_nat 34));
      [| destruct (Ascii.eqb_spec a "'")]]]];
    simpl in H;
    repeat (destruct H as [<- | H];
            [repeat split; first [discriminate | congruence] |]);
    try (apply IH; exact H).
Qed.

(** Every card opens the same way, and not the way the no-results block
    does. *)
Lemma createWordCard_opening (cats word : value) (card : string) :
  createWordCard cats word = Ok card -> String.prefix cardOpening card = true.
Proof.
  intros H. unfold createWordCard in H.
  repeat (apply rbind_ok in H; destruct H as [? [_ H]]; cbv beta in H).
  injection H as <-. reflexivity.
Qed.

Lemma noResults_opening : String.prefix cardOpening noResultsMarkup = false.
Proof. reflexivity. Qed.

Lemma joined_cards_opening (cards : list string) :
  cards <> [] ->
  Forall (fun card => String.prefix cardOpening card = true) cards ->
  String.prefix cardOpening (join EmptyString cards) = true.
Proof.
  intros Hne Hall. destruct Hall as [| card rest Hcard _]; [congruence |].
  destruct rest as [| card' rest]; simpl.
  - exact Hcard.
  - apply prefix_append. exact Hcard.
Qed.

(** C6, at the inputs where the script falls short.  [createWordCard]
    puts the date of a term and the display name of its category into the
    card as they are: markup in [dateAdded], in the [name.english] of the
    category, or in a category key the mapping does not know, reaches the
    card unescaped, while the same text in the English name is escaped. *)
Theorem createWordCard_leaves_markup :
  (exists card, createWordCard (VObj []) markupDateTerm = Ok card
                /\ includes card "<script>alert(1)</script>" = true)
  /\ (exists card, createWordCard markupCategories cacheTerm = Ok card
                   /\ includes card "<b>Storage</b>" = true)
  /\ (exists card, createWordCard (VObj []) markupCategoryTerm = Ok card
                   /\ includes card "<img src=x onerror=alert(1)>" = true)
  /\ (exists card,
        createWordCard (VObj [])
          (VObj [("english", VStr "<script>alert(1)</script>"); ("khmer", VStr "឴ឃាស");
                 ("category", VStr "storage")]) = Ok card
        /\ includes card "<script>" = false
        /\ includes card "&lt;script&gt;alert(1)&lt;/script&gt;" = true).
Proof.
  repeat split; eexists; repeat split; vm_compute; reflexivity.
Qed.

(** ** Rendering the result *)

Section RenderClaims.
Context {host : Host}.

Lemma filterWords_frame (w : world) : snd (filterWords w) = w.
Proof.
  unfold filterWords, bind, read, lift, throw.
  destruct (lexiconData (app w)); reflexivity.
Qed.

(** C7.  With the word grid and the results label on the page, for the
    list [shown] that [filterWords] returns: the label becomes the count
    followed by [terms found]; when the list is empty the run is the
    no-results branch and nothing else; when it is not, the run is the
    card branch and nothing else, and what a successful card branch leaves
    in the grid is one card per term and is never the no-results block. *)
Theorem renderWords_count_and_branch (w : world) (shown : list value) (g c : string) :
  wordGrid (dom w) = Some g ->
  resultsCount (dom w) = Some c ->
  fst (filterWords w) = Ok shown ->
  let label := string_of_nat (List.length shown) ++ " terms found" in
  let counted := with_dom (set_resultsCount (Some label) (dom w)) w in
  resultsCount (dom (snd (renderWords w))) = Some label
  /\ (List.length shown = 0 ->
      renderWords w
      = (Ok tt, with_dom (set_wordGrid (Some noResultsMarkup) (dom counted)) counted))
  /\ (List.length shown <> 0 ->
      renderWords w = renderWordCards shown counted
      /\ forall w', renderWords w = (Ok tt, w') ->
           exists cards,
             wordGrid (dom w') = Some (join EmptyString cards)
             /\ List.length cards = List.length shown
             /\ join EmptyString cards <> noResultsMarkup).
Proof.
  intros Hg Hc Hf label counted.
  assert (Hfw : filterWords w = (Ok shown, w)).
  { rewrite (surjective_pairing (filterWords w)), Hf, filterWords_frame. reflexivity. }
  assert (Hrun : renderWords w
                 = if Nat.eqb (List.length shown) 0 then renderNoResults counted
                   else renderWordCards shown counted).
  { unfold renderWords, bind, read. rewrite Hg, Hc, Hfw. unfold write.
    destruct (Nat.eqb (List.length shown) 0); reflexivity. }
  assert (Hcards : forall r w', renderWordCards shown counted = (r, w') ->
                     resultsCount (dom w') = Some label
                     /\ (r = Ok tt ->
                         exists cards,
                           map_array (createWordCard (categoriesData (app w))) shown = Ok cards
                           /\ wordGrid (dom w') = Some (join EmptyString cards))).
  { intros r w'. unfold renderWordCards, bind, read, lift, write. simpl.
    destruct (map_array (createWordCard (categoriesData (app w))) shown) as [cards | e].
    - rewrite Hg. intros H. injection H as <- <-. simpl. split; [reflexivity |].
      intros _. exists cards. split; reflexivity.
    - intros H. injection H as <- <-. simpl. split; [reflexivity | discriminate]. }
  rewrite Hrun. destruct (Nat.eqb_spec (List.length shown) 0) as [Hz | Hnz].
  - unfold renderNoResults, bind, read, write. simpl. rewrite Hg. simpl.
    split; [reflexivity | split; [intros _; reflexivity | intros H; contradiction]].
  - destruct (renderWordCards shown counted) as [r w1] eqn:Hrun1.
    destruct (Hcards r w1 eq_refl) as [Hlabel Hok].
    split; [exact Hlabel | split; [intros H; contradiction |]].
    intros _. split; [reflexivity |].
    intros w' H. injection H as -> <-.
    destruct (Hok eq_refl) as [cards [Hmap Hgrid]].
    exists cards. split; [exact Hgrid | split].
    + apply (map_array_length _ _ _ Hmap).
    + intros Heq.
      assert (Hopen : String.prefix cardOpening (join EmptyString cards) = true).
      { apply joined_cards_opening.
        - intros ->. apply map_array_length in Hmap. simpl in Hmap. congruence.
        - apply (map_array_Forall _ _ _ _ (createWordCard_opening _) Hmap). }
      rewrite Heq, noResults_opening in Hopen. discriminate Hopen.
Qed.

End RenderClaims.

(** ** Loading *)

(** A request changes nothing in the world, and when it returns a
    response the reply came in time with a success status. *)
Lemma fetchWithTimeout_outcome (url : string) (w : world) :
  (exists e, fetchWithTimeout url 10000 w = (Throw e, w))
  \/ (exists r, fetchWithTimeout url 10000 w = (Ok r, w)
                /\ (Spec.resource_fails (network w url) = true -> resp_body r = None)).
Proof.
  unfold fetchWithTimeout, bind, read, throw, ret.
  destruct (network w url) as [after_ms | after_ms status body]; simpl.
  - left. destruct (10000 <=? after_ms)%N; eexists; reflexivity.
  - destruct (10000 <=? after_ms)%N eqn:Hlate; [left; eexists; reflexivity |].
    unfold status_ok.
    destruct ((200 <=? status) && (status <=? 299))%N eqn:Hok; [| left; eexists; reflexivity].
    right. eexists. split; [reflexivity |]. simpl.
    apply N.leb_gt in Hlate.
    assert (Hin : (10000 <? after_ms)%N = false) by (apply N.ltb_ge; lia).
    rewrite Hin. simpl. destruct body; [discriminate | reflexivity].
Qed.

Lemma json_outcome (r : response) (w : world) :
  json r w = match resp_body r with
             | Some v => (Ok v, w)
             | None => (Throw SyntaxError, w)
             end.
Proof.
  unfold json. destruct (resp_body r); reflexivity.
Qed.

(** One failing resource is enough for the awaits to throw, the world
    untouched. *)
Lemma fetch_documents_fails (w : world) :
  (exists url, In url urls /\ Spec.resource_fails (network w url) = true) ->
  exists e, fetch_documents w = (Throw e, w).
Proof.
  intros [url [Hin Hfail]]. unfold fetch_documents.
  unfold bind at 1.
  destruct (fetchWithTimeout_outcome "data/lexicon.json" w) as [[e ->] | [r1 [-> H1]]];
    [eexists; reflexivity |].
  unfold bind at 1.
  destruct (fetchWithTimeout_outcome "data/categories.json" w) as [[e ->] | [r2 [-> H2]]];
    [eexists; reflexivity |].
  unfold bind at 1.
  destruct (fetchWithTimeout_outcome "data/website.json" w) as [[e ->] | [r3 [-> H3]]];
    [eexists; reflexivity |].
  assert (Hbody : resp_body r1 = None \/ resp_body r2 = None \/ resp_body r3 = None).
  { destruct Hin as [<- | [<- | [<- | []]]]; auto. }
  unfold bind, ret. rewrite json_outcome.
  destruct (resp_body r1) as [d1 |]; [| eexists; reflexivity].
  rewrite json_outcome.
  destruct (resp_body r2) as [d2 |]; [| eexists; reflexivity].
  rewrite json_outcome.
  destruct (resp_body r3) as [d3 |]; [| eexists; reflexivity].
  destruct Hbody as [H | [H | H]]; discriminate H.
Qed.

Section LoadClaims.
Context {host : Host}.

(** C5.  With the three panels on the page: if one of the three resources
    cannot be fetched, answers after the ten seconds, answers with a
    status outside 200-299 or has a body that is not JSON, [loadData]
    settles without an exception of its own, the globals are what they
    were, the loading panel is hidden, the error panel is shown, the main
    content is hidden, and the display writes of the run are exactly the
    three of [showLoading] and the three of [showError]: the main content
    is never switched on.  The rest of the page is untouched. *)
Theorem loadData_all_or_nothing (w : world) :
  Spec.panels_present (dom w) ->
  (exists url, In url urls /\ Spec.resource_fails (network w url) = true) ->
  let w' := snd (loadData w) in
  fst (loadData w) = Ok tt
  /\ app w' = app w
  /\ loading (dom w') = Some "none"
  /\ error_box (dom w') = Some "block"
  /\ (exists d classes, mainContent (dom w) = Some (d, classes)
                        /\ mainContent (dom w') = Some ("none", classes))
  /\ trace w' = (trace w ++ [ Display Loading "block"; Display ErrorBox "none";
                              Display MainContent "none";
                              ConsoleError "Error loading data:";
                              Display Loading "none"; Display ErrorBox "block";
                              Display MainContent "none" ])%list
  /\ ~ In (Display MainContent "block") (skipn (List.length (trace w)) (trace w'))
  /\ wordGrid (dom w') = wordGrid (dom w)
  /\ resultsCount (dom w') = resultsCount (dom w)
  /\ statsContainer (dom w') = statsContainer (dom w)
  /\ filterButtons (dom w') = filterButtons (dom w).
Proof.
  intros [Hl [He Hm]] Hfail.
  destruct w as [g d tr net clk dl].
  destruct d as [ld eb mc si fb wg rc sc cm]. simpl in Hl, He, Hm, Hfail.
  destruct ld as [ld |]; [| congruence].
  destruct eb as [eb |]; [| congruence].
  destruct mc as [[md classes] |]; [| congruence].
  cbv zeta.
  cbv [loadData try_catch bind showLoading set_display put_display read write throw emit
       with_dom set_loading set_error_box set_mainContent app dom trace network clock download_works
       loading error_box mainContent searchInput filterButtons wordGrid resultsCount
       statsContainer contributeModal].
  match goal with
  | |- context [fetch_documents ?W] =>
      destruct (fetch_documents_fails W Hfail) as [e Hthrow]; rewrite Hthrow
  end.
  cbv [log showError bind set_display put_display read write throw emit with_dom
       set_loading set_error_box set_mainContent app dom trace network clock download_works
       loading error_box mainContent searchInput filterButtons wordGrid resultsCount
       statsContainer contributeModal fst snd].
  assert (Htrace : forall a b c d0 e0 f g0 : event,
            (((((((tr ++ [a]) ++ [b]) ++ [c]) ++ [d0]) ++ [e0]) ++ [f]) ++ [g0])%list
            = (tr ++ [a; b; c; d0; e0; f; g0])%list).
  { intros. rewrite <- !app_assoc. reflexivity. }
  rewrite Htrace.
  repeat split.
  - exists md, classes. split; reflexivity.
  - rewrite skipn_app, skipn_all, Nat.sub_diag. simpl.
    intros [H | [H | [H | [H | [H | [H | [H | []]]]]]]]; discriminate H.
Qed.

End LoadClaims.

(** ** Export *)

Lemma get_of_present (v : value) (k : string) :
  nullish v = false -> exists x, get v k = Ok x.
Proof.
  intros H. destruct v; try discriminate H; simpl; try (eexists; reflexivity).
  destruct (own props k); eexists; reflexivity.
Qed.

(** [websiteInfo.project?.version || '1.0.0'] evaluates unless
    [websiteInfo] itself is [null] or [undefined]. *)
Lemma version_outcome (info : value) :
  let version :=
    (let? project := get info "project" in
     if nullish project then Ok VUndefined else get project "version")
    ||| Ok (VStr "1.0.0") in
  (nullish info = false -> exists v, version = Ok v)
  /\ (nullish info = true -> version = Throw TypeError).
Proof.
  cbv zeta. split.
  - intros H. destruct (get_of_present info "project" H) as [project ->]. simpl.
    destruct (nullish project) eqn:Hp.
    + eexists. reflexivity.
    + destruct (get_of_present project "version" Hp) as [v ->].
      unfold or_else. simpl. destruct (truthy v); eexists; reflexivity.
  - intros H. destruct info; try discriminate H; reflexivity.
Qed.

Section ExportClaims.
Context {host : Host}.

(** Whatever the world, [exportJSON] settles without an exception and
    leaves globals and page alone. *)
Lemma exportJSON_keeps_state (w : world) :
  fst (exportJSON w) = Ok tt
  /\ app (snd (exportJSON w)) = app w
  /\ dom (snd (exportJSON w)) = dom w.
Proof.
  cbv [exportJSON try_catch bind read lift getCurrentDateString download log
       write throw ret].
  destruct (get_length (lexiconData (app w))) as [n |];
    [| split; [| split]; reflexivity].
  destruct (_ ||| _) as [v |]; [| split; [| split]; reflexivity].
  destruct (download_works w); split; [| split | | split]; reflexivity.
Qed.

(** C9.  With a sequence of terms loaded, [exportJSON] hands the host the
    serialisation of the object with [metadata] (export date, the length
    of the term collection as [totalTerms], version, exporter), [terms]
    and [categories], the last two being the globals as they are, under a
    file name with the current date; a run that fails on the way ends in
    the console error and the alert instead.  In both cases the call
    settles normally and globals and page are what they were. *)
Theorem exportJSON_structure_and_frame (w : world) (terms : list value) :
  lexiconData (app w) = VArr terms ->
  let w' := snd (exportJSON w) in
  fst (exportJSON w) = Ok tt
  /\ app w' = app w
  /\ dom w' = dom w
  /\ (download_works w = true -> nullish (websiteInfo (app w)) = false ->
      exists version,
        trace w'
        = (trace w ++
           [ Download
               ("domra-tech-lexicon-" ++ before_T (clock w) ++ ".json")
               (JSON_stringify
                  (VObj [ ("metadata",
                           VObj [ ("exportDate", VStr (clock w));
                                  ("totalTerms", VNum (Z.of_nat (List.length terms)));
                                  ("version", version);
                                  ("exportedBy", VStr "Domra Tech Lexicon") ]);
                          ("terms", lexiconData (app w));
                          ("categories", categoriesData (app w)) ]));
             ConsoleLog "Data exported successfully" [] ])%list)
  /\ (download_works w = false \/ nullish (websiteInfo (app w)) = true ->
      trace w'
      = (trace w ++ [ ConsoleError "Error exporting data:";
                      Alert "Error exporting data. Please try again." ])%list).
Proof.
  intros Hl w'.
  destruct (exportJSON_keeps_state w) as [Hr [Ha Hd]].
  split; [exact Hr | split; [exact Ha | split; [exact Hd |]]].
  unfold w'. clear w' Hr Ha Hd.
  destruct (version_outcome (websiteInfo (app w))) as [Hpresent Habsent].
  cbv zeta in Hpresent, Habsent.
  cbv [exportJSON try_catch bind read lift getCurrentDateString download log
       write throw ret dataToExport].
  rewrite Hl. cbn [get_length].
  split.
  - intros Hdl Hinfo. destruct (Hpresent Hinfo) as [v Hv]. rewrite Hv, Hdl.
    exists v. cbn [snd trace emit]. rewrite <- app_assoc. reflexivity.
  - intros [Hdl | Hinfo].
    + destruct (_ ||| _) as [v |].
      * rewrite Hdl. cbn [snd trace emit]. rewrite <- app_assoc. reflexivity.
      * cbn [snd trace emit]. rewrite <- app_assoc. reflexivity.
    + rewrite (Habsent Hinfo). cbn [snd trace emit]. rewrite <- app_assoc. reflexivity.
Qed.

End ExportClaims.

(** ** Cards for terms of the data model *)

Lemma term_ok_shape (word : value) :
  Spec.term_ok word = true ->
  exists props t c da re,
    word = VObj props
    /\ Spec.term_of word = Some t
    /\ Spec.field props "category" = VStr c
    /\ c <> "__proto__"
    /\ Spec.optional_string (Spec.field props "dateAdded") = Some da
    /\ Spec.optional_string (Spec.field props "reference") = Some re.
Proof.
  unfold Spec.term_ok. intros H.
  destruct (Spec.term_of word) as [t |] eqn:Ht; [| discriminate H].
  destruct (term_of_shape word t Ht) as [props [-> [_ [_ [_ [_ [_ Hc]]]]]]].
  destruct (Spec.categoryKey t) as [c |] eqn:Hkey; [| discriminate H].
  destruct (Spec.optional_string (Spec.field props "dateAdded")) as [da |] eqn:Hda;
    [| discriminate H].
  destruct (Spec.optional_string (Spec.field props "reference")) as [re |] eqn:Hre;
    [| discriminate H].
  exists props, t, c, da, re.
  split; [reflexivity |]. split; [reflexivity |].
  split; [| split; [| split; assumption]].
  - destruct (Spec.field props "category"); try discriminate Hc. congruence.
  - intros ->. discriminate H.
Qed.

Lemma to_string_optional (v : value) (o : option string) :
  Spec.optional_string v = Some o -> exists s, to_string v = Ok s.
Proof.
  destruct v; simpl; intros H; try discriminate H; eexists; reflexivity.
Qed.

Lemma to_string_escaped_optional (v : value) (o : option string) :
  Spec.optional_string v = Some o -> exists s, to_string (escapeHtml v) = Ok s.
Proof.
  destruct v; simpl; intros H; try discriminate H; eexists; reflexivity.
Qed.

(** [v || 'default'] on an optional string is a string. *)
Lemma optional_or_default (v : value) (o : option string) (d : string) :
  Spec.optional_string v = Some o ->
  exists s, (Ok v ||| Ok (VStr d)) = Ok (VStr s).
Proof.
  destruct v; simpl; intros H; try discriminate H; unfold or_else; simpl;
    try (eexists; reflexivity).
  destruct (s =? EmptyString); eexists; reflexivity.
Qed.

Lemma truthy_optional_string (v : value) (o : option string) :
  Spec.optional_string v = Some o -> truthy v = true -> exists s, v = VStr s.
Proof.
  destruct v; simpl; intros H Ht; try discriminate H; try discriminate Ht.
  eexists; reflexivity.
Qed.

Lemma renderExamples_ok (v : value) (ex : option Spec.Examples) :
  Spec.optional_examples v = Some ex -> exists s, renderExamples v = Ok s.
Proof.
  intros H. destruct v as [| | | | | | eprops]; simpl in H; try discriminate H;
    try (eexists; reflexivity).
  destruct (Spec.optional_string (Spec.field eprops "english")) as [en |] eqn:Hen;
    try discriminate H.
  destruct (Spec.optional_string (Spec.field eprops "khmer")) as [km |] eqn:Hkm;
    try discriminate H.
  unfold renderExamples. cbn [truthy negb]. rewrite !get_object. cbn [rbind].
  destruct (truthy (Spec.field eprops "english")) eqn:Te;
    destruct (truthy (Spec.field eprops "khmer")) eqn:Tk; cbn [negb andb];
    try (destruct (truthy_optional_string _ _ Hen Te) as [se ->]);
    try (destruct (truthy_optional_string _ _ Hkm Tk) as [sk ->]);
    eexists; reflexivity.
Qed.

Lemma tag_spans_ok (xs : list value) (ss : list string) :
  Spec.strings xs = Some ss ->
  exists spans,
    map_array (fun tag => let? s := to_string (escapeHtml tag) in
                          Ok (tpl "<span class=`tag`>" ++ s ++ "</span>")) xs = Ok spans.
Proof.
  revert ss. induction xs as [| x rest IH]; intros ss H.
  - eexists. reflexivity.
  - simpl in H. destruct x as [| | | | s | |]; try discriminate H.
    destruct (Spec.strings rest) as [ss' |]; try discriminate H.
    destruct (IH ss' eq_refl) as [spans Hspans].
    cbn [map_array escapeHtml to_string rbind]. rewrite Hspans.
    eexists. reflexivity.
Qed.

Lemma renderTags_ok (v : value) (ts : option (list string)) :
  Spec.optional_tags v = Some ts -> exists s, renderTags v = Ok s.
Proof.
  intros H. destruct v as [| | | | | xs |]; simpl in H; try discriminate H;
    try (eexists; reflexivity).
  destruct (Spec.strings xs) as [ss |] eqn:Hss; try discriminate H.
  destruct xs as [| x rest]; [eexists; reflexivity |].
  unfold renderTags. destruct (tag_spans_ok (x :: rest) ss Hss) as [spans ->].
  eexists. reflexivity.
Qed.

Lemma renderReference_ok (v : value) (o : option string) :
  Spec.optional_string v = Some o -> exists s, renderReference v = Ok s.
Proof.
  intros H. unfold renderReference.
  destruct (negb (truthy v) || strict_eq_string v "#"); [eexists; reflexivity |].
  destruct (to_string_escaped_optional v o H) as [s ->]. eexists. reflexivity.
Qed.

Lemma own_category_ok (props : list (string * value)) (key : string) (v : value) :
  forallb (fun entry => Spec.category_ok (snd entry)) props = true ->
  own props key = Some v -> Spec.category_ok v = true.
Proof.
  induction props as [| [k x] rest IH]; simpl; intros Hall H; [discriminate H |].
  apply andb_true_iff in Hall. destruct Hall as [Hx Hrest].
  destruct (k =? key); [injection H as <-; exact Hx | apply IH; assumption].
Qed.

(** What the card needs of a category that is in the mapping, inherited,
    or made up from the key. *)
Lemma category_parts (cats : value) (c : string) :
  Spec.categories_ok cats = true ->
  c <> "__proto__" ->
  exists category icon name name_english s_icon s_name,
    (computed_get cats c
     ||| Ok (VObj [("icon", VStr "📝"); ("name", VObj [("english", VStr c)])])) = Ok category
    /\ get category "icon" = Ok icon
    /\ to_string icon = Ok s_icon
    /\ get category "name" = Ok name
    /\ get name "english" = Ok name_english
    /\ to_string name_english = Ok s_name.
Proof.
  intros Hcats Hc. destruct cats as [| | | | | | cprops]; try discriminate Hcats.
  simpl in Hcats. unfold computed_get.
  destruct (own cprops c) as [v |] eqn:Hown.
  - pose proof (own_category_ok cprops c v Hcats Hown) as Hv.
    destruct v as [| | | | | | vprops]; try discriminate Hv. simpl in Hv.
    destruct (Spec.field vprops "name") as [| | | | | | nprops] eqn:Hname; try discriminate Hv.
    destruct (Spec.optional_string (Spec.field vprops "icon")) as [i |] eqn:Hicon;
      try discriminate Hv.
    destruct (Spec.field nprops "english") as [| | | | en | |] eqn:Hen; try discriminate Hv.
    destruct (to_string_optional _ _ Hicon) as [s_icon Hs].
    exists (VObj vprops), (Spec.field vprops "icon"), (VObj nprops), (VStr en), s_icon, en.
    rewrite !get_object, Hname, Hen. repeat split. exact Hs.
  - unfold inherited. apply String.eqb_neq in Hc. rewrite Hc.
    destruct (c =? "constructor").
    + do 6 eexists. repeat split.
    + destruct (existsb (String.eqb c) inherited_methods).
      * do 6 eexists. repeat split.
      * do 6 eexists. repeat split.
Qed.

(** A card is produced for every printable term, whatever well-formed
    mapping of categories is loaded. *)
Lemma createWordCard_ok (cats word : value) :
  Spec.categories_ok cats = true ->
  Spec.term_ok word = true ->
  exists card, createWordCard cats word = Ok card.
Proof.
  intros Hcats Hword.
  destruct (term_ok_shape word Hword) as [props [t [c [da [re [-> [Ht [Hc [Hproto [Hda Hre]]]]]]]]]].
  destruct (term_of_shape _ t Ht) as [props' [Heq [Hen [Hkm [Hd [Hts [Hex _]]]]]]].
  injection Heq as <-.
  destruct (category_parts cats c Hcats Hproto)
    as [category [icon [name [ne [s_icon [s_name [Hcat [Hi [Hsi [Hn [Hne Hsn]]]]]]]]]]].
  destruct (optional_or_default _ _ "No description available" Hd) as [s_desc Hdesc].
  destruct (renderExamples_ok _ _ Hex) as [s_ex Hsex].
  destruct (renderTags_ok _ _ Hts) as [s_tags Hstags].
  destruct (optional_or_default _ _ "Unknown" Hda) as [s_date Hdate].
  destruct (renderReference_ok _ _ Hre) as [s_ref Hsref].
  unfold createWordCard. rewrite !get_object. rewrite Hc, Hen, Hkm.
  cbn [rbind to_string escapeHtml]. rewrite Hcat. cbn [rbind].
  rewrite Hi. cbn [rbind]. rewrite Hsi. cbn [rbind].
  rewrite Hn. cbn [rbind]. rewrite Hne. cbn [rbind]. rewrite Hsn. cbn [rbind].
  rewrite Hdesc. cbn [rbind to_string escapeHtml].
  rewrite Hsex. cbn [rbind]. rewrite Hstags. cbn [rbind].
  rewrite Hdate. cbn [rbind to_string]. rewrite Hsref. cbn [rbind].
  eexists. reflexivity.
Qed.

(** ** Stages of a successful load *)

Lemma settled_refl (w : world) : settled w w.
Proof.
  repeat split. exists []. split; [symmetry; apply app_nil_r | reflexivity].
Qed.

Lemma settled_trans (w1 w2 w3 : world) : settled w1 w2 -> settled w2 w3 -> settled w1 w3.
Proof.
  intros [Ha [Hl [He [Hm [ev [Ht Hq]]]]]] [Ha' [Hl' [He' [Hm' [ev' [Ht' Hq']]]]]].
  repeat split; try congruence.
  exists (ev ++ ev')%list. split.
  - rewrite Ht', Ht, app_assoc. reflexivity.
  - rewrite forallb_app, Hq, Hq'. reflexivity.
Qed.

Lemma same_results_trans (w1 w2 w3 : world) :
  same_results w1 w2 -> same_results w2 w3 -> same_results w1 w3.
Proof.
  intros [Hg Hc] [Hg' Hc']. split; congruence.
Qed.

Lemma map_array_ok {A : Type} (f : value -> result A) (xs : list value) :
  (forall x, In x xs -> exists y, f x = Ok y) ->
  exists ys, map_array f xs = Ok ys.
Proof.
  induction xs as [| x rest IH]; intros H.
  - eexists. reflexivity.
  - destruct (H x (or_introl eq_refl)) as [y Hy].
    destruct IH as [ys Hys]; [intros z Hz; apply H; right; exact Hz |].
    simpl. rewrite Hy. simpl. rewrite Hys. eexists. reflexivity.
Qed.

Lemma term_ok_term_of (word : value) :
  Spec.term_ok word = true -> Spec.term_of word <> None.
Proof.
  intros H. destruct (term_ok_shape word H) as [props [t [_ [_ [_ [_ [Ht _]]]]]]].
  congruence.
Qed.

Lemma term_ok_object (word : value) :
  Spec.term_ok word = true -> exists props, word = VObj props.
Proof.
  intros H. destruct (term_ok_shape word H) as [props [_ [_ [_ [_ [-> _]]]]]].
  exists props. reflexivity.
Qed.

Lemma bind_ok {A B : Type} (m : M A) (k : A -> M B) (w w' : world) (a : A) :
  m w = (Ok a, w') -> bind m k w = k a w'.
Proof.
  intros H. unfold bind. rewrite H. reflexivity.
Qed.

(** The category buttons: one more button per well-formed category. *)
Lemma category_buttons_run (entries : list (string * value)) :
  forallb (fun entry => Spec.category_ok (snd entry)) entries = true ->
  forall (w : world) (bs : list button),
    filterButtons (dom w) = Some bs ->
    exists bs',
      for_each (fun '(categoryKey, category) =>
                  b <- lift (let? name := get category "name" in
                             let? name_english := get name "english" in
                             let? icon := get category "icon" ||| Ok (VStr "📝") in
                             createFilterButton categoryKey name_english icon false) ;;
                  appendButton b) entries w
      = (Ok tt, with_dom (set_filterButtons (Some bs') (dom w)) w).
Proof.
  induction entries as [| [k category] rest IH]; intros Hall w bs Hfb.
  - exists bs. simpl. unfold ret. rewrite <- Hfb.
    destruct w as [g d tr net clk dl]. destruct d. reflexivity.
  - simpl in Hall. apply andb_true_iff in Hall. destruct Hall as [Hcat Hrest].
    destruct category as [| | | | | | vprops]; try discriminate Hcat. simpl in Hcat.
    destruct (Spec.field vprops "name") as [| | | | | | nprops] eqn:Hname; try discriminate Hcat.
    destruct (Spec.optional_string (Spec.field vprops "icon")) as [i |] eqn:Hicon;
      try discriminate Hcat.
    destruct (Spec.field nprops "english") as [| | | | en | |] eqn:Hen; try discriminate Hcat.
    destruct (optional_or_default _ _ "📝" Hicon) as [s_icon Hs].
    cbn [for_each].
    set (b := {| className := "filter-btn " ++ EmptyString;
                 dataset_category := k;
                 button_innerHTML := s_icon ++ " " ++ en;
                 aria_pressed := "false" |}).
    set (w1 := with_dom (set_filterButtons (Some (bs ++ [b])%list) (dom w)) w).
    rewrite (bind_ok _ _ w w1 tt).
    + destruct (IH Hrest w1 (bs ++ [b])%list eq_refl) as [bs' Hrun].
      exists bs'. rewrite Hrun. reflexivity.
    + rewrite (bind_ok _ _ w w b).
      * unfold appendButton, bind, read, write. rewrite Hfb. reflexivity.
      * unfold lift. rewrite !get_object, Hname. cbn [rbind].
        rewrite get_object, Hen. cbn [rbind]. rewrite Hs. reflexivity.
Qed.

Lemma populateCategoryButtons_runs (w : world) :
  Spec.categories_ok (categoriesData (app w)) = true ->
  exists w', populateCategoryButtons w = (Ok tt, w')
             /\ settled w w' /\ same_results w w'.
Proof.
  intros Hcats. unfold populateCategoryButtons. rewrite (bind_ok read _ w w w eq_refl).
  destruct (filterButtons (dom w)) as [bs |] eqn:Hfb.
  - destruct (categoriesData (app w)) as [| | | | | | cprops] eqn:Hc; try discriminate Hcats.
    simpl in Hcats.
    erewrite bind_ok by reflexivity.
    erewrite bind_ok by reflexivity.
    erewrite bind_ok by (unfold appendButton, bind, read, write; reflexivity).
    erewrite bind_ok by reflexivity.
    match goal with
    | |- context [for_each _ cprops ?W] =>
        destruct (category_buttons_run cprops Hcats W
                    [ {| className := "filter-btn " ++ "active";
                         dataset_category := "all";
                         button_innerHTML := "📚" ++ " " ++ "All Categories";
                         aria_pressed := "true" |} ] eq_refl) as [bs' Hrun]
    end.
    rewrite Hrun.
    eexists. split; [reflexivity |]. split.
    + repeat split. exists []. split; [symmetry; apply app_nil_r | reflexivity].
    + split; reflexivity.
  - exists w. split; [reflexivity |]. split; [apply settled_refl | split; reflexivity].
Qed.

Lemma flat_map_array_ok (f : value -> result value) (xs : list value) :
  (forall x, In x xs -> exists y, f x = Ok y) ->
  exists ys, flat_map_array f xs = Ok ys.
Proof.
  induction xs as [| x rest IH]; intros H.
  - eexists. reflexivity.
  - destruct (H x (or_introl eq_refl)) as [y Hy].
    destruct IH as [ys Hys]; [intros z Hz; apply H; right; exact Hz |].
    simpl. rewrite Hy. simpl. rewrite Hys. eexists. reflexivity.
Qed.

Lemma filter_array_ok (f : value -> result bool) (xs : list value) :
  (forall x, In x xs -> exists b, f x = Ok b) ->
  exists ys, filter_array f xs = Ok ys.
Proof.
  induction xs as [| x rest IH]; intros H.
  - eexists. reflexivity.
  - destruct (H x (or_introl eq_refl)) as [b Hb].
    destruct IH as [ys Hys]; [intros z Hz; apply H; right; exact Hz |].
    simpl. rewrite Hb. simpl. rewrite Hys. eexists. reflexivity.
Qed.

Lemma Object_entries_ok (o : value) :
  nullish o = false -> exists entries, Object_entries o = Ok entries.
Proof.
  destruct o; simpl; intros H; try discriminate H; eexists; reflexivity.
Qed.

Lemma updateStats_runs (w : world) (words : list value) :
  lexiconData (app w) = VArr words ->
  forallb Spec.term_ok words = true ->
  nullish (categoriesData (app w)) = false ->
  exists w', updateStats w = (Ok tt, w') /\ settled w w' /\ same_results w w'.
Proof.
  intros Hl Hwords Hcats. unfold updateStats. rewrite (bind_ok read _ w w w eq_refl).
  destruct (statsContainer (dom w)) as [sc |].
  - rewrite Hl.
    destruct (Object_entries_ok _ Hcats) as [entries Hentries].
    destruct (flat_map_array_ok
                (fun term => get term "contributors" ||| Ok (VArr [])) words)
      as [contributors Hcontrib].
    { intros x Hx. rewrite forallb_forall in Hwords.
      destruct (term_ok_object x (Hwords x Hx)) as [props ->].
      rewrite get_object. unfold or_else. simpl.
      destruct (truthy (Spec.field props "contributors")); eexists; reflexivity. }
    destruct (filter_array_ok
                (fun term => let? status := get term "status" in
                             Ok (strict_eq_string status "verified")) words)
      as [verified Hverified].
    { intros x Hx. rewrite forallb_forall in Hwords.
      destruct (term_ok_object x (Hwords x Hx)) as [props ->].
      rewrite get_object. eexists. reflexivity. }
    erewrite bind_ok by reflexivity.
    erewrite bind_ok by (unfold lift; rewrite Hentries; reflexivity).
    erewrite bind_ok by (unfold lift; rewrite Hcontrib; reflexivity).
    erewrite bind_ok by (unfold lift; rewrite Hverified; reflexivity).
    erewrite bind_ok by reflexivity.
    eexists. split; [reflexivity |]. split.
    + repeat split. exists []. split; [symmetry; apply app_nil_r | reflexivity].
    + split; reflexivity.
  - exists w. split; [reflexivity |]. split; [apply settled_refl | split; reflexivity].
Qed.

Lemma setupEventListeners_runs (w : world) :
  exists w', setupEventListeners w = (Ok tt, w') /\ settled w w' /\ same_results w w'.
Proof.
  unfold setupEventListeners. rewrite (bind_ok read _ w w w eq_refl).
  destruct (searchInput (dom w)), (filterButtons (dom w)), (contributeModal (dom w));
    (eexists; split; [reflexivity |]; split; [| split; reflexivity];
     repeat split; cbn [trace emit];
     eexists; split; [rewrite <- ?app_assoc; reflexivity | reflexivity]).
Qed.

Lemma initializeInterface_runs (w : world) (words : list value) :
  lexiconData (app w) = VArr words ->
  forallb Spec.term_ok words = true ->
  Spec.categories_ok (categoriesData (app w)) = true ->
  exists w', initializeInterface w = (Ok tt, w') /\ settled w w' /\ same_results w w'.
Proof.
  intros Hl Hwords Hcats. unfold initializeInterface.
  destruct (populateCategoryButtons_runs w Hcats) as [w1 [H1 [S1 R1]]].
  assert (Ha1 : app w1 = app w) by (destruct S1 as [Ha _]; exact Ha).
  destruct (updateStats_runs w1 words) as [w2 [H2 [S2 R2]]].
  { rewrite Ha1. exact Hl. }
  { exact Hwords. }
  { rewrite Ha1. destruct (categoriesData (app w)); try discriminate Hcats. reflexivity. }
  destruct (setupEventListeners_runs w2) as [w3 [H3 [S3 R3]]].
  exists w3. split.
  - rewrite (bind_ok _ _ w w1 tt H1). rewrite (bind_ok _ _ w1 w2 tt H2). exact H3.
  - split.
    + exact (settled_trans _ _ _ (settled_trans _ _ _ S1 S2) S3).
    + exact (same_results_trans _ _ _ (same_results_trans _ _ _ R1 R2) R3).
Qed.

Section LoadSucceeds.
Context {host : Host}.

Lemma renderWords_runs (w : world) (words : list value) :
  lexiconData (app w) = VArr words ->
  forallb Spec.term_ok words = true ->
  Spec.categories_ok (categoriesData (app w)) = true ->
  exists w', renderWords w = (Ok tt, w')
             /\ settled w w'
             /\ (words = [] -> wordGrid (dom w) <> None -> resultsCount (dom w) <> None ->
                 resultsCount (dom w') = Some "0 terms found"
                 /\ wordGrid (dom w') = Some noResultsMarkup).
Proof.
  intros Hl Hwords Hcats.
  assert (Hquiet : forall d, settled w (with_dom d w) <->
                             loading d = loading (dom w)
                             /\ error_box d = error_box (dom w)
                             /\ mainContent d = mainContent (dom w)).
  { intros d. unfold settled. simpl. split.
    - intros [_ [H1 [H2 [H3 _]]]]. auto.
    - intros [H1 [H2 H3]]. repeat split; auto.
      exists []. split; [symmetry; apply app_nil_r | reflexivity]. }
  unfold renderWords. rewrite (bind_ok read _ w w w eq_refl).
  destruct (wordGrid (dom w)) as [g |] eqn:Hg;
    [destruct (resultsCount (dom w)) as [c |] eqn:Hc |].
  - assert (Hdec : Forall (fun word => Spec.term_of word <> None) words).
    { apply Forall_forall. intros x Hx. apply term_ok_term_of.
      rewrite forallb_forall in Hwords. apply Hwords. exact Hx. }
    rewrite (bind_ok _ _ w w _ (filterWords_spec w words Hl Hdec)).
    set (shown := filter (Spec.visible (currentFilter (app w)) (currentSearch (app w))) words).
    erewrite bind_ok by reflexivity.
    destruct (Nat.eqb_spec (List.length shown) 0) as [Hz | Hnz].
    + unfold renderNoResults. erewrite bind_ok by reflexivity.
      cbn [dom with_dom set_resultsCount wordGrid]. rewrite Hg.
      eexists. split; [reflexivity |]. split.
      * apply Hquiet. repeat split.
      * intros _ _ _. cbn. rewrite Hz. split; reflexivity.
    + destruct (map_array_ok (createWordCard (categoriesData (app w))) shown) as [cards Hcards].
      { intros x Hx. apply createWordCard_ok; [exact Hcats |].
        apply filter_In in Hx. destruct Hx as [Hx _].
        rewrite forallb_forall in Hwords. apply Hwords. exact Hx. }
      unfold renderWordCards. erewrite bind_ok by reflexivity.
      erewrite bind_ok by (unfold lift; cbn [app with_dom]; rewrite Hcards; reflexivity).
      cbn [dom with_dom set_resultsCount wordGrid]. rewrite Hg.
      eexists. split; [reflexivity |]. split.
      * apply Hquiet. repeat split.
      * intros ->. simpl in Hnz. congruence.
  - exists w. split; [reflexivity |]. split; [apply settled_refl |].
    intros _ _ H. congruence.
  - exists w. split; [reflexivity |]. split; [apply settled_refl |].
    intros _ H. congruence.
Qed.

End LoadSucceeds.

(** ** A successful load *)

Lemma fetchWithTimeout_delivers (url : string) (w : world) (doc : value) :
  Spec.delivers (network w url) doc ->
  exists r, fetchWithTimeout url 10000 w = (Ok r, w) /\ resp_body r = Some doc.
Proof.
  intros [after_ms [status [Hx [Hafter Hstatus]]]].
  unfold fetchWithTimeout, bind, read, throw, ret. rewrite Hx.
  assert (Hlate : (10000 <=? after_ms)%N = false) by (apply N.leb_gt; exact Hafter).
  assert (Hok : status_ok status = true).
  { unfold status_ok. apply andb_true_iff. split; apply N.leb_le; lia. }
  rewrite Hlate, Hok. eexists. split; reflexivity.
Qed.

Lemma fetch_documents_delivers (w : world) (d1 d2 d3 : value) :
  Spec.delivers (network w "data/lexicon.json") d1 ->
  Spec.delivers (network w "data/categories.json") d2 ->
  Spec.delivers (network w "data/website.json") d3 ->
  fetch_documents w = (Ok (d1, d2, d3), w).
Proof.
  intros H1 H2 H3. unfold fetch_documents.
  destruct (fetchWithTimeout_delivers _ w d1 H1) as [r1 [F1 B1]].
  destruct (fetchWithTimeout_delivers _ w d2 H2) as [r2 [F2 B2]].
  destruct (fetchWithTimeout_delivers _ w d3 H3) as [r3 [F3 B3]].
  rewrite (bind_ok _ _ w w r1 F1), (bind_ok _ _ w w r2 F2), (bind_ok _ _ w w r3 F3).
  erewrite bind_ok by (rewrite json_outcome, B1; reflexivity).
  erewrite bind_ok by (rewrite json_outcome, B2; reflexivity).
  erewrite bind_ok by (rewrite json_outcome, B3; reflexivity).
  reflexivity.
Qed.

(** [lexiconJson.terms || []] on a document that is not [null]. *)
Lemma stored_terms (doc : value) :
  nullish doc = false ->
  Spec.optional_terms_ok (Spec.member doc "terms") = true ->
  exists words,
    (get doc "terms" ||| Ok (VArr [])) = Ok (VArr words)
    /\ forallb Spec.term_ok words = true
    /\ (Spec.member doc "terms" = VUndefined -> words = [])
    /\ (forall ws, Spec.member doc "terms" = VArr ws -> words = ws).
Proof.
  intros Hdoc Hok.
  assert (Hget : get doc "terms" = Ok (Spec.member doc "terms")).
  { destruct doc; try discriminate Hdoc; try reflexivity. apply get_object. }
  rewrite Hget. unfold or_else. cbn [rbind].
  destruct (Spec.member doc "terms") as [| | | | | ws |]; try discriminate Hok.
  - exists []. repeat split. intros ws H. discriminate H.
  - exists ws. repeat split; [exact Hok | intros H; discriminate H |].
    intros ws' H. injection H as <-. reflexivity.
Qed.

(** [categoriesJson.categories || {}] on a document that is not [null]. *)
Lemma stored_categories (doc : value) :
  nullish doc = false ->
  Spec.optional_categories_ok (Spec.member doc "categories") = true ->
  exists cats,
    (get doc "categories" ||| Ok (VObj [])) = Ok cats
    /\ Spec.categories_ok cats = true
    /\ (Spec.member doc "categories" = VUndefined -> cats = VObj [])
    /\ (Spec.member doc "categories" <> VUndefined -> cats = Spec.member doc "categories").
Proof.
  intros Hdoc Hok.
  assert (Hget : get doc "categories" = Ok (Spec.member doc "categories")).
  { destruct doc; try discriminate Hdoc; try reflexivity. apply get_object. }
  rewrite Hget. unfold or_else. cbn [rbind].
  destruct (Spec.member doc "categories") as [| | | | | | cprops]; try discriminate Hok.
  - exists (VObj []). repeat split. intros H. congruence.
  - exists (VObj cprops). repeat split; [exact Hok | intros H; discriminate H].
Qed.

Lemma quiet_events (events : list event) (e : event) :
  forallb quiet events = true -> quiet e = false -> ~ In e events.
Proof.
  intros Hall He Hin. rewrite forallb_forall in Hall.
  rewrite (Hall e Hin) in He. discriminate He.
Qed.

Lemma showLoading_run (w : world) :
  Spec.panels_present (dom w) ->
  exists w1 d classes,
    showLoading w = (Ok tt, w1)
    /\ mainContent (dom w) = Some (d, classes)
    /\ app w1 = app w
    /\ network w1 = network w
    /\ loading (dom w1) = Some "block"
    /\ error_box (dom w1) = Some "none"
    /\ mainContent (dom w1) = Some ("none", classes)
    /\ same_results w w1
    /\ trace w1 = (trace w ++ [ Display Loading "block"; Display ErrorBox "none";
                                Display MainContent "none" ])%list.
Proof.
  intros [Hl [He Hm]].
  destruct w as [g d tr net clk dl].
  destruct d as [ld eb mc si fb wg rc sc cm]. simpl in Hl, He, Hm.
  destruct ld as [ld |]; [| congruence].
  destruct eb as [eb |]; [| congruence].
  destruct mc as [[md classes] |]; [| congruence].
  eexists. exists md, classes. split; [reflexivity |].
  cbn. rewrite <- !app_assoc. repeat split.
Qed.

Section LoadFromDocuments.
Context {host : Host}.

(** From the stores on, a load whose documents are as the data model has
    them, or lack their top-level key, runs to the end. *)
Lemma store_and_show_runs (w : world) (lexiconJson categoriesJson websiteJson : value)
      (words : list value) (cats : value) (ld md : string) (classes : list string) :
  loading (dom w) = Some ld ->
  mainContent (dom w) = Some (md, classes) ->
  (get lexiconJson "terms" ||| Ok (VArr [])) = Ok (VArr words) ->
  forallb Spec.term_ok words = true ->
  (get categoriesJson "categories" ||| Ok (VObj [])) = Ok cats ->
  Spec.categories_ok cats = true ->
  exists w',
    store_and_show lexiconJson categoriesJson websiteJson w = (Ok tt, w')
    /\ lexiconData (app w') = VArr words
    /\ categoriesData (app w') = cats
    /\ loading (dom w') = Some "none"
    /\ error_box (dom w') = error_box (dom w)
    /\ mainContent (dom w') = Some ("block", classList_add "fade-in" classes)
    /\ (exists events,
          trace w' = (trace w ++ Display Loading "none" :: Display MainContent "block"
                                   :: events)%list
          /\ forallb quiet events = true)
    /\ (words = [] -> wordGrid (dom w) <> None -> resultsCount (dom w) <> None ->
        resultsCount (dom w') = Some "0 terms found"
        /\ wordGrid (dom w') = Some noResultsMarkup).
Proof.
  intros Hld Hmc Hterms Hwords Hcats Hcatsok.
  destruct w as [g d tr net clk dl].
  destruct d as [ld0 eb mc si fb wg rc sc cm]. simpl in Hld, Hmc. subst ld0 mc.
  unfold store_and_show.
  erewrite bind_ok by (unfold lift; rewrite Hterms; reflexivity).
  erewrite bind_ok by reflexivity.
  erewrite bind_ok by (unfold lift; rewrite Hcats; reflexivity).
  erewrite bind_ok by reflexivity.
  erewrite bind_ok by (unfold lift; rewrite or_else_ok; reflexivity).
  erewrite bind_ok by reflexivity.
  erewrite bind_ok by reflexivity.
  erewrite bind_ok by reflexivity.
  match goal with
  | |- context [bind initializeInterface _ ?W] =>
      destruct (initializeInterface_runs W words eq_refl Hwords Hcatsok)
        as [w4 [H4 [S4 R4]]];
      destruct (renderWords_runs w4 words) as [w5 [H5 [S5 Hzero]]]
  end.
  { destruct S4 as [Ha _]. rewrite Ha. reflexivity. }
  { exact Hwords. }
  { destruct S4 as [Ha _]. rewrite Ha. exact Hcatsok. }
  rewrite (bind_ok _ _ _ w4 tt H4). rewrite (bind_ok _ _ w4 w5 tt H5).
  pose proof (settled_trans _ _ _ S4 S5) as S.
  destruct S as [Ha [Hl [He [Hm [events [Ht Hq]]]]]].
  cbn in Ha, Hl, He, Hm, Ht.
  rewrite (bind_ok read _ w5 w5 w5 eq_refl).
  rewrite Ha. cbn [lexiconData categoriesData set_websiteInfo set_categoriesData
                   set_lexiconData].
  assert (Hnn : nullish cats = false)
    by (destruct cats; try discriminate Hcatsok; reflexivity).
  destruct (Object_entries_ok cats Hnn) as [entries Hentries].
  erewrite bind_ok by reflexivity.
  erewrite bind_ok by (unfold lift; rewrite Hentries; reflexivity).
  eexists. split; [reflexivity |].
  cbn [app dom trace emit log write snd]. rewrite Ha, Hl, He, Hm.
  split; [reflexivity |]. split; [reflexivity |]. split; [reflexivity |].
  split; [reflexivity |]. split; [reflexivity |]. split.
  - exists (events ++ [ConsoleLog "Data loaded successfully:"
                         [VObj [("terms", VNum (Z.of_nat (List.length words)));
                                ("categories", VNum (Z.of_nat (List.length entries)))]]])%list.
    split.
    + rewrite Ht. rewrite <- !app_assoc. reflexivity.
    + rewrite forallb_app, Hq. reflexivity.
  - destruct R4 as [Rg Rc]. cbn in Rg, Rc.
    intros Hw Hg Hc. simpl in Hg, Hc.
    apply (Hzero Hw); [rewrite Rg; exact Hg | rewrite Rc; exact Hc].
Qed.

End LoadFromDocuments.

Section LoadWithoutKey.
Context {host : Host}.

(** C10, as the script has it.  With the three panels on the page and the
    three documents arriving in time with a success status: if neither
    the lexicon document nor the categories document is [null], and each
    of them either lacks its top-level key or carries what the data model
    says under it, [loadData] settles normally with the loading and error
    panels hidden and the main content shown, and no error is reported on
    the way.  A lexicon document without [terms] leaves an empty term
    collection and, on a page with grid and label, the label
    [0 terms found] over the no-results block; a categories document
    without [categories] leaves an empty mapping. *)
Theorem loadData_without_top_level_key
        (w : world) (lexiconDoc categoriesDoc websiteDoc : value) :
  Spec.panels_present (dom w) ->
  Spec.delivers (network w "data/lexicon.json") lexiconDoc ->
  Spec.delivers (network w "data/categories.json") categoriesDoc ->
  Spec.delivers (network w "data/website.json") websiteDoc ->
  nullish lexiconDoc = false ->
  nullish categoriesDoc = false ->
  Spec.optional_terms_ok (Spec.member lexiconDoc "terms") = true ->
  Spec.optional_categories_ok (Spec.member categoriesDoc "categories") = true ->
  let w' := snd (loadData w) in
  fst (loadData w) = Ok tt
  /\ loading (dom w') = Some "none"
  /\ error_box (dom w') = Some "none"
  /\ (exists classes, mainContent (dom w') = Some ("block", classes) /\ In "fade-in" classes)
  /\ (exists events,
        trace w' = (trace w ++ events)%list
        /\ In (Display MainContent "block") events
        /\ ~ In (Display ErrorBox "block") events
        /\ ~ In (ConsoleError "Error loading data:") events)
  /\ (Spec.member lexiconDoc "terms" = VUndefined ->
      lexiconData (app w') = VArr []
      /\ (wordGrid (dom w) <> None -> resultsCount (dom w) <> None ->
          resultsCount (dom w') = Some "0 terms found"
          /\ wordGrid (dom w') = Some noResultsMarkup))
  /\ (Spec.member categoriesDoc "categories" = VUndefined ->
      categoriesData (app w') = VObj [])
  /\ (forall words, Spec.member lexiconDoc "terms" = VArr words ->
                    lexiconData (app w') = VArr words)
  /\ (Spec.member categoriesDoc "categories" <> VUndefined ->
      categoriesData (app w') = Spec.member categoriesDoc "categories").
Proof.
  intros Hpanels Hlex Hcat Hweb Hlnn Hcnn Hterms Hcats.
  destruct (showLoading_run w Hpanels)
    as [w1 [md [classes [Hshow [Hmain [Happ [Hnet [Hld [Heb [Hmc [[Rg Rc] Htr]]]]]]]]]]].
  destruct (stored_terms lexiconDoc Hlnn Hterms) as [words [Hst [Hwords [Hnone Hsome]]]].
  destruct (stored_categories categoriesDoc Hcnn Hcats) as [cats [Hsc [Hcok [Hcnone Hcsome]]]].
  destruct (store_and_show_runs w1 lexiconDoc categoriesDoc websiteDoc words cats
              "block" "none" classes Hld Hmc Hst Hwords Hsc Hcok)
    as [w2 [Hrun [Hlexicon [Hcategories [Hl2 [He2 [Hm2 [[events [Ht2 Hq]] Hzero]]]]]]]].
  assert (Hload : loadData w = (Ok tt, w2)).
  { unfold loadData, try_catch.
    rewrite (bind_ok _ _ w w1 tt Hshow).
    rewrite (bind_ok _ _ w1 w1 (lexiconDoc, categoriesDoc, websiteDoc)).
    - rewrite Hrun. reflexivity.
    - apply fetch_documents_delivers; rewrite Hnet; assumption. }
  cbv zeta. rewrite Hload. cbn [fst snd].
  split; [reflexivity |]. split; [exact Hl2 |]. split; [rewrite He2; exact Heb |].
  split.
  { eexists. split; [exact Hm2 |]. unfold classList_add.
    destruct (existsb (String.eqb "fade-in") classes) eqn:Hin.
    - apply existsb_exists in Hin. destruct Hin as [x [Hx Heq]].
      apply String.eqb_eq in Heq. subst x. exact Hx.
    - apply in_or_app. right. left. reflexivity. }
  split.
  { exists ([ Display Loading "block"; Display ErrorBox "none"; Display MainContent "none";
              Display Loading "none"; Display MainContent "block" ] ++ events)%list.
    split; [| split; [| split]].
    - rewrite Ht2, Htr. rewrite <- !app_assoc. reflexivity.
    - simpl. auto 10.
    - intros Hin. apply in_app_or in Hin. destruct Hin as [Hin | Hin].
      + simpl in Hin. repeat (destruct Hin as [Hin | Hin]; [discriminate Hin |]). exact Hin.
      + exact (quiet_events events (Display ErrorBox "block") Hq eq_refl Hin).
    - intros Hin. apply in_app_or in Hin. destruct Hin as [Hin | Hin].
      + simpl in Hin. repeat (destruct Hin as [Hin | Hin]; [discriminate Hin |]). exact Hin.
      + exact (quiet_events events (ConsoleError "Error loading data:") Hq eq_refl Hin). }
  split.
  { intros Hmissing. pose proof (Hnone Hmissing) as Hw. split.
    - rewrite Hlexicon, Hw. reflexivity.
    - intros Hg Hc. apply (Hzero Hw); [rewrite Rg; exact Hg | rewrite Rc; exact Hc]. }
  split.
  { intros Hmissing. rewrite Hcategories. apply Hcnone. exact Hmissing. }
  split.
  { intros ws Hws. rewrite Hlexicon. f_equal. apply Hsome. exact Hws. }
  intros Hpresent. rewrite Hcategories. apply Hcsome. exact Hpresent.
Qed.

End LoadWithoutKey.

(** * Concrete runs *)

(** The end-to-end scenario of the specification. *)
Example scenario_storage :
  fst (filterWords (session "storage" EmptyString)) = Ok [cacheTerm].
Proof. reflexivity. Qed.

Example scenario_sched :
  fst (filterWords (session "all" "sched")) = Ok [schedulerTerm].
Proof. reflexivity. Qed.

Example scenario_cleared :
  fst (filterWords (session "all" EmptyString)) = Ok [cacheTerm; schedulerTerm].
Proof. reflexivity. Qed.

(** Searching [API] finds [api gateway]; a Khmer substring is matched as
    it stands. *)
Example search_folds_english :
  searchMatches gatewayTerm "API" = Ok (VBool true).
Proof. reflexivity. Qed.

Example search_khmer_exact :
  searchMatches cacheTerm "ឃាស" = Ok (VBool true)
  /\ exists r, searchMatches cacheTerm "សឈ" = Ok r /\ truthy r = false.
Proof.
  split; [reflexivity |]. eexists. split; reflexivity.
Qed.

Lemma sampleTerms_typed : Forall (fun word => Spec.term_of word <> None) sampleTerms.
Proof.
  repeat constructor; discriminate.
Qed.

Lemma filterWords_exact_subset_witness :
  lexiconData (app (session "storage" EmptyString)) = VArr sampleTerms
  /\ filterWords (session "storage" EmptyString)
     = (Ok [cacheTerm], session "storage" EmptyString)
  /\ Spec.subsequence [cacheTerm] sampleTerms.
Proof.
  destruct (filterWords_exact_subset (session "storage" EmptyString) sampleTerms
              eq_refl sampleTerms_typed) as [Hrun [Hsub _]].
  split; [reflexivity | split; [exact Hrun | exact Hsub]].
Defined.

Lemma searchMatches_five_checks_witness :
  Spec.term_of gatewayTerm = Some gatewayView
  /\ (exists r, matchesSearch "HTTP" gatewayTerm = Ok r /\ truthy r = true)
  /\ matchesSearch EmptyString gatewayTerm = Ok (VBool true).
Proof.
  assert (Hs : "HTTP" <> EmptyString) by discriminate.
  destruct (searchMatches_five_checks gatewayTerm gatewayView "HTTP" eq_refl Hs)
    as [[r [Hr Hiff]] [Hempty _]].
  split; [reflexivity | split; [| exact Hempty]].
  exists r. split; [exact Hr |]. apply Hiff.
  right. right. right. left.
  exists ["Networking"; "HTTP"], "HTTP". split; [reflexivity |].
  split; [right; left; reflexivity | reflexivity].
Defined.

Lemma matchesCategory_exact_witness :
  currentFilter (app (session "compute" EmptyString)) <> "all"
  /\ exists shown,
       filterWords (session "compute" EmptyString) = (Ok shown, session "compute" EmptyString)
       /\ forall word, In word shown ->
                       exists t, Spec.term_of word = Some t
                                 /\ Spec.categoryKey t = Some "compute".
Proof.
  assert (Hsel : currentFilter (app (session "compute" EmptyString)) <> "all")
    by discriminate.
  destruct (matchesCategory_exact (session "compute" EmptyString) sampleTerms
              eq_refl sampleTerms_typed) as [_ [_ Hshown]].
  split; [exact Hsel | exact (Hshown Hsel)].
Defined.

(** C4 as stated fails: English and Khmer names are strings, the
    description is a number, and the search throws. *)
Lemma filterWords_raises_on_malformed_description :
  get malformedTerm "english" = Ok (VStr "Cache")
  /\ get malformedTerm "khmer" = Ok (VStr "឴ឃាស")
  /\ fst (filterWords (sampleWorld (sampleGlobals [malformedTerm] "all" "x") offline))
     = Throw TypeError.
Proof.
  repeat split.
Qed.

Lemma filterWords_returns_on_typed_terms_witness :
  lexiconData (app (session "all" "sched")) = VArr sampleTerms
  /\ exists shown, filterWords (session "all" "sched") = (Ok shown, session "all" "sched").
Proof.
  destruct (filterWords_returns_on_typed_terms (session "all" "sched") sampleTerms
              eq_refl sampleTerms_typed) as [Hrun _].
  split; [reflexivity | exact Hrun].
Defined.

Lemma filterWords_pure_witness :
  snd (filterWords (session "all" "sched")) = session "all" "sched"
  /\ fst (filterWords (snd (filterWords (session "all" "sched"))))
     = fst (filterWords (session "all" "sched")).
Proof.
  destruct (filterWords_pure (session "all" "sched") (session "all" "sched")
              eq_refl eq_refl eq_refl) as [Hframe [_ Hagain]].
  split; [exact Hframe | exact Hagain].
Defined.

Lemma renderWords_count_and_branch_witness :
  fst (filterWords (session "all" "zzz")) = Ok []
  /\ resultsCount (dom (snd (renderWords (session "all" "zzz")))) = Some "0 terms found"
  /\ wordGrid (dom (snd (renderWords (session "all" "zzz")))) = Some noResultsMarkup.
Proof.
  assert (Hnone : fst (filterWords (session "all" "zzz")) = Ok []) by reflexivity.
  destruct (renderWords_count_and_branch (session "all" "zzz") [] EmptyString EmptyString
              eq_refl eq_refl Hnone) as [Hlabel [Hzero _]].
  split; [exact Hnone | split; [exact Hlabel |]].
  rewrite (Hzero eq_refl). reflexivity.
Defined.

Lemma offline_fails :
  exists url, In url urls /\ Spec.resource_fails (network (session "all" EmptyString) url) = true.
Proof.
  exists "data/lexicon.json". split; [left; reflexivity | reflexivity].
Qed.

Lemma session_panels (filter search : string) : Spec.panels_present (dom (session filter search)).
Proof.
  repeat split; discriminate.
Qed.

Lemma loadData_all_or_nothing_witness :
  fst (loadData (session "all" EmptyString)) = Ok tt
  /\ app (snd (loadData (session "all" EmptyString))) = app (session "all" EmptyString)
  /\ error_box (dom (snd (loadData (session "all" EmptyString)))) = Some "block".
Proof.
  destruct (loadData_all_or_nothing (session "all" EmptyString)
              (session_panels "all" EmptyString) offline_fails)
    as [Hr [Ha [_ [He _]]]].
  split; [exact Hr | split; [exact Ha | exact He]].
Defined.

Lemma exportJSON_structure_and_frame_witness :
  lexiconData (app (session "all" EmptyString)) = VArr sampleTerms
  /\ fst (exportJSON (session "all" EmptyString)) = Ok tt
  /\ app (snd (exportJSON (session "all" EmptyString))) = app (session "all" EmptyString).
Proof.
  destruct (exportJSON_structure_and_frame (session "all" EmptyString) sampleTerms eq_refl)
    as [Hr [Ha _]].
  split; [reflexivity | split; [exact Hr | exact Ha]].
Defined.

Lemma serves_delivers (lexiconDoc categoriesDoc websiteDoc : value) :
  Spec.delivers (serves lexiconDoc categoriesDoc websiteDoc "data/lexicon.json") lexiconDoc
  /\ Spec.delivers (serves lexiconDoc categoriesDoc websiteDoc "data/categories.json")
       categoriesDoc
  /\ Spec.delivers (serves lexiconDoc categoriesDoc websiteDoc "data/website.json") websiteDoc.
Proof.
  repeat split; eexists; eexists; (split; [reflexivity | split; lia]).
Qed.

(** C10 as stated fails: the lexicon document [null] is valid JSON
    without a [terms] key, and the load ends on the error panel with the
    main content hidden. *)
Lemma loadData_fails_on_null_document :
  let w := online VNull (VObj [("categories", storageCategories)]) (VObj []) in
  Spec.delivers (network w "data/lexicon.json") VNull
  /\ Spec.member VNull "terms" = VUndefined
  /\ error_box (dom (snd (loadData w))) = Some "block"
  /\ mainContent (dom (snd (loadData w))) = Some ("none", [])
  /\ In (ConsoleError "Error loading data:") (trace (snd (loadData w))).
Proof.
  cbv zeta. split; [apply serves_delivers |].
  split; [reflexivity |]. split; [reflexivity |]. split; [reflexivity |].
  vm_compute. auto 10.
Qed.

Lemma loadData_without_top_level_key_witness :
  let w := online (VObj []) (VObj [("categories", storageCategories)]) (VObj []) in
  Spec.member (VObj []) "terms" = VUndefined
  /\ fst (loadData w) = Ok tt
  /\ lexiconData (app (snd (loadData w))) = VArr []
  /\ resultsCount (dom (snd (loadData w))) = Some "0 terms found".
Proof.
  cbv zeta.
  set (w := online (VObj []) (VObj [("categories", storageCategories)]) (VObj [])).
  destruct (serves_delivers (VObj []) (VObj [("categories", storageCategories)]) (VObj []))
    as [D1 [D2 D3]].
  assert (Hpanels : Spec.panels_present (dom w)) by (repeat split; discriminate).
  destruct (loadData_without_top_level_key w
              (VObj []) (VObj [("categories", storageCategories)]) (VObj [])
              Hpanels D1 D2 D3 eq_refl eq_refl eq_refl eq_refl)
    as [Hr [_ [_ [_ [_ [Hmissing _]]]]]].
  destruct (Hmissing eq_refl) as [Hempty Hzero].
  assert (Hg : wordGrid (dom w) <> None) by discriminate.
  assert (Hc : resultsCount (dom w) <> None) by discriminate.
  destruct (Hzero Hg Hc) as [Hcount _].
  split; [reflexivity | split; [exact Hr | split; [exact Hempty | exact Hcount]]].
Defined.

(** * More facts *)

(** ** Escaping *)

Lemma escape_char_cases (c : ascii) :
  (markup_char c = false /\ escape_char c = String c EmptyString)
  \/ (c = "&"%char /\ escape_char c = "&amp;")
  \/ (c = "<"%char /\ escape_char c = "&lt;")
  \/ (c = ">"%char /\ escape_char c = "&gt;")
  \/ (c = ascii_of_nat 34 /\ escape_char c = "&quot;")
  \/ (c = "'"%char /\ escape_char c = "&#039;").
Proof.
  unfold escape_char, markup_char.
  destruct (Ascii.eqb_spec c "&") as [-> | H1]; [right; left; split; reflexivity |].
  destruct (Ascii.eqb_spec c "<") as [-> | H2]; [right; right; left; split; reflexivity |].
  destruct (Ascii.eqb_spec c ">") as [-> | H3];
    [right; right; right; left; split; reflexivity |].
  destruct (Ascii.eqb_spec c (ascii_of_nat 34)) as [-> | H4];
    [right; right; right; right; left; split; reflexivity |].
  destruct (Ascii.eqb_spec c "'") as [-> | H5];
    [right; right; right; right; right; split; reflexivity |].
  left. split; reflexivity.
Qed.

Lemma markup_char_amp (c : ascii) : markup_char c = false -> c <> "&"%char.
Proof.
  intros H ->. discriminate H.
Qed.

(** X1.  [escapeHtml] loses nothing: two strings with the same escaped
    text are the same string. *)
Theorem escape_string_injective (s1 s2 : string) :
  escape_string s1 = escape_string s2 -> s1 = s2.
Proof.
  revert s2. induction s1 as [| c1 r1 IH]; intros s2 H.
  - destruct s2 as [| c2 r2]; [reflexivity |]. cbn [escape_string] in H.
    destruct (escape_char_cases c2) as [[_ E] | [[_ E] | [[_ E] | [[_ E] | [[_ E] | [_ E]]]]]];
      rewrite E in H; discriminate H.
  - destruct s2 as [| c2 r2]; cbn [escape_string] in H.
    + destruct (escape_char_cases c1) as [[_ E] | [[_ E] | [[_ E] | [[_ E] | [[_ E] | [_ E]]]]]];
        rewrite E in H; discriminate H.
    + destruct (escape_char_cases c1)
        as [[N1 E1] | [[P1 E1] | [[P1 E1] | [[P1 E1] | [[P1 E1] | [P1 E1]]]]]];
        destruct (escape_char_cases c2)
          as [[N2 E2] | [[P2 E2] | [[P2 E2] | [[P2 E2] | [[P2 E2] | [P2 E2]]]]]];
        rewrite E1, E2 in H; simpl in H;
        try (apply markup_char_amp in N1);
        try (apply markup_char_amp in N2);
        try discriminate H;
        try (injection H; intros; subst; try congruence; f_equal; apply IH; assumption).
Qed.

Lemma length_app (a b : string) :
  String.length (a ++ b) = String.length a + String.length b.
Proof.
  induction a as [| c a IH]; simpl; [reflexivity | rewrite IH; reflexivity].
Qed.

Lemma escape_string_length (s : string) :
  String.length s <= String.length (escape_string s).
Proof.
  induction s as [| c r IH]; simpl; [lia |].
  rewrite length_app.
  destruct (escape_char_cases c) as [[_ E] | [[_ E] | [[_ E] | [[_ E] | [[_ E] | [_ E]]]]]];
    rewrite E; simpl; lia.
Qed.

(** X2.  [escapeHtml] hands a string back unchanged exactly when it holds
    none of the five characters; any other string comes back longer. *)
Theorem escape_string_fixed (s : string) :
  (escape_string s = s <-> all_chars (fun c => negb (markup_char c)) s = true)
  /\ (all_chars (fun c => negb (markup_char c)) s = false ->
      String.length s < String.length (escape_string s)).
Proof.
  induction s as [| c r [IH IHlen]]; simpl.
  - split; [split; reflexivity | discriminate].
  - pose proof (escape_string_length r) as Hlen.
    destruct (escape_char_cases c) as [[N E] | Hm].
    + rewrite E, N. simpl. split.
      * rewrite <- IH. split; intros H; [injection H as H; exact H | rewrite H; reflexivity].
      * intros H. apply IHlen in H. lia.
    + assert (Hc : markup_char c = true /\ 4 <= String.length (escape_char c)).
      { destruct Hm as [[-> E] | [[-> E] | [[-> E] | [[-> E] | [-> E]]]]];
          rewrite E; split; try reflexivity; simpl; lia. }
      destruct Hc as [Hc Hk]. rewrite Hc. simpl. split.
      * split; [| discriminate].
        intros H. apply (f_equal String.length) in H.
        rewrite length_app in H. simpl in H. lia.
      * intros _. rewrite length_app. lia.
Qed.

Lemma count_char_app (c : ascii) (a b : string) :
  count_char c (a ++ b) = count_char c a + count_char c b.
Proof.
  induction a as [| x a IH]; simpl; [reflexivity | rewrite IH; lia].
Qed.

(** The characters of an escaped string, counted. *)
Lemma escape_string_counts (s : string) :
  count_char "<" (escape_string s) = 0
  /\ count_char ">" (escape_string s) = 0
  /\ count_char (ascii_of_nat 34) (escape_string s) = 0
  /\ count_char "'" (escape_string s) = 0
  /\ count_char "&" (escape_string s) = count_if markup_char s.
Proof.
  induction s as [| c r [H1 [H2 [H3 [H4 H5]]]]]; simpl.
  - repeat split.
  - rewrite !count_char_app, H1, H2, H3, H4, H5.
    destruct (escape_char_cases c) as [[N E] | [[-> E] | [[-> E] | [[-> E] | [[-> E] | [-> E]]]]]];
      rewrite E; try rewrite N; [| repeat split ..].
    unfold markup_char in N. rewrite !orb_false_iff in N.
    destruct N as [[[[Na Nl] Ng] Nq] Np].
    simpl. rewrite Na, Nl, Ng, Nq, Np. repeat split.
Qed.

(** X3.  In the text [escapeHtml] returns for a string there is no [<],
    [>], double quote or apostrophe, and there are exactly as many [&] as
    the string had of the five characters: one per entity. *)
Theorem escape_string_output (s : string) :
  count_char "<" (escape_string s) = 0
  /\ count_char ">" (escape_string s) = 0
  /\ count_char (ascii_of_nat 34) (escape_string s) = 0
  /\ count_char "'" (escape_string s) = 0
  /\ count_char "&" (escape_string s) = count_if markup_char s.
Proof.
  induction s as [| c r [H1 [H2 [H3 [H4 H5]]]]]; simpl.
  - repeat split.
  - rewrite !count_char_app, H1, H2, H3, H4, H5.
    destruct (escape_char_cases c) as [[N E] | [[-> E] | [[-> E] | [[-> E] | [[-> E] | [-> E]]]]]];
      rewrite E; try rewrite N; [| repeat split ..].
    unfold markup_char in N. rewrite !orb_false_iff in N.
    destruct N as [[[[Na Nl] Ng] Nq] Np].
    simpl. rewrite Na, Nl, Ng, Nq, Np. repeat split.
Qed.

(** ** Tags and references in a card *)

Lemma count_char_join (c : ascii) (parts : list string) :
  count_char c (join EmptyString parts) = list_sum (List.map (count_char c) parts).
Proof.
  induction parts as [| p rest IH]; [reflexivity |].
  destruct rest as [| q rest].
  - simpl. lia.
  - change (join EmptyString (p :: q :: rest))
      with (p ++ EmptyString ++ join EmptyString (q :: rest)).
    rewrite !count_char_app, IH. simpl. lia.
Qed.

Lemma list_sum_constant {A : Type} (f : A -> nat) (k : nat) (l : list A) :
  (forall x, f x = k) -> list_sum (List.map f l) = k * List.length l.
Proof.
  intros Hk. induction l as [| x l IH]; [simpl; lia |].
  change (list_sum (List.map f (x :: l))) with (f x + list_sum (List.map f l)).
  rewrite Hk, IH. simpl. lia.
Qed.

Lemma tag_spans_exact (xs : list value) (ss : list string) :
  Spec.strings xs = Some ss ->
  map_array (fun tag => let? s := to_string (escapeHtml tag) in
                        Ok (tpl "<span class=`tag`>" ++ s ++ "</span>")) xs
  = Ok (List.map (fun s => tpl "<span class=`tag`>" ++ escape_string s ++ "</span>") ss)
  /\ List.length ss = List.length xs.
Proof.
  revert ss. induction xs as [| x rest IH]; intros ss H; simpl in H.
  - injection H as <-. split; reflexivity.
  - destruct x as [| | | | s | |]; try discriminate H.
    destruct (Spec.strings rest) as [ss' |]; try discriminate H.
    injection H as <-. destruct (IH ss' eq_refl) as [Hrun Hlen].
    cbn [map_array escapeHtml to_string rbind]. rewrite Hrun. simpl.
    split; [reflexivity | rewrite Hlen; reflexivity].
Qed.

(** X4.  For a non-empty array of strings [renderTags] returns the tags
    block with one [span] per tag and nothing more: whatever the tags
    say, the markup has two [<] and two [>] per tag plus those of the
    enclosing [div], and two double quotes per tag plus the two of the
    [div]. *)
Theorem renderTags_one_span_per_tag (xs : list value) (ss : list string) :
  Spec.strings xs = Some ss ->
  xs <> [] ->
  exists out,
    renderTags (VArr xs) = Ok out
    /\ count_char "<" out = 2 * List.length xs + 2
    /\ count_char ">" out = 2 * List.length xs + 2
    /\ count_char (ascii_of_nat 34) out = 2 * List.length xs + 2.
Proof.
  intros Hss Hne. destruct (tag_spans_exact xs ss Hss) as [Hrun Hlen].
  destruct xs as [| x rest]; [congruence |].
  unfold renderTags. rewrite Hrun. cbn [rbind].
  eexists. split; [reflexivity |].
  rewrite !count_char_app, !count_char_join, !map_map. rewrite <- Hlen.
  rewrite (list_sum_constant _ 2 ss), (list_sum_constant _ 2 ss), (list_sum_constant _ 2 ss).
  - repeat split; simpl; lia.
  - intros s. rewrite !count_char_app.
    destruct (escape_string_counts s) as [_ [_ [-> _]]]. reflexivity.
  - intros s. rewrite !count_char_app.
    destruct (escape_string_counts s) as [_ [-> _]]. reflexivity.
  - intros s. rewrite !count_char_app.
    destruct (escape_string_counts s) as [-> _]. reflexivity.
Qed.

(** X5.  For a reference that is a string other than the empty one and
    [#], [renderReference] returns the link with the escaped reference as
    its [href]; whatever the reference says, the markup has the eight
    double quotes of its four attributes and the four [<] and [>] of its
    two elements, so the reference cannot end the attribute or add an
    element. *)
Theorem renderReference_keeps_href_closed (s : string) :
  s <> EmptyString ->
  s <> "#" ->
  exists out pre post,
    renderReference (VStr s) = Ok out
    /\ out = pre ++ escape_string s ++ post
    /\ count_char (ascii_of_nat 34) out = 8
    /\ count_char "<" out = 4
    /\ count_char ">" out = 4.
Proof.
  intros Hne Hhash. unfold renderReference.
  cbn [truthy strict_eq_string].
  rewrite (eqb_empty_false s Hne).
  apply String.eqb_neq in Hhash. rewrite Hhash.
  cbn [negb orb escapeHtml to_string rbind].
  eexists. eexists. eexists. split; [reflexivity |]. split; [reflexivity |].
  rewrite !count_char_app.
  destruct (escape_string_counts s) as [-> [-> [-> _]]].
  repeat split.
Qed.

(** ** Algebra of the query *)

Lemma string_app_assoc (a b c : string) : (a ++ b) ++ c = a ++ b ++ c.
Proof.
  induction a as [| x a IH]; simpl; [reflexivity | rewrite IH; reflexivity].
Qed.

Lemma includes_trans (hay mid needle : string) :
  includes hay mid = true -> includes mid needle = true -> includes hay needle = true.
Proof.
  rewrite !includes_spec. intros [p [q ->]] [p' [q' ->]].
  exists (p ++ p'), (q' ++ q). rewrite !string_app_assoc. reflexivity.
Qed.

Lemma includes_nonempty (hay needle : string) :
  includes hay needle = true -> needle <> EmptyString -> hay <> EmptyString.
Proof.
  intros H Hn ->. rewrite (includes_empty_hay needle Hn) in H. discriminate H.
Qed.

Lemma filter_twice {A : Type} (p q : A -> bool) (l : list A) :
  filter p (filter q l) = filter (fun x => q x && p x) l.
Proof.
  induction l as [| x l IH]; simpl; [reflexivity |].
  destruct (q x); simpl; [destruct (p x); rewrite IH; reflexivity | exact IH].
Qed.

Lemma filter_agree {A : Type} (p q : A -> bool) (l : list A) :
  (forall x, In x l -> p x = q x) -> filter p l = filter q l.
Proof.
  induction l as [| x l IH]; intros H; simpl; [reflexivity |].
  rewrite (H x (or_introl eq_refl)), IH; [reflexivity |].
  intros y Hy. apply H. right. exact Hy.
Qed.

Lemma filter_narrower {A : Type} (p q : A -> bool) (l : list A) :
  (forall x, In x l -> p x = true -> q x = true) ->
  Spec.subsequence (filter p l) (filter q l).
Proof.
  induction l as [| x l IH]; intros H; simpl; [constructor |].
  assert (IH' : Spec.subsequence (filter p l) (filter q l)).
  { apply IH. intros y Hy. apply H. right. exact Hy. }
  destruct (p x) eqn:Hp.
  - rewrite (H x (or_introl eq_refl) Hp). apply Spec.subsequence_keep. exact IH'.
  - destruct (q x); [apply Spec.subsequence_skip; exact IH' | exact IH'].
Qed.

Lemma typed_filter (p : value -> bool) (words : list value) :
  Forall (fun word => Spec.term_of word <> None) words ->
  Forall (fun word => Spec.term_of word <> None) (filter p words).
Proof.
  intros H. apply Forall_forall. intros x Hx. apply filter_In in Hx.
  rewrite Forall_forall in H. apply H. tauto.
Qed.

Section QueryAlgebra.
Context {host : Host}.

Lemma visible_splits (f s : string) (word : value) :
  Spec.visible f s word = Spec.visible "all" s word && Spec.visible f EmptyString word.
Proof.
  unfold Spec.visible. destruct (Spec.term_of word) as [t |]; [| reflexivity].
  unfold Spec.categoryMatches at 2. unfold Spec.textMatches at 3. simpl.
  rewrite andb_true_r. apply andb_comm.
Qed.

(** X6.  On terms of the data model the two filters narrow independently
    and compose: filtering by category what the search alone returns, or
    searching in what the category alone returns, gives what
    [filterWords] returns for both at once; and [filterWords] run on its
    own result returns that result. *)
Theorem filterWords_composes (w : world) (words : list value) (f s : string) :
  lexiconData (app w) = VArr words ->
  Forall (fun word => Spec.term_of word <> None) words ->
  exists by_search by_category both,
    fst (filterWords (with_query "all" s w)) = Ok by_search
    /\ fst (filterWords (with_query f EmptyString w)) = Ok by_category
    /\ fst (filterWords (with_query f s w)) = Ok both
    /\ fst (filterWords (with_query f EmptyString (with_terms by_search w))) = Ok both
    /\ fst (filterWords (with_query "all" s (with_terms by_category w))) = Ok both
    /\ fst (filterWords (with_query f s (with_terms both w))) = Ok both.
Proof.
  intros Hl Hw.
  exists (filter (Spec.visible "all" s) words),
         (filter (Spec.visible f EmptyString) words),
         (filter (Spec.visible f s) words).
  assert (Hrun : forall f' s' terms,
            Forall (fun word => Spec.term_of word <> None) terms ->
            fst (filterWords (with_query f' s' (with_terms terms w)))
            = Ok (filter (Spec.visible f' s') terms)).
  { intros f' s' terms Ht.
    rewrite (filterWords_spec (with_query f' s' (with_terms terms w)) terms eq_refl Ht).
    reflexivity. }
  assert (Hdirect : forall f' s',
            fst (filterWords (with_query f' s' w)) = Ok (filter (Spec.visible f' s') words)).
  { intros f' s'.
    rewrite (filterWords_spec (with_query f' s' w) words Hl Hw). reflexivity. }
  rewrite !Hdirect.
  rewrite !Hrun by (apply typed_filter; exact Hw).
  rewrite !filter_twice.
  repeat split; f_equal; apply filter_agree; intros x _.
  - symmetry. apply visible_splits.
  - rewrite andb_comm. symmetry. apply visible_splits.
  - destruct (Spec.visible f s x); reflexivity.
Qed.

Lemma textMatches_narrows (t : Spec.Term) (s1 s2 : string) :
  includes s2 s1 = true ->
  includes (toLowerCase s2) (toLowerCase s1) = true ->
  Spec.textMatches t s2 = true -> Spec.textMatches t s1 = true.
Proof.
  intros Hcs Hci. unfold Spec.textMatches.
  destruct (String.eqb_spec s1 EmptyString) as [-> | H1]; [reflexivity |].
  rewrite (eqb_empty_false s2 (includes_nonempty _ _ Hcs H1)).
  assert (Ci : forall hay, Spec.ci_substring s2 hay = true -> Spec.ci_substring s1 hay = true).
  { intros hay H. unfold Spec.ci_substring in *. exact (includes_trans _ _ _ H Hci). }
  assert (Cs : forall hay, Spec.cs_substring s2 hay = true -> Spec.cs_substring s1 hay = true).
  { intros hay H. unfold Spec.cs_substring in *. exact (includes_trans _ _ _ H Hcs). }
  assert (Opt : forall (p q : string -> bool) o,
            (forall x, p x = true -> q x = true) ->
            Spec.on_option p o = true -> Spec.on_option q o = true).
  { intros p q [x |] Hpq; simpl; [apply Hpq | discriminate]. }
  unfold Spec.check_english, Spec.check_khmer, Spec.check_description,
    Spec.check_tags, Spec.check_examples.
  rewrite !orb_true_iff. intros [[[[H | H] | H] | H] | H].
  - left. left. left. left. apply Ci. exact H.
  - left. left. left. right. apply Cs. exact H.
  - left. left. right. revert H. apply Opt. exact Ci.
  - left. right. destruct (Spec.tags t) as [ts |]; [| discriminate H]. simpl in *.
    apply existsb_exists in H. destruct H as [tag [Hin H]].
    apply existsb_exists. exists tag. split; [exact Hin | apply Ci; exact H].
  - right. destruct (Spec.examples t) as [ex |]; [| discriminate H]. simpl in *.
    apply orb_true_iff in H. apply orb_true_iff. destruct H as [H | H].
    + left. revert H. apply Opt. exact Ci.
    + right. revert H. apply Opt. exact Cs.
Qed.

(** X7.  Typing more never shows more: when the search text [s1] occurs
    in the longer text [s2], as it stands and after case folding, what
    [filterWords] returns for [s2] is a subsequence of what it returns for
    [s1] under the same selection (terms of the data model). *)
Theorem filterWords_longer_search_narrows (w : world) (words : list value) (f s1 s2 : string) :
  lexiconData (app w) = VArr words ->
  Forall (fun word => Spec.term_of word <> None) words ->
  includes s2 s1 = true ->
  includes (toLowerCase s2) (toLowerCase s1) = true ->
  exists shown1 shown2,
    fst (filterWords (with_query f s1 w)) = Ok shown1
    /\ fst (filterWords (with_query f s2 w)) = Ok shown2
    /\ Spec.subsequence shown2 shown1.
Proof.
  intros Hl Hw Hcs Hci.
  exists (filter (Spec.visible f s1) words), (filter (Spec.visible f s2) words).
  rewrite (filterWords_spec (with_query f s1 w) words Hl Hw).
  rewrite (filterWords_spec (with_query f s2 w) words Hl Hw).
  split; [reflexivity | split; [reflexivity |]].
  apply filter_narrower. intros x _. unfold Spec.visible.
  destruct (Spec.term_of x) as [t |]; [| discriminate].
  rewrite !andb_true_iff. intros [Hc Ht]. split; [exact Hc |].
  exact (textMatches_narrows t s1 s2 Hcs Hci Ht).
Qed.

End QueryAlgebra.

(** With ASCII folding the folded occurrence follows from the plain one. *)
Lemma ascii_folding_keeps_includes (s1 s2 : string) :
  includes s2 s1 = true ->
  includes (ascii_toLowerCase s2) (ascii_toLowerCase s1) = true.
Proof.
  rewrite !includes_spec. intros [p [q ->]].
  exists (ascii_toLowerCase p), (ascii_toLowerCase q).
  rewrite !ascii_toLowerCase_app. reflexivity.
Qed.

(** ** Concrete runs *)

Lemma renderTags_one_span_per_tag_witness :
  exists out,
    renderTags (VArr [VStr "<b>"; VStr "cloud"]) = Ok out
    /\ count_char "<" out = 6.
Proof.
  assert (Hne : [VStr "<b>"; VStr "cloud"] <> []) by discriminate.
  destruct (renderTags_one_span_per_tag [VStr "<b>"; VStr "cloud"] ["<b>"; "cloud"]
              eq_refl Hne) as [out [Hrun [Hlt _]]].
  exists out. split; [exact Hrun | exact Hlt].
Defined.

Lemma renderReference_keeps_href_closed_witness :
  exists out,
    renderReference (VStr "https://example.org/?q='x'") = Ok out
    /\ count_char (ascii_of_nat 34) out = 8.
Proof.
  assert (H1 : "https://example.org/?q='x'" <> EmptyString) by discriminate.
  assert (H2 : "https://example.org/?q='x'" <> "#") by discriminate.
  destruct (renderReference_keeps_href_closed "https://example.org/?q='x'" H1 H2)
    as [out [_ [_ [Hrun [_ [Hq _]]]]]].
  exists out. split; [exact Hrun | exact Hq].
Defined.

Lemma filterWords_composes_witness :
  exists both,
    fst (filterWords (with_query "compute" "sched" (session "all" EmptyString))) = Ok both
    /\ exists by_search,
         fst (filterWords (with_query "all" "sched" (session "all" EmptyString))) = Ok by_search
         /\ fst (filterWords (with_query "compute" EmptyString
                                (with_terms by_search (session "all" EmptyString)))) = Ok both.
Proof.
  destruct (filterWords_composes (session "all" EmptyString) sampleTerms "compute" "sched"
              eq_refl sampleTerms_typed)
    as [by_search [by_category [both [H1 [_ [H3 [H4 _]]]]]]].
  exists both. split; [exact H3 |]. exists by_search. split; [exact H1 | exact H4].
Defined.

Lemma filterWords_longer_search_narrows_witness :
  exists shown1 shown2,
    fst (filterWords (with_query "all" "c" (session "all" EmptyString))) = Ok shown1
    /\ fst (filterWords (with_query "all" "sch" (session "all" EmptyString))) = Ok shown2
    /\ Spec.subsequence shown2 shown1.
Proof.
  assert (Hcs : includes "sch" "c" = true) by reflexivity.
  exact (filterWords_longer_search_narrows (session "all" EmptyString) sampleTerms
           "all" "c" "sch" eq_refl sampleTerms_typed Hcs
           (ascii_folding_keeps_includes "c" "sch" Hcs)).
Defined.

Lemma escape_string_injective_witness :
  escape_string "a<b" = escape_string (String "a" "<b") /\ "a<b" = String "a" "<b".
Proof.
  split; [reflexivity |].
  apply (escape_string_injective "a<b" (String "a" "<b")). reflexivity.
Defined.

(** ** Theme *)

(** X8.  The theme survives a reload: after [toggleTheme] on a page with
    its icon, [loadTheme] on any page with an icon and the same storage
    sets the theme and the icon that the toggle left. *)
Theorem loadTheme_restores_toggle (p q : theme_page) :
  themeIcon p <> None ->
  themeIcon q <> None ->
  saved_theme q = saved_theme (snd (toggleTheme p)) ->
  fst (toggleTheme p) = Ok tt
  /\ fst (loadTheme q) = Ok tt
  /\ data_theme (snd (loadTheme q)) = data_theme (snd (toggleTheme p))
  /\ themeIcon (snd (loadTheme q)) = themeIcon (snd (toggleTheme p)).
Proof.
  intros Hp Hq Hsaved.
  destruct p as [dt [icon |] saved]; [| contradiction Hp; reflexivity].
  destruct q as [dt' [icon' |] saved']; [| contradiction Hq; reflexivity].
  unfold toggleTheme, loadTheme in *. cbn [data_theme themeIcon saved_theme] in *.
  destruct dt as [theme |]; [destruct (theme =? "light") |];
    cbn in Hsaved; subst saved'; cbn; repeat split; reflexivity.
Qed.

(** X9.  On a page with its icon [toggleTheme] alternates: it leaves the
    theme [dark] if it was [light] and [light] in every other case, saves
    the theme it set, and shows the sun exactly for [dark]; so from
    [light] or [dark] two toggles give the theme back. *)
Theorem toggleTheme_alternates (p : theme_page) :
  themeIcon p <> None ->
  let p1 := snd (toggleTheme p) in
  let p2 := snd (toggleTheme p1) in
  fst (toggleTheme p) = Ok tt
  /\ data_theme p1 = Some (if match data_theme p with
                              | Some theme => theme =? "light"
                              | None => false
                              end then "dark" else "light")
  /\ saved_theme p1 = data_theme p1
  /\ (themeIcon p1 = Some sunIcon <-> data_theme p1 = Some "dark")
  /\ (themeIcon p1 = Some moonIcon <-> data_theme p1 = Some "light")
  /\ data_theme p2 <> data_theme p1
  /\ (data_theme p = Some "light" \/ data_theme p = Some "dark" -> data_theme p2 = data_theme p).
Proof.
  intros Hp. destruct p as [dt [icon |] saved]; [| contradiction Hp; reflexivity].
  assert (Hfinish : forall theme : string,
             theme <> "light" ->
             Some theme = Some "light" \/ Some theme = Some "dark" ->
             Some "dark" = Some theme).
  { intros theme Hne [H | H]; injection H as ->; [congruence | reflexivity]. }
  destruct dt as [theme |]; [destruct (String.eqb_spec theme "light") as [-> | Hne] |];
    try (pose proof Hne as E; apply String.eqb_neq in E);
    cbn; rewrite ?E; cbn;
    repeat match goal with |- _ /\ _ => split end;
    try reflexivity;
    try (split; intros H; first [reflexivity | vm_compute in H; discriminate H]);
    try (intros H; vm_compute in H; discriminate H).
  - apply Hfinish. exact Hne.
  - intros [H | H]; discriminate H.
Qed.

(** X10.  On a page without the [themeIcon] element [toggleTheme] throws
    after it has switched the attribute and before it saves: the theme of
    the page changes and the saved preference stays what it was. *)
Theorem toggleTheme_without_icon (p : theme_page) :
  themeIcon p = None ->
  fst (toggleTheme p) = Throw TypeError
  /\ saved_theme (snd (toggleTheme p)) = saved_theme p
  /\ data_theme (snd (toggleTheme p))
     = Some (if match data_theme p with
                | Some theme => theme =? "light"
                | None => false
                end then "dark" else "light").
Proof.
  intros Hp. destruct p as [dt icon saved]. simpl in Hp. subst icon.
  unfold toggleTheme. cbn [data_theme themeIcon saved_theme].
  destruct dt as [theme |]; [destruct (theme =? "light") |];
    cbn; repeat split; reflexivity.
Qed.

(** ** Export: the date in the file name, the version in the metadata *)

Lemma before_T_no_T (s : string) : count_char "T" (before_T s) = 0.
Proof.
  induction s as [| c s IH]; [reflexivity |].
  simpl. destruct (Ascii.eqb_spec c "T") as [-> | Hc]; [reflexivity |].
  simpl. destruct (Ascii.eqb_spec c "T") as [E | _]; [congruence | exact IH].
Qed.

Lemma before_T_prefix (s : string) : String.prefix (before_T s) s = true.
Proof.
  induction s as [| c s IH]; [reflexivity |].
  simpl. destruct (Ascii.eqb c "T"); [reflexivity |].
  simpl. destruct (ascii_dec c c) as [_ | N]; [exact IH | contradiction N; reflexivity].
Qed.

Lemma before_T_date (date rest : string) :
  count_char "T" date = 0 -> before_T (date ++ String "T" rest) = date.
Proof.
  induction date as [| c date IH]; intros H; [reflexivity |].
  simpl in H |- *.
  destruct (Ascii.eqb c "T"); [discriminate H |].
  rewrite (IH H). reflexivity.
Qed.

Lemma before_T_whole (s : string) : count_char "T" s = 0 -> before_T s = s.
Proof.
  induction s as [| c s IH]; intros H; [reflexivity |].
  simpl in H |- *.
  destruct (Ascii.eqb c "T"); [discriminate H |].
  rewrite (IH H). reflexivity.
Qed.

(** X11.  [getCurrentDateString] leaves the world alone and answers with
    the text of the clock before its first [T]: a prefix of the clock
    without a [T], which is the date when the clock reads date, [T],
    time, and the whole clock text when that has no [T] at all. *)
Theorem getCurrentDateString_is_date (w : world) :
  exists date,
    getCurrentDateString w = (Ok date, w)
    /\ count_char "T" date = 0
    /\ String.prefix date (clock w) = true
    /\ (forall d rest, clock w = d ++ String "T" rest -> count_char "T" d = 0 -> date = d)
    /\ (count_char "T" (clock w) = 0 -> date = clock w).
Proof.
  exists (before_T (clock w)).
  split; [reflexivity |].
  split; [apply before_T_no_T |].
  split; [apply before_T_prefix |].
  split.
  - intros d rest Hclock Hd. rewrite Hclock. apply before_T_date. exact Hd.
  - intros H. apply before_T_whole. exact H.
Qed.

Section ExportDetails.
Context {host : Host}.

(** X12.  The version in the exported metadata is never missing: it is
    [websiteInfo.project.version] when the project is there and its
    version is truthy, and the text [1.0.0] in every other case (no
    project, no version, or a version that is empty, zero, false or
    null). *)
Theorem exportJSON_version_fallback (w : world) (terms : list value) (project : value) :
  lexiconData (app w) = VArr terms ->
  download_works w = true ->
  get (websiteInfo (app w)) "project" = Ok project ->
  exists version,
    trace (snd (exportJSON w))
    = (trace w ++
       [ Download
           ("domra-tech-lexicon-" ++ before_T (clock w) ++ ".json")
           (JSON_stringify
              (dataToExport (clock w) (VNum (Z.of_nat (List.length terms))) version (app w)));
         ConsoleLog "Data exported successfully" [] ])%list
    /\ truthy version = true
    /\ (nullish project = true -> version = VStr "1.0.0")
    /\ (forall v, nullish project = false -> get project "version" = Ok v ->
                  version = if truthy v then v else VStr "1.0.0").
Proof.
  intros Hl Hdl Hp.
  cbv [exportJSON try_catch bind read lift getCurrentDateString download log
       write throw ret].
  rewrite Hl, Hp. cbn [get_length rbind].
  destruct (nullish project) eqn:Hn.
  - assert (E : Ok VUndefined ||| Ok (VStr "1.0.0") = Ok (VStr "1.0.0")) by reflexivity.
    rewrite E, Hdl. exists (VStr "1.0.0").
    split; [cbn [snd trace emit]; rewrite <- app_assoc; reflexivity |].
    split; [reflexivity |]. split; [reflexivity |]. intros v H. discriminate H.
  - destruct (get_of_present project "version" Hn) as [v Hv]. rewrite Hv.
    unfold or_else. cbn [rbind].
    destruct (truthy v) eqn:Ht; rewrite Hdl.
    + exists v. split; [cbn [snd trace emit]; rewrite <- app_assoc; reflexivity |].
      split; [exact Ht |]. split; [intros H; discriminate H |].
      intros v' _ Hv'. injection Hv' as <-. rewrite Ht. reflexivity.
    + exists (VStr "1.0.0").
      split; [cbn [snd trace emit]; rewrite <- app_assoc; reflexivity |].
      split; [reflexivity |]. split; [reflexivity |].
      intros v' _ Hv'. injection Hv' as <-. rewrite Ht. reflexivity.
Qed.

End ExportDetails.

(** ** The class list of a button *)

Lemma push_token_ok (cur : string) (ts : list string) :
  all_chars (fun c => negb (ascii_whitespace c)) cur = true ->
  Forall token_ok ts -> Forall token_ok (push_token cur ts).
Proof.
  intros Hc Hts. unfold push_token.
  destruct (String.eqb_spec cur EmptyString) as [_ | Hne]; [exact Hts |].
  constructor; [split; assumption | exact Hts].
Qed.

Lemma split_whitespace_ok (s : string) :
  all_chars (fun c => negb (ascii_whitespace c)) (fst (split_whitespace s)) = true
  /\ Forall token_ok (snd (split_whitespace s)).
Proof.
  induction s as [| c s [IHc IHt]]; [split; [reflexivity | constructor] |].
  simpl. destruct (split_whitespace s) as [cur ts]. simpl in IHc, IHt.
  destruct (ascii_whitespace c) eqn:Hc; simpl.
  - split; [reflexivity | apply push_token_ok; assumption].
  - rewrite Hc. split; [exact IHc | exact IHt].
Qed.

Lemma tokens_ok (s : string) : Forall token_ok (tokens s).
Proof.
  unfold tokens. pose proof (split_whitespace_ok s) as [Hc Ht].
  destruct (split_whitespace s) as [cur ts]. apply push_token_ok; assumption.
Qed.

Lemma split_whitespace_token (t rest : string) :
  all_chars (fun c => negb (ascii_whitespace c)) t = true ->
  split_whitespace (t ++ rest)
  = (t ++ fst (split_whitespace rest), snd (split_whitespace rest)).
Proof.
  induction t as [| c t IH]; intros H.
  - simpl. destruct (split_whitespace rest); reflexivity.
  - simpl in H. apply andb_true_iff in H. destruct H as [Hc Ht].
    apply negb_true_iff in Hc.
    simpl. rewrite (IH Ht), Hc. reflexivity.
Qed.

Lemma string_app_empty (s : string) : s ++ EmptyString = s.
Proof.
  induction s as [| c s IH]; [reflexivity |]. simpl. rewrite IH. reflexivity.
Qed.

Lemma tokens_cons (t rest : string) :
  token_ok t -> tokens (t ++ String " " rest) = t :: tokens rest.
Proof.
  intros [Hne Hall]. unfold tokens.
  rewrite (split_whitespace_token t _ Hall). simpl.
  destruct (split_whitespace rest) as [cur ts]. simpl.
  rewrite string_app_empty. unfold push_token at 1.
  destruct (String.eqb_spec t EmptyString) as [E | _]; [contradiction | reflexivity].
Qed.

Lemma tokens_one (t : string) : token_ok t -> tokens t = [t].
Proof.
  intros [Hne Hall]. unfold tokens.
  rewrite <- (string_app_empty t) at 1.
  rewrite (split_whitespace_token t _ Hall). simpl.
  rewrite string_app_empty. unfold push_token.
  destruct (String.eqb_spec t EmptyString) as [E | _]; [contradiction | reflexivity].
Qed.

(** Reading back what the serialiser wrote gives the tokens again. *)
Lemma tokens_join (ts : list string) :
  Forall token_ok ts -> tokens (join " " ts) = ts.
Proof.
  induction ts as [| t rest IH]; intros H; [reflexivity |].
  inversion H as [| t' rest' Ht Hrest]; subst.
  destruct rest as [| u rest].
  - simpl. apply tokens_one. exact Ht.
  - change (join " " (t :: u :: rest)) with (t ++ String " " (join " " (u :: rest))).
    rewrite (tokens_cons _ _ Ht), (IH Hrest). reflexivity.
Qed.

Lemma ordered_set_subset (xs : list string) (x : string) :
  In x (ordered_set xs) <-> In x xs.
Proof.
  induction xs as [| y rest IH]; [reflexivity |].
  simpl. rewrite filter_In, IH. split.
  - intros [H | [H _]]; [left | right]; exact H.
  - intros [H | H]; [left; exact H |].
    destruct (String.eqb_spec x y) as [-> | Hne]; [left; reflexivity |].
    right. split; [exact H | reflexivity].
Qed.

Lemma filter_NoDup {A : Type} (p : A -> bool) (xs : list A) :
  NoDup xs -> NoDup (filter p xs).
Proof.
  induction 1 as [| x xs Hx Hnd IH]; simpl; [constructor |].
  destruct (p x); [| exact IH].
  constructor; [| exact IH]. rewrite filter_In. tauto.
Qed.

Lemma ordered_set_NoDup (xs : list string) : NoDup (ordered_set xs).
Proof.
  induction xs as [| x rest IH]; simpl; constructor.
  - rewrite filter_In. intros [_ H]. rewrite String.eqb_refl in H. discriminate H.
  - apply filter_NoDup. exact IH.
Qed.

Lemma filter_all {A : Type} (p : A -> bool) (xs : list A) :
  (forall x, In x xs -> p x = true) -> filter p xs = xs.
Proof.
  induction xs as [| x rest IH]; intros H; [reflexivity |].
  simpl. rewrite (H x (or_introl eq_refl)).
  rewrite IH; [reflexivity |]. intros y Hy. apply H. right. exact Hy.
Qed.

Lemma ordered_set_fixed (xs : list string) : NoDup xs -> ordered_set xs = xs.
Proof.
  induction 1 as [| x xs Hx Hnd IH]; [reflexivity |].
  simpl. rewrite IH. rewrite filter_all; [reflexivity |].
  intros y Hy. apply negb_true_iff. apply String.eqb_neq. intros ->. contradiction.
Qed.

Lemma classList_ok (cls : string) : Forall token_ok (classList cls) /\ NoDup (classList cls).
Proof.
  split; [| apply ordered_set_NoDup].
  apply Forall_forall. intros t Ht. apply (proj1 (ordered_set_subset _ _)) in Ht.
  pose proof (tokens_ok cls) as H. rewrite Forall_forall in H. apply H. exact Ht.
Qed.

(** The class list of an attribute the serialiser wrote. *)
Lemma classList_join (ts : list string) :
  Forall token_ok ts -> NoDup ts -> classList (join " " ts) = ts.
Proof.
  intros Hok Hnd. unfold classList. rewrite (tokens_join ts Hok).
  apply ordered_set_fixed. exact Hnd.
Qed.

Lemma existsb_eqb_In (c : string) (xs : list string) :
  existsb (String.eqb c) xs = true <-> In c xs.
Proof.
  rewrite existsb_exists. split.
  - intros [x [Hx E]]. apply String.eqb_eq in E. subst. exact Hx.
  - intros H. exists c. split; [exact H | apply String.eqb_refl].
Qed.

Lemma classList_of_remove (c cls : string) :
  classList (classList_remove c cls) = filter (fun t => negb (t =? c)) (classList cls).
Proof.
  destruct (classList_ok cls) as [Hok Hnd].
  unfold classList_remove. apply classList_join.
  - apply Forall_forall. intros t Ht. apply filter_In in Ht. destruct Ht as [Ht _].
    rewrite Forall_forall in Hok. apply Hok. exact Ht.
  - apply filter_NoDup. exact Hnd.
Qed.

Lemma classList_of_append (c cls : string) :
  token_ok c -> classList (classList_append c cls) = classList_add c (classList cls).
Proof.
  intros Hc. destruct (classList_ok cls) as [Hok Hnd].
  unfold classList_append. apply classList_join.
  - unfold classList_add. destruct (existsb (String.eqb c) (classList cls)); [exact Hok |].
    apply Forall_app. split; [exact Hok | constructor; [exact Hc | constructor]].
  - unfold classList_add. destruct (existsb (String.eqb c) (classList cls)) eqn:E; [exact Hnd |].
    apply NoDup_app; [exact Hnd | constructor; [intros [] | constructor] |].
    intros x Hx [<- | []].
    apply existsb_eqb_In in Hx. congruence.
Qed.

Lemma contains_after_remove (c d cls : string) :
  classList_contains c (classList_remove d cls)
  = negb (c =? d) && classList_contains c cls.
Proof.
  unfold classList_contains. rewrite classList_of_remove.
  apply eq_true_iff_eq. rewrite andb_true_iff, negb_true_iff, !existsb_eqb_In, filter_In.
  rewrite negb_true_iff. tauto.
Qed.

Lemma contains_after_append (c d cls : string) :
  token_ok d ->
  classList_contains c (classList_append d cls)
  = (c =? d) || classList_contains c cls.
Proof.
  intros Hd. unfold classList_contains. rewrite (classList_of_append d cls Hd).
  apply eq_true_iff_eq. rewrite orb_true_iff, !existsb_eqb_In, String.eqb_eq.
  unfold classList_add. destruct (existsb (String.eqb d) (classList cls)) eqn:E.
  - apply existsb_eqb_In in E. split; [tauto |]. intros [-> | H]; assumption.
  - rewrite in_app_iff. simpl. split; [intros [H | [<- | []]]; tauto |].
    intros [-> | H]; [right; left; reflexivity | left; exact H].
Qed.

(** ** The filter buttons *)

Lemma category_button (k : string) (category : value) :
  Spec.category_ok category = true ->
  (let? name := get category "name" in
   let? name_english := get name "english" in
   let? icon := get category "icon" ||| Ok (VStr "📝") in
   createFilterButton k name_english icon false)
  = Ok {| className := "filter-btn ";
          dataset_category := k;
          button_innerHTML := category_icon category ++ " " ++ category_english category;
          aria_pressed := "false" |}.
Proof.
  intros Hcat.
  destruct category as [| | | | | | vprops]; try discriminate Hcat. simpl in Hcat.
  unfold category_icon, category_english, Spec.member.
  destruct (Spec.field vprops "name") as [| | | | | | nprops] eqn:Hname; try discriminate Hcat.
  destruct (Spec.field nprops "english") as [| | | | en | |] eqn:Hen;
    try (destruct (Spec.optional_string (Spec.field vprops "icon")); discriminate Hcat).
  rewrite !get_object, Hname. cbn [rbind]. rewrite get_object, Hen. cbn [rbind].
  destruct (Spec.field vprops "icon") as [| | | | icon | |]; try discriminate Hcat;
    try reflexivity.
  unfold or_else. cbn [rbind truthy].
  destruct (icon =? EmptyString); reflexivity.
Qed.

Lemma category_buttons_exact (entries : list (string * value)) :
  forallb (fun entry => Spec.category_ok (snd entry)) entries = true ->
  forall (w : world) (bs : list button),
    filterButtons (dom w) = Some bs ->
    for_each (fun '(categoryKey, category) =>
                b <- lift (let? name := get category "name" in
                           let? name_english := get name "english" in
                           let? icon := get category "icon" ||| Ok (VStr "📝") in
                           createFilterButton categoryKey name_english icon false) ;;
                appendButton b) entries w
    = (Ok tt,
       with_dom (set_filterButtons
         (Some (bs ++ map (fun entry =>
                             {| className := "filter-btn ";
                                dataset_category := fst entry;
                                button_innerHTML :=
                                  category_icon (snd entry) ++ " " ++ category_english (snd entry);
                                aria_pressed := "false" |}) entries)%list) (dom w)) w).
Proof.
  induction entries as [| [k category] rest IH]; intros Hall w bs Hfb.
  - simpl. unfold ret. rewrite app_nil_r, <- Hfb.
    destruct w as [g d tr net clk dl]. destruct d. reflexivity.
  - simpl in Hall. apply andb_true_iff in Hall. destruct Hall as [Hcat Hrest].
    cbn [for_each].
    set (b := {| className := "filter-btn ";
                 dataset_category := k;
                 button_innerHTML := category_icon category ++ " " ++ category_english category;
                 aria_pressed := "false" |}).
    set (w1 := with_dom (set_filterButtons (Some (bs ++ [b])%list) (dom w)) w).
    rewrite (bind_ok _ _ w w1 tt).
    + rewrite (IH Hrest w1 (bs ++ [b])%list eq_refl).
      cbn [map fst snd]. fold b. rewrite <- app_assoc. reflexivity.
    + rewrite (bind_ok _ _ w w b).
      * unfold appendButton, bind, read, write. rewrite Hfb. reflexivity.
      * unfold lift. rewrite (category_button k category Hcat). reflexivity.
Qed.

(** X13.  With the container on the page and a mapping of categories of
    the data model, [populateCategoryButtons] replaces whatever buttons
    were there by the pressed button [all] followed by one released
    button per category, in the order of the mapping: its key as the data
    of the button, its icon (the notepad if it has none) and English name
    as the text.  It changes nothing else, and a second run leaves the
    same buttons. *)
Theorem populateCategoryButtons_exact (w : world) (old : list button)
    (entries : list (string * value)) :
  filterButtons (dom w) = Some old ->
  categoriesData (app w) = VObj entries ->
  Spec.categories_ok (VObj entries) = true ->
  exists bs,
    populateCategoryButtons w
    = (Ok tt, with_dom (set_filterButtons (Some (allCategoriesButton :: bs)) (dom w)) w)
    /\ map dataset_category bs = map fst entries
    /\ map button_innerHTML bs
       = map (fun entry => category_icon (snd entry) ++ " " ++ category_english (snd entry))
           entries
    /\ Forall (fun b => className b = "filter-btn " /\ aria_pressed b = "false"
                        /\ classList_contains "filter-btn" (className b) = true
                        /\ classList_contains "active" (className b) = false) bs
    /\ populateCategoryButtons (snd (populateCategoryButtons w)) = populateCategoryButtons w.
Proof.
  intros Hfb Hc Hcats. simpl in Hcats.
  assert (Hrun : forall v : world,
             filterButtons (dom v) <> None -> categoriesData (app v) = VObj entries ->
             populateCategoryButtons v
             = (Ok tt,
                with_dom (set_filterButtons
                  (Some (allCategoriesButton ::
                         map (fun entry =>
                                {| className := "filter-btn ";
                                   dataset_category := fst entry;
                                   button_innerHTML :=
                                     category_icon (snd entry) ++ " "
                                     ++ category_english (snd entry);
                                   aria_pressed := "false" |}) entries)) (dom v)) v)).
  { intros v Hv Hcv. unfold populateCategoryButtons. rewrite (bind_ok read _ v v v eq_refl).
    destruct (filterButtons (dom v)) as [bs0 |]; [| contradiction Hv; reflexivity].
    rewrite Hcv.
    erewrite bind_ok by reflexivity.
    erewrite bind_ok by reflexivity.
    erewrite bind_ok by (unfold appendButton, bind, read, write; reflexivity).
    erewrite bind_ok by reflexivity.
    rewrite (category_buttons_exact entries Hcats _ [allCategoriesButton]) by reflexivity.
    reflexivity. }
  eexists. split; [apply Hrun; [rewrite Hfb; discriminate | exact Hc] |].
  split; [rewrite map_map; reflexivity |].
  split; [rewrite map_map; reflexivity |].
  split.
  - apply Forall_forall. intros b Hb. apply in_map_iff in Hb.
    destruct Hb as [entry [<- _]]. repeat split.
  - rewrite (Hrun w) by (rewrite ?Hfb; try discriminate; exact Hc).
    cbn [snd]. rewrite Hrun; [reflexivity | discriminate | exact Hc].
Qed.

(** ** The handlers of the query *)

Lemma nth_error_update_nth {A : Type} (f : A -> A) (xs : list A) (i j : nat) :
  nth_error (update_nth i f xs) j
  = if Nat.eqb j i then option_map f (nth_error xs j) else nth_error xs j.
Proof.
  revert i j. induction xs as [| x rest IH]; intros i j.
  - destruct i as [| i]; destruct j as [| j]; simpl; try reflexivity.
    destruct (Nat.eqb j i); reflexivity.
  - destruct i as [| i]; destruct j as [| j]; simpl; try reflexivity.
    apply IH.
Qed.

Lemma map_update_nth {A B : Type} (g : A -> B) (f : A -> A) (xs : list A) (i : nat) :
  (forall x, g (f x) = g x) -> map g (update_nth i f xs) = map g xs.
Proof.
  intros H. revert i. induction xs as [| x rest IH]; intros i; [reflexivity |].
  destruct i as [| i]; simpl; [rewrite H | rewrite IH]; reflexivity.
Qed.

Lemma active_token : token_ok "active".
Proof.
  split; [discriminate | reflexivity].
Qed.

Section HandlerFacts.
Context {host : Host}.

(** On terms and categories of the data model [renderWords] writes a
    label and a grid that the globals alone decide. *)
Lemma renderWords_shape (g : globals) (words : list value) :
  lexiconData g = VArr words ->
  forallb Spec.term_ok words = true ->
  Spec.categories_ok (categoriesData g) = true ->
  exists grid,
    forall w, app w = g ->
      renderWords w
      = (Ok tt,
         match wordGrid (dom w), resultsCount (dom w) with
         | Some _, Some _ =>
             with_dom (set_wordGrid (Some grid)
                         (set_resultsCount
                            (Some (string_of_nat
                                     (List.length
                                        (filter (Spec.visible (currentFilter g) (currentSearch g))
                                           words))
                                   ++ " terms found")) (dom w))) w
         | _, _ => w
         end).
Proof.
  intros Hl Hwords Hcats.
  assert (Hdec : Forall (fun word => Spec.term_of word <> None) words).
  { apply Forall_forall. intros x Hx. apply term_ok_term_of.
    rewrite forallb_forall in Hwords. apply Hwords. exact Hx. }
  set (shown := filter (Spec.visible (currentFilter g) (currentSearch g)) words).
  destruct (map_array_ok (createWordCard (categoriesData g)) shown) as [cards Hcards].
  { intros x Hx. apply createWordCard_ok; [exact Hcats |].
    apply filter_In in Hx. destruct Hx as [Hx _].
    rewrite forallb_forall in Hwords. apply Hwords. exact Hx. }
  exists (if Nat.eqb (List.length shown) 0 then noResultsMarkup else join EmptyString cards).
  intros w Hw. subst g.
  unfold renderWords. rewrite (bind_ok read _ w w w eq_refl).
  destruct (wordGrid (dom w)) as [g0 |] eqn:Hg;
    [destruct (resultsCount (dom w)) as [c0 |] eqn:Hc |]; try reflexivity.
  rewrite (bind_ok _ _ w w _ (filterWords_spec w words Hl Hdec)). fold shown.
  erewrite bind_ok by reflexivity.
  destruct (Nat.eqb (List.length shown) 0).
  - unfold renderNoResults. erewrite bind_ok by reflexivity.
    cbn [dom with_dom set_resultsCount wordGrid]. rewrite Hg. reflexivity.
  - unfold renderWordCards. erewrite bind_ok by reflexivity.
    erewrite bind_ok by (unfold lift; cbn [app with_dom]; rewrite Hcards; reflexivity).
    cbn [dom with_dom set_resultsCount wordGrid]. rewrite Hg. reflexivity.
Qed.

(** [handleFilterClick] on a child of the container: the buttons are
    switched, the selection is set, and [renderWords] does the rest. *)
Lemma handleFilterClick_run (w : world) (bs : list button) (i : nat) (b : button) :
  filterButtons (dom w) = Some bs ->
  nth_error bs i = Some b ->
  handleFilterClick i w
  = renderWords
      (with_query (dataset_category b) (currentSearch (app w))
         (with_dom (set_filterButtons (Some (update_nth i press (release_all bs))) (dom w)) w)).
Proof.
  intros Hfb Hb. unfold handleFilterClick. rewrite (bind_ok read _ w w w eq_refl).
  rewrite Hfb. erewrite bind_ok by reflexivity.
  unfold release_all at 1. rewrite nth_error_map, Hb. cbn [option_map].
  erewrite bind_ok by reflexivity.
  erewrite bind_ok by reflexivity.
  destruct (classList_contains "filter-btn" (className b)); reflexivity.
Qed.

Lemma pressed_buttons (bs : list button) (i j : nat) (bj : button) :
  Forall (fun b => classList_contains "filter-btn" (className b) = true) bs ->
  nth_error (update_nth i press (release_all bs)) j = Some bj ->
  classList_contains "filter-btn" (className bj) = true
  /\ classList_contains "active" (className bj) = Nat.eqb j i
  /\ aria_pressed bj = (if Nat.eqb j i then "true" else "false").
Proof.
  intros Hall Hj. rewrite nth_error_update_nth in Hj.
  unfold release_all in Hj. rewrite nth_error_map in Hj.
  destruct (nth_error bs j) as [b |] eqn:Hb;
    [| destruct (Nat.eqb j i); discriminate Hj].
  rewrite Forall_forall in Hall.
  pose proof (Hall b (nth_error_In _ _ Hb)) as Hf.
  cbn [option_map] in Hj. rewrite Hf in Hj.
  destruct (Nat.eqb j i); cbn [option_map] in Hj; injection Hj as <-;
    cbn [press release className aria_pressed].
  - rewrite !(contains_after_append _ _ _ active_token), !contains_after_remove, Hf.
    repeat split.
  - rewrite !contains_after_remove, Hf. repeat split.
Qed.

(** X14.  A click on a filter button, on terms and categories of the data
    model: [handleFilterClick] returns, the clicked button is the only one
    with the class [active] and with [aria-pressed] true, every button
    keeps its category, its text and the class [filter-btn], the
    selection is the category of the clicked button, the search text and
    the data stay, nothing is logged, and the label counts the terms
    visible under the new selection. *)
Theorem handleFilterClick_selects (w : world) (bs : list button) (i : nat) (b : button)
    (words : list value) :
  filterButtons (dom w) = Some bs ->
  nth_error bs i = Some b ->
  Forall (fun b => classList_contains "filter-btn" (className b) = true) bs ->
  lexiconData (app w) = VArr words ->
  forallb Spec.term_ok words = true ->
  Spec.categories_ok (categoriesData (app w)) = true ->
  exists w' bs',
    handleFilterClick i w = (Ok tt, w')
    /\ app w' = app (with_query (dataset_category b) (currentSearch (app w)) w)
    /\ trace w' = trace w
    /\ filterButtons (dom w') = Some bs'
    /\ map dataset_category bs' = map dataset_category bs
    /\ map button_innerHTML bs' = map button_innerHTML bs
    /\ (forall j bj, nth_error bs' j = Some bj ->
          classList_contains "filter-btn" (className bj) = true
          /\ classList_contains "active" (className bj) = Nat.eqb j i
          /\ aria_pressed bj = (if Nat.eqb j i then "true" else "false"))
    /\ (wordGrid (dom w) <> None -> resultsCount (dom w) <> None ->
        resultsCount (dom w')
        = Some (string_of_nat
                  (List.length
                     (filter (Spec.visible (dataset_category b) (currentSearch (app w))) words))
                ++ " terms found")).
Proof.
  intros Hfb Hb Hall Hl Hwords Hcats.
  rewrite (handleFilterClick_run w bs i b Hfb Hb).
  set (bs' := update_nth i press (release_all bs)).
  set (w1 := with_query (dataset_category b) (currentSearch (app w))
               (with_dom (set_filterButtons (Some bs') (dom w)) w)).
  destruct (renderWords_shape (app w1) words Hl Hwords Hcats) as [grid Hrun].
  rewrite (Hrun w1 eq_refl).
  eexists. exists bs'. split; [reflexivity |].
  assert (Hcat : map dataset_category bs' = map dataset_category bs).
  { unfold bs'. rewrite map_update_nth by reflexivity.
    unfold release_all. rewrite map_map. apply map_ext.
    intros x. destruct (classList_contains "filter-btn" (className x)); reflexivity. }
  assert (Htext : map button_innerHTML bs' = map button_innerHTML bs).
  { unfold bs'. rewrite map_update_nth by reflexivity.
    unfold release_all. rewrite map_map. apply map_ext.
    intros x. destruct (classList_contains "filter-btn" (className x)); reflexivity. }
  cbn [dom w1 with_query with_app with_dom wordGrid resultsCount set_filterButtons].
  destruct (wordGrid (dom w)) as [g0 |]; [destruct (resultsCount (dom w)) as [c0 |] |];
    (split; [reflexivity |]); (split; [reflexivity |]); (split; [reflexivity |]);
    (split; [exact Hcat |]); (split; [exact Htext |]);
    (split; [intros j bj Hj; exact (pressed_buttons bs i j bj Hall Hj) |]).
  - intros _ _. reflexivity.
  - intros _ H. contradiction H. reflexivity.
  - intros H. contradiction H. reflexivity.
Qed.

(** X15.  Typing in the search box, on terms and categories of the data
    model: the handler returns, the search text is the trimmed text of
    the box, the selection, the data and the buttons stay, nothing is
    logged, and the label counts the terms visible under the new text. *)
Theorem searchInput_input_searches (trim : string -> string) (text : string) (w : world)
    (words : list value) :
  lexiconData (app w) = VArr words ->
  forallb Spec.term_ok words = true ->
  Spec.categories_ok (categoriesData (app w)) = true ->
  exists w',
    searchInput_input trim text w = (Ok tt, w')
    /\ app w' = app (with_query (currentFilter (app w)) (trim text) w)
    /\ trace w' = trace w
    /\ filterButtons (dom w') = filterButtons (dom w)
    /\ (wordGrid (dom w) <> None -> resultsCount (dom w) <> None ->
        resultsCount (dom w')
        = Some (string_of_nat
                  (List.length
                     (filter (Spec.visible (currentFilter (app w)) (trim text)) words))
                ++ " terms found")).
Proof.
  intros Hl Hwords Hcats. unfold searchInput_input.
  erewrite bind_ok by reflexivity.
  set (w1 := with_query (currentFilter (app w)) (trim text) w).
  destruct (renderWords_shape (app w1) words Hl Hwords Hcats) as [grid Hrun].
  rewrite (Hrun w1 eq_refl).
  eexists. split; [reflexivity |].
  cbn [dom w1 with_query with_app wordGrid resultsCount].
  destruct (wordGrid (dom w)) as [g0 |]; [destruct (resultsCount (dom w)) as [c0 |] |];
    (split; [reflexivity |]); (split; [reflexivity |]); (split; [reflexivity |]).
  - intros _ _. reflexivity.
  - intros _ H. contradiction H. reflexivity.
  - intros H. contradiction H. reflexivity.
Qed.

(** X16.  The page shows the query, not the way to it: a click on a
    filter button followed by typing, and the same typing followed by the
    same click, leave the same world. *)
Theorem query_handlers_commute (trim : string -> string) (text : string) (w : world)
    (bs : list button) (i : nat) (b : button) (words : list value) :
  filterButtons (dom w) = Some bs ->
  nth_error bs i = Some b ->
  lexiconData (app w) = VArr words ->
  forallb Spec.term_ok words = true ->
  Spec.categories_ok (categoriesData (app w)) = true ->
  searchInput_input trim text (snd (handleFilterClick i w))
  = handleFilterClick i (snd (searchInput_input trim text w))
  /\ fst (searchInput_input trim text (snd (handleFilterClick i w))) = Ok tt.
Proof.
  intros Hfb Hb Hl Hwords Hcats.
  set (bs' := update_nth i press (release_all bs)).
  set (g1 := app (with_query (dataset_category b) (currentSearch (app w)) w)).
  set (g2 := app (with_query (currentFilter (app w)) (trim text) w)).
  set (g3 := app (with_query (dataset_category b) (trim text) w)).
  destruct (renderWords_shape g1 words Hl Hwords Hcats) as [grid1 Hrun1].
  destruct (renderWords_shape g2 words Hl Hwords Hcats) as [grid2 Hrun2].
  destruct (renderWords_shape g3 words Hl Hwords Hcats) as [grid3 Hrun3].
  set (wA := with_query (dataset_category b) (currentSearch (app w))
               (with_dom (set_filterButtons (Some bs') (dom w)) w)).
  set (wB := with_query (currentFilter (app w)) (trim text) w).
  assert (HA : handleFilterClick i w = renderWords wA)
    by exact (handleFilterClick_run w bs i b Hfb Hb).
  assert (HB : searchInput_input trim text w = renderWords wB) by reflexivity.
  pose proof (Hrun1 wA eq_refl) as EA. rewrite <- HA in EA.
  pose proof (Hrun2 wB eq_refl) as EB. rewrite <- HB in EB.
  rewrite EA, EB. clear HA HB EA EB.
  cbn [snd dom wA wB with_query with_app with_dom wordGrid resultsCount set_filterButtons].
  destruct (wordGrid (dom w)) as [g0 |] eqn:Hg;
    [destruct (resultsCount (dom w)) as [c0 |] eqn:Hc |].
  - match goal with
    | |- searchInput_input _ _ ?L = handleFilterClick _ ?R /\ _ =>
        assert (HL : searchInput_input trim text L
                     = renderWords (with_query (dataset_category b) (trim text) L))
          by reflexivity;
        assert (HR : handleFilterClick i R
                     = renderWords
                         (with_query (dataset_category b) (trim text)
                            (with_dom (set_filterButtons (Some bs') (dom R)) R)))
          by exact (handleFilterClick_run R bs i b Hfb Hb);
        rewrite HL, HR;
        rewrite (Hrun3 (with_query (dataset_category b) (trim text) L) eq_refl);
        rewrite (Hrun3 (with_query (dataset_category b) (trim text)
                          (with_dom (set_filterButtons (Some bs') (dom R)) R)) eq_refl)
    end.
    cbn. rewrite ?Hg, ?Hc. split; reflexivity.
  - match goal with
    | |- searchInput_input _ _ ?L = handleFilterClick _ ?R /\ _ =>
        assert (HL : searchInput_input trim text L
                     = renderWords (with_query (dataset_category b) (trim text) L))
          by reflexivity;
        assert (HR : handleFilterClick i R
                     = renderWords
                         (with_query (dataset_category b) (trim text)
                            (with_dom (set_filterButtons (Some bs') (dom R)) R)))
          by exact (handleFilterClick_run R bs i b Hfb Hb);
        rewrite HL, HR;
        rewrite (Hrun3 (with_query (dataset_category b) (trim text) L) eq_refl);
        rewrite (Hrun3 (with_query (dataset_category b) (trim text)
                          (with_dom (set_filterButtons (Some bs') (dom R)) R)) eq_refl)
    end.
    cbn. rewrite ?Hg, ?Hc. split; reflexivity.
  - match goal with
    | |- searchInput_input _ _ ?L = handleFilterClick _ ?R /\ _ =>
        assert (HL : searchInput_input trim text L
                     = renderWords (with_query (dataset_category b) (trim text) L))
          by reflexivity;
        assert (HR : handleFilterClick i R
                     = renderWords
                         (with_query (dataset_category b) (trim text)
                            (with_dom (set_filterButtons (Some bs') (dom R)) R)))
          by exact (handleFilterClick_run R bs i b Hfb Hb);
        rewrite HL, HR;
        rewrite (Hrun3 (with_query (dataset_category b) (trim text) L) eq_refl);
        rewrite (Hrun3 (with_query (dataset_category b) (trim text)
                          (with_dom (set_filterButtons (Some bs') (dom R)) R)) eq_refl)
    end.
    cbn. rewrite ?Hg, ?Hc. split; reflexivity.
Qed.

End HandlerFacts.

(** ** Concrete runs of the theme, the export and the handlers *)

Lemma loadTheme_restores_toggle_witness :
  data_theme (snd (toggleTheme lightPage)) = Some "dark"
  /\ data_theme (snd (loadTheme (snd (toggleTheme lightPage)))) = Some "dark"
  /\ themeIcon (snd (loadTheme (snd (toggleTheme lightPage)))) = Some sunIcon.
Proof.
  assert (Hp : themeIcon lightPage <> None) by discriminate.
  assert (Hq : themeIcon (snd (toggleTheme lightPage)) <> None) by discriminate.
  destruct (loadTheme_restores_toggle lightPage (snd (toggleTheme lightPage)) Hp Hq eq_refl)
    as [_ [_ [Hd Hi]]].
  split; [reflexivity | split; [exact Hd | exact Hi]].
Defined.

Lemma toggleTheme_alternates_witness :
  themeIcon lightPage <> None
  /\ data_theme (snd (toggleTheme lightPage)) = Some "dark"
  /\ data_theme (snd (toggleTheme (snd (toggleTheme lightPage)))) = Some "light".
Proof.
  assert (Hp : themeIcon lightPage <> None) by discriminate.
  destruct (toggleTheme_alternates lightPage Hp) as [_ [Hd [_ [_ [_ [_ Hback]]]]]].
  split; [exact Hp | split; [exact Hd |]].
  exact (Hback (or_introl eq_refl)).
Defined.

Lemma toggleTheme_without_icon_witness :
  fst (toggleTheme pageWithoutIcon) = Throw TypeError
  /\ saved_theme (snd (toggleTheme pageWithoutIcon)) = Some "light"
  /\ data_theme (snd (toggleTheme pageWithoutIcon)) = Some "dark".
Proof.
  exact (toggleTheme_without_icon pageWithoutIcon eq_refl).
Defined.

Lemma exportJSON_version_fallback_witness :
  exists version,
    In (Download "domra-tech-lexicon-2024-05-17.json"
          (JSON_stringify
             (dataToExport (clock browsing) (VNum 2) version (app browsing))))
       (trace (snd (exportJSON browsing)))
    /\ version = VStr "2.1.0".
Proof.
  destruct (exportJSON_version_fallback browsing sampleTerms
              (VObj [("version", VStr "2.1.0")]) eq_refl eq_refl eq_refl)
    as [version [Htrace [_ [_ Hv]]]].
  exists version. split.
  - rewrite Htrace. left. reflexivity.
  - exact (Hv (VStr "2.1.0") eq_refl eq_refl).
Defined.

Lemma populateCategoryButtons_exact_witness :
  exists bs,
    filterButtons (dom (snd (populateCategoryButtons browsing)))
    = Some (allCategoriesButton :: bs)
    /\ map dataset_category bs = ["storage"]
    /\ map button_innerHTML bs = ["💾 Storage"].
Proof.
  destruct (populateCategoryButtons_exact browsing [allCategoriesButton; storageButton]
              [("storage",
                VObj [("name", VObj [("english", VStr "Storage"); ("khmer", VStr "ផ្ទុក")]);
                      ("icon", VStr "💾")])]
              eq_refl eq_refl eq_refl) as [bs [Hrun [Hkeys [Htexts _]]]].
  exists bs. split; [rewrite Hrun; reflexivity |].
  split; [exact Hkeys | exact Htexts].
Defined.

Lemma browsing_buttons :
  Forall (fun b => classList_contains "filter-btn" (className b) = true)
    [allCategoriesButton; storageButton].
Proof.
  repeat constructor.
Qed.

Lemma handleFilterClick_selects_witness :
  exists w',
    handleFilterClick 1 browsing = (Ok tt, w')
    /\ currentFilter (app w') = "storage"
    /\ resultsCount (dom w') = Some "1 terms found".
Proof.
  destruct (handleFilterClick_selects browsing [allCategoriesButton; storageButton] 1
              storageButton sampleTerms eq_refl eq_refl browsing_buttons
              eq_refl eq_refl eq_refl)
    as [w' [bs' [Hrun [Happ [_ [_ [_ [_ [_ Hcount]]]]]]]]].
  exists w'. split; [exact Hrun |]. split; [rewrite Happ; reflexivity |].
  rewrite Hcount; [reflexivity | discriminate | discriminate].
Defined.

Lemma searchInput_input_searches_witness :
  exists w',
    searchInput_input (fun s => s) "sched" browsing = (Ok tt, w')
    /\ currentSearch (app w') = "sched"
    /\ resultsCount (dom w') = Some "1 terms found".
Proof.
  destruct (searchInput_input_searches (fun s => s) "sched" browsing sampleTerms
              eq_refl eq_refl eq_refl)
    as [w' [Hrun [Happ [_ [_ Hcount]]]]].
  exists w'. split; [exact Hrun |]. split; [rewrite Happ; reflexivity |].
  rewrite Hcount; [reflexivity | discriminate | discriminate].
Defined.

Lemma query_handlers_commute_witness :
  searchInput_input (fun s => s) "cache" (snd (handleFilterClick 1 browsing))
  = handleFilterClick 1 (snd (searchInput_input (fun s => s) "cache" browsing)).
Proof.
  exact (proj1 (query_handlers_commute (fun s => s) "cache" browsing
                  [allCategoriesButton; storageButton] 1 storageButton sampleTerms
                  eq_refl eq_refl eq_refl eq_refl eq_refl)).
Defined.

(** ** Debounce *)

Section DebounceFacts.
Context {A : Type}.
Implicit Types (s : debounced A) (es : list (input A)).

Lemma run_events_app (wait : N) es (e : input A) s :
  run_events wait (es ++ [e]) s
  = match run_events wait es s with
    | Some s' => step wait e s'
    | None => None
    end.
Proof.
  revert s. induction es as [| e0 es IH]; intros s; simpl.
  - destruct (step wait e s); reflexivity.
  - destruct (step wait e0 s) as [s' |]; [apply IH | reflexivity].
Qed.

Lemma clear_pending s :
  one_timer s -> clearTimeout (timeout s) (timers s) = [].
Proof.
  intros [H | [t [H Ht]]]; rewrite H.
  - unfold clearTimeout. destruct (timeout s); reflexivity.
  - rewrite Ht. simpl. rewrite Nat.eqb_refl. reflexivity.
Qed.

Lemma executedFunction_timer (wait now : N) (args : A) s :
  one_timer s ->
  timers (executedFunction wait now args s)
  = [ {| timer_id := next_id s; due := (now + wait)%N; timer_args := args |} ].
Proof.
  intros H. unfold executedFunction. cbn [timers]. rewrite (clear_pending s H). reflexivity.
Qed.

Lemma executedFunction_one_timer (wait now : N) (args : A) s :
  one_timer s -> one_timer (executedFunction wait now args s).
Proof.
  intros H. right. eexists. split; [apply executedFunction_timer; exact H | reflexivity].
Qed.

(** With one timer pending, only that timer can run, once it is due; it
    calls [func] with its arguments and leaves no timer. *)
Lemma fire_pending (now : N) (id : nat) s (t : timer A) :
  timers s = [t] ->
  fire now id s
  = if Nat.eqb (timer_id t) id && (due t <=? now)%N
    then Some {| timeout := timeout s; timers := [];
                 next_id := next_id s;
                 runs := (runs s ++ [(now, timer_args t)])%list |}
    else None.
Proof.
  intros Ht. unfold fire. rewrite Ht. simpl.
  destruct (Nat.eqb (timer_id t) id); [| reflexivity]. simpl.
  destruct (due t <=? now)%N; [| reflexivity].
  unfold later, clearTimeout. cbn [timeout timers next_id runs].
  destruct (timeout s); reflexivity.
Qed.

Lemma fire_idle (now : N) (id : nat) s : timers s = [] -> fire now id s = None.
Proof.
  intros Ht. unfold fire. rewrite Ht. reflexivity.
Qed.

Lemma step_one_timer (wait : N) (e : input A) s s' :
  one_timer s -> step wait e s = Some s' -> one_timer s'.
Proof.
  intros H Hstep. destruct e as [now args | now id]; simpl in Hstep.
  - injection Hstep as <-. apply executedFunction_one_timer. exact H.
  - destruct H as [H | [t [H _]]].
    + rewrite (fire_idle now id s H) in Hstep. discriminate Hstep.
    + rewrite (fire_pending now id s t H) in Hstep.
      destruct (_ && _); [| discriminate Hstep].
      injection Hstep as <-. left. reflexivity.
Qed.

Lemma run_events_one_timer (wait : N) es s s' :
  one_timer s -> run_events wait es s = Some s' -> one_timer s'.
Proof.
  revert s. induction es as [| e es IH]; intros s H Hrun; simpl in Hrun.
  - injection Hrun as <-. exact H.
  - destruct (step wait e s) as [s1 |] eqn:Hstep; [| discriminate Hrun].
    exact (IH s1 (step_one_timer wait e s s1 H Hstep) Hrun).
Qed.

(** What every reachable state carries: one timer at most, set by a call
    that is in the list and due [wait] after it; each call of [func] made
    with the arguments of a call in the list, [wait] or more after it;
    and no more timers and calls of [func] than calls. *)
Lemma run_events_history (wait : N) es s :
  run_events wait es fresh = Some s ->
  one_timer s
  /\ (forall t, In t (timers s) ->
        exists t0, In (Call t0 (timer_args t)) es /\ due t = (t0 + wait)%N)
  /\ (forall now a, In (now, a) (runs s) ->
        exists t0, In (Call t0 a) es /\ (t0 + wait <= now)%N)
  /\ List.length (runs s) + List.length (timers s) <= List.length (filter is_call es).
Proof.
  revert s. induction es as [| e es IH] using rev_ind; intros s Hrun.
  - injection Hrun as <-. split; [left; reflexivity |].
    split; [intros t [] |]. split; [intros now a [] | simpl; lia].
  - rewrite run_events_app in Hrun.
    destruct (run_events wait es fresh) as [s0 |] eqn:H0; [| discriminate Hrun].
    destruct (IH s0 eq_refl) as [Hone [Htimers [Hruns Hcount]]].
    split; [exact (step_one_timer wait e s0 s Hone Hrun) |].
    rewrite filter_app, List.length_app.
    destruct e as [now args | now id]; simpl in Hrun.
    + injection Hrun as <-. rewrite (executedFunction_timer wait now args s0 Hone).
      cbn [runs executedFunction].
      split; [| split].
      * intros t [<- | []]. exists now. split; [| reflexivity].
        apply in_or_app. right. left. reflexivity.
      * intros now' a Hin. destruct (Hruns now' a Hin) as [t0 [Hc Hle]].
        exists t0. split; [apply in_or_app; left; exact Hc | exact Hle].
      * simpl. destruct Hone as [H | [t [H _]]]; rewrite H in Hcount; simpl in Hcount; lia.
    + destruct Hone as [H | [t [H _]]].
      * rewrite (fire_idle now id s0 H) in Hrun. discriminate Hrun.
      * rewrite (fire_pending now id s0 t H) in Hrun.
        destruct (Nat.eqb (timer_id t) id && (due t <=? now)%N) eqn:Hok;
          [| discriminate Hrun].
        injection Hrun as <-. cbn [timers runs].
        apply andb_true_iff in Hok. destruct Hok as [_ Hdue]. apply N.leb_le in Hdue.
        split; [intros t' [] |]. split.
        -- intros now' a Hin. apply in_app_or in Hin.
           destruct Hin as [Hin | [Hin | []]].
           ++ destruct (Hruns now' a Hin) as [t0 [Hc Hle]].
              exists t0. split; [apply in_or_app; left; exact Hc | exact Hle].
           ++ injection Hin as <- <-.
              destruct (Htimers t) as [t0 [Hc Hd]]; [rewrite H; left; reflexivity |].
              exists t0. split; [apply in_or_app; left; exact Hc | lia].
        -- rewrite H in Hcount. rewrite List.length_app. simpl in Hcount |- *. lia.
Qed.

(** X17.  Whatever calls and timer runs a debounced function has seen,
    at most one of its timers is pending and [timeout] names it; [func]
    has only been called with the arguments of an earlier call of the
    debounced function, [wait] or more after that call; and calls of
    [func] and pending timers together are no more than the calls made. *)
Theorem debounce_history (wait : N) es s :
  run_events wait es fresh = Some s ->
  one_timer s
  /\ List.length (timers s) <= 1
  /\ (forall now a, In (now, a) (runs s) ->
        exists t0, In (Call t0 a) es /\ (t0 + wait <= now)%N)
  /\ List.length (runs s) + List.length (timers s) <= List.length (filter is_call es).
Proof.
  intros Hrun. destruct (run_events_history wait es s Hrun) as [Hone [_ [Hruns Hcount]]].
  split; [exact Hone |]. split; [| split; [exact Hruns | exact Hcount]].
  destruct Hone as [H | [t [H _]]]; rewrite H; simpl; lia.
Qed.

Lemma burst_timer (wait : N) (calls : list (N * A)) (t : N) (a : A) s :
  one_timer s ->
  let s1 := fold_left (fun st c => executedFunction wait (fst c) (snd c) st)
              (calls ++ [(t, a)])%list s in
  timers s1 = [ {| timer_id := next_id s + List.length calls;
                   due := (t + wait)%N; timer_args := a |} ]
  /\ runs s1 = runs s.
Proof.
  revert s. induction calls as [| [t0 a0] calls IH]; intros s Hone; cbv zeta.
  - cbn [List.app fold_left fst snd List.length].
    rewrite (executedFunction_timer wait t a s Hone), Nat.add_0_r.
    split; reflexivity.
  - cbn [List.app fold_left fst snd].
    destruct (IH (executedFunction wait t0 a0 s)
                (executedFunction_one_timer wait t0 a0 s Hone)) as [Ht Hr].
    cbv zeta in Ht, Hr. rewrite Ht, Hr. cbn [next_id runs executedFunction List.length].
    rewrite Nat.add_succ_r. split; reflexivity.
Qed.

(** X18.  A burst is one call of [func]: after any history, when the
    debounced function is called several times in a row, the only timer
    left is the one of the last call; no other timer can run, and this one
    not before [wait] has passed since the last call; when it runs, [func]
    is called once, with the arguments of the last call, and no timer is
    left. *)
Theorem debounce_coalesces (wait : N) es (calls : list (N * A)) (t : N) (a : A) s :
  run_events wait es fresh = Some s ->
  let s1 := fold_left (fun st c => executedFunction wait (fst c) (snd c) st)
              (calls ++ [(t, a)])%list s in
  run_events wait (es ++ map (fun c => Call (fst c) (snd c)) (calls ++ [(t, a)]))%list fresh
  = Some s1
  /\ runs s1 = runs s
  /\ (forall now id,
        fire now id s1 <> None
        <-> id = next_id s + List.length calls /\ (t + wait <= now)%N)
  /\ (forall now id s2,
        fire now id s1 = Some s2 ->
        runs s2 = (runs s ++ [(now, a)])%list /\ timers s2 = []
        /\ forall now' id', fire now' id' s2 = None).
Proof.
  intros Hrun s1.
  pose proof (run_events_one_timer wait es fresh s (or_introl eq_refl) Hrun) as Hone.
  destruct (burst_timer wait calls t a s Hone) as [Ht Hr]. fold s1 in Ht, Hr.
  split.
  - unfold s1. clear Ht Hr s1 Hone. revert s Hrun.
    generalize (calls ++ [(t, a)])%list as cs. clear calls t a.
    intros cs. revert es. induction cs as [| c cs IH]; intros es s Hrun.
    + simpl. rewrite app_nil_r. exact Hrun.
    + cbn [map fold_left].
      change (es ++ Call (fst c) (snd c) :: map (fun c => Call (fst c) (snd c)) cs)%list
        with (es ++ [Call (fst c) (snd c)] ++ map (fun c => Call (fst c) (snd c)) cs)%list.
      rewrite app_assoc. apply IH.
      rewrite run_events_app, Hrun. reflexivity.
  - split; [exact Hr |]. split.
    + intros now id. rewrite (fire_pending now id s1 _ Ht). cbn [timer_id due].
      destruct (Nat.eqb_spec (next_id s + List.length calls) id) as [E | E];
        destruct (N.leb_spec (t + wait) now) as [L | L]; simpl; split;
        try (intros _; split; [symmetry; exact E | exact L]);
        try discriminate;
        try (intros H; contradiction H; reflexivity);
        intros [E' L']; try (symmetry in E'; contradiction); lia.
    + intros now id s2 Hfire. rewrite (fire_pending now id s1 _ Ht) in Hfire.
      destruct (_ && _); [| discriminate Hfire].
      injection Hfire as <-. cbn [runs timers timer_args]. rewrite Hr.
      split; [reflexivity |]. split; [reflexivity |].
      intros now' id'. apply fire_idle. reflexivity.
Qed.

End DebounceFacts.

(** ** Statistics *)








(** ** The panels during a load *)





Lemma bind_lift {A B : Type} (r : result A) (k : A -> M B) (w : world) :
  bind (lift r) k w = match r with
                      | Ok a => k a w
                      | Throw e => (Throw e, w)
                      end.
Proof.
  unfold bind, lift. destruct r; reflexivity.
Qed.







Section PanelFacts.
Context {host : Host}.



(** The handler of [loadData] on a page with the three panels. *)
Lemma showError_view (w : world) :
  Spec.panels_present (dom w) ->
  fst ((log (ConsoleError "Error loading data:") ;; showError) w) = Ok tt
  /\ error_view (dom (snd ((log (ConsoleError "Error loading data:") ;; showError) w)))
  /\ app (snd ((log (ConsoleError "Error loading data:") ;; showError) w)) = app w.
Proof.
  intros [Hl [He Hm]].
  destruct w as [g d tr net clk dl].
  destruct d as [ld eb mc si fb wg rc sc cm]. simpl in Hl, He, Hm.
  destruct ld as [ld |]; [| congruence].
  destruct eb as [eb |]; [| congruence].
  destruct mc as [[md classes] |]; [| congruence].
  split; [reflexivity |]. split; [| reflexivity].
  split; [reflexivity |]. split; [reflexivity |]. exists classes. reflexivity.
Qed.




End PanelFacts.

(** ** What a load leaves in the globals *)

Lemma populateCategoryButtons_buttons (w : world) (entries : list (string * value)) :
  filterButtons (dom w) <> None ->
  categoriesData (app w) = VObj entries ->
  Spec.categories_ok (VObj entries) = true ->
  populateCategoryButtons w
  = (Ok tt,
     with_dom (set_filterButtons
       (Some (allCategoriesButton ::
              map (fun entry =>
                     {| className := "filter-btn ";
                        dataset_category := fst entry;
                        button_innerHTML :=
                          category_icon (snd entry) ++ " " ++ category_english (snd entry);
                        aria_pressed := "false" |}) entries)) (dom w)) w).
Proof.
  intros Hfb Hc Hcats. simpl in Hcats.
  unfold populateCategoryButtons. rewrite (bind_ok read _ w w w eq_refl).
  destruct (filterButtons (dom w)) as [bs0 |]; [| contradiction Hfb; reflexivity].
  rewrite Hc.
  erewrite bind_ok by reflexivity.
  erewrite bind_ok by reflexivity.
  erewrite bind_ok by (unfold appendButton, bind, read, write; reflexivity).
  erewrite bind_ok by reflexivity.
  rewrite (category_buttons_exact entries Hcats _ [allCategoriesButton]) by reflexivity.
  reflexivity.
Qed.

Lemma updateStats_shape (w : world) (words : list value) :
  lexiconData (app w) = VArr words ->
  forallb Spec.term_ok words = true ->
  nullish (categoriesData (app w)) = false ->
  exists stats,
    updateStats w
    = (Ok tt,
       match statsContainer (dom w) with
       | Some _ => with_dom (set_statsContainer (Some stats) (dom w)) w
       | None => w
       end).
Proof.
  intros Hl Hwords Hcats. unfold updateStats. rewrite (bind_ok read _ w w w eq_refl).
  destruct (statsContainer (dom w)) as [sc |]; [| exists EmptyString; reflexivity].
  rewrite Hl.
  destruct (Object_entries_ok _ Hcats) as [entries Hentries].
  destruct (flat_map_array_ok
              (fun term => get term "contributors" ||| Ok (VArr [])) words)
    as [contributors Hcontrib].
  { intros x Hx. rewrite forallb_forall in Hwords.
    destruct (term_ok_object x (Hwords x Hx)) as [props ->].
    rewrite get_object. unfold or_else. simpl.
    destruct (truthy (Spec.field props "contributors")); eexists; reflexivity. }
  destruct (filter_array_ok
              (fun term => let? status := get term "status" in
                           Ok (strict_eq_string status "verified")) words)
    as [verified_terms Hverified].
  { intros x Hx. rewrite forallb_forall in Hwords.
    destruct (term_ok_object x (Hwords x Hx)) as [props ->].
    rewrite get_object. eexists. reflexivity. }
  erewrite bind_ok by reflexivity.
  erewrite bind_ok by (unfold lift; rewrite Hentries; reflexivity).
  erewrite bind_ok by (unfold lift; rewrite Hcontrib; reflexivity).
  erewrite bind_ok by (unfold lift; rewrite Hverified; reflexivity).
  erewrite bind_ok by reflexivity.
  eexists. reflexivity.
Qed.

Lemma setupEventListeners_logs (w : world) :
  exists events,
    setupEventListeners w
    = (Ok tt,
       {| app := app w; dom := dom w; trace := (trace w ++ events)%list;
          network := network w; clock := clock w; download_works := download_works w |}).
Proof.
  unfold setupEventListeners. rewrite (bind_ok read _ w w w eq_refl).
  destruct (searchInput (dom w)), (filterButtons (dom w)), (contributeModal (dom w));
    eexists; cbv [bind log write emit ret]; cbn [app dom trace network clock download_works];
    rewrite <- ?app_assoc; reflexivity.
Qed.

(** [initializeInterface] on terms and categories of the data model: the
    buttons, the statistics, and the listeners. *)
Lemma initializeInterface_shape (w : world) (words : list value)
    (entries : list (string * value)) :
  filterButtons (dom w) <> None ->
  lexiconData (app w) = VArr words ->
  forallb Spec.term_ok words = true ->
  categoriesData (app w) = VObj entries ->
  Spec.categories_ok (VObj entries) = true ->
  exists stats events,
    initializeInterface w
    = (Ok tt,
       {| app := app w;
          dom := (let d := set_filterButtons
                             (Some (allCategoriesButton ::
                                    map (fun entry =>
                                           {| className := "filter-btn ";
                                              dataset_category := fst entry;
                                              button_innerHTML :=
                                                category_icon (snd entry) ++ " "
                                                ++ category_english (snd entry);
                                              aria_pressed := "false" |}) entries))
                             (dom w) in
                  match statsContainer (dom w) with
                  | Some _ => set_statsContainer (Some stats) d
                  | None => d
                  end);
          trace := (trace w ++ events)%list;
          network := network w; clock := clock w; download_works := download_works w |}).
Proof.
  intros Hfb Hl Hwords Hc Hcats.
  pose proof (populateCategoryButtons_buttons w entries Hfb Hc Hcats) as Hpop.
  match type of Hpop with
  | _ = (_, ?W) =>
      destruct (updateStats_shape W words Hl Hwords) as [stats Hstats];
      [cbn; rewrite Hc; reflexivity |];
      match type of Hstats with
      | _ = (_, ?V) => destruct (setupEventListeners_logs V) as [events Hsetup]
      end
  end.
  exists stats, events. unfold initializeInterface.
  rewrite (bind_ok _ _ _ _ tt Hpop), (bind_ok _ _ _ _ tt Hstats), Hsetup.
  cbn [dom with_dom set_filterButtons statsContainer].
  destruct (statsContainer (dom w)); reflexivity.
Qed.

Section LoadStores.
Context {host : Host}.

(** X21.  The view is all or nothing, the globals are not: when the three
    documents arrive and the categories document is [null], the load ends
    in the error view, and by then [lexiconData] has been replaced by the
    terms of the lexicon document (the empty array if it has none), while
    [categoriesData], [websiteInfo] and the query are what they were. *)
Theorem loadData_stores_before_failing
        (w : world) (lexiconDoc categoriesDoc websiteDoc : value) :
  Spec.panels_present (dom w) ->
  Spec.delivers (network w "data/lexicon.json") lexiconDoc ->
  Spec.delivers (network w "data/categories.json") categoriesDoc ->
  Spec.delivers (network w "data/website.json") websiteDoc ->
  nullish lexiconDoc = false ->
  nullish categoriesDoc = true ->
  let w' := snd (loadData w) in
  fst (loadData w) = Ok tt
  /\ error_view (dom w')
  /\ lexiconData (app w')
     = (if truthy (Spec.member lexiconDoc "terms") then Spec.member lexiconDoc "terms"
        else VArr [])
  /\ categoriesData (app w') = categoriesData (app w)
  /\ websiteInfo (app w') = websiteInfo (app w)
  /\ currentFilter (app w') = currentFilter (app w)
  /\ currentSearch (app w') = currentSearch (app w).
Proof.
  intros Hpanels Hlex Hcat Hweb Hlnn Hcnull.
  destruct (showLoading_run w Hpanels)
    as [w1 [md [classes [Hshow [_ [Happ [Hnet [Hld [Heb [Hmc _]]]]]]]]]].
  assert (Hget : get lexiconDoc "terms" = Ok (Spec.member lexiconDoc "terms")).
  { destruct lexiconDoc; try discriminate Hlnn; try reflexivity. apply get_object. }
  set (terms := if truthy (Spec.member lexiconDoc "terms")
                then Spec.member lexiconDoc "terms" else VArr []).
  assert (Hterms : (get lexiconDoc "terms" ||| Ok (VArr [])) = Ok terms).
  { rewrite Hget. unfold or_else, terms. cbn [rbind].
    destruct (truthy (Spec.member lexiconDoc "terms")); reflexivity. }
  assert (Hcats : (get categoriesDoc "categories" ||| Ok (VObj [])) = Throw TypeError).
  { destruct categoriesDoc; try discriminate Hcnull; reflexivity. }
  set (w2 := with_app (set_lexiconData terms (app w1)) w1).
  assert (Hstore : store_and_show lexiconDoc categoriesDoc websiteDoc w1
                   = (Throw TypeError, w2)).
  { unfold store_and_show.
    erewrite bind_ok by (unfold lift; rewrite Hterms; reflexivity).
    erewrite bind_ok by reflexivity.
    rewrite bind_lift, Hcats. reflexivity. }
  assert (Hpresent : Spec.panels_present (dom w2)).
  { split; [cbn; rewrite Hld; discriminate |].
    split; [cbn; rewrite Heb; discriminate | cbn; rewrite Hmc; discriminate]. }
  destruct (showError_view w2 Hpresent) as [Hr [Hv Ha]].
  assert (Hload : loadData w = (log (ConsoleError "Error loading data:") ;; showError) w2).
  { unfold loadData, try_catch.
    rewrite (bind_ok _ _ w w1 tt Hshow).
    rewrite (bind_ok _ _ w1 w1 (lexiconDoc, categoriesDoc, websiteDoc)).
    - rewrite Hstore. reflexivity.
    - apply fetch_documents_delivers; rewrite Hnet; assumption. }
  cbv zeta. rewrite Hload.
  split; [exact Hr |]. split; [exact Hv |].
  rewrite Ha. unfold w2. cbn [app with_app set_lexiconData lexiconData categoriesData
                                websiteInfo currentFilter currentSearch].
  rewrite Happ. repeat split.
Qed.

End LoadStores.

Section LoadShows.
Context {host : Host}.

(** X22.  A load of documents as the data model has them, on a page with
    the panels, the button container, the grid and the label: the terms,
    the categories and the site information (an empty object for a falsy
    document) are stored, the query is left as it is, the buttons are the
    pressed button [all] and one button per category, and the label
    counts the terms visible under the query; under the query the script
    starts with, that is all of them. *)
Theorem loadData_shows_terms
        (w : world) (lexiconDoc categoriesDoc websiteDoc : value)
        (words : list value) (entries : list (string * value)) :
  Spec.panels_present (dom w) ->
  filterButtons (dom w) <> None ->
  wordGrid (dom w) <> None ->
  resultsCount (dom w) <> None ->
  Spec.delivers (network w "data/lexicon.json") lexiconDoc ->
  Spec.delivers (network w "data/categories.json") categoriesDoc ->
  Spec.delivers (network w "data/website.json") websiteDoc ->
  Spec.member lexiconDoc "terms" = VArr words ->
  forallb Spec.term_ok words = true ->
  Spec.member categoriesDoc "categories" = VObj entries ->
  Spec.categories_ok (VObj entries) = true ->
  let w' := snd (loadData w) in
  fst (loadData w) = Ok tt
  /\ app w'
     = {| lexiconData := VArr words;
          categoriesData := VObj entries;
          websiteInfo := if truthy websiteDoc then websiteDoc else VObj [];
          currentFilter := currentFilter (app w);
          currentSearch := currentSearch (app w) |}
  /\ (exists bs, filterButtons (dom w') = Some (allCategoriesButton :: bs)
                 /\ map dataset_category bs = map fst entries)
  /\ resultsCount (dom w')
     = Some (string_of_nat
               (List.length
                  (filter (Spec.visible (currentFilter (app w)) (currentSearch (app w))) words))
             ++ " terms found")
  /\ (currentFilter (app w) = "all" -> currentSearch (app w) = EmptyString ->
      resultsCount (dom w')
      = Some (string_of_nat (List.length words) ++ " terms found")).
Proof.
  intros Hpanels Hfb Hwg Hrc Hlex Hcat Hweb Hterms Hwords Hcategories Hcats.
  assert (Hst : (get lexiconDoc "terms" ||| Ok (VArr [])) = Ok (VArr words)).
  { destruct lexiconDoc as [| | | | | | props]; try discriminate Hterms.
    rewrite get_object. simpl in Hterms. rewrite Hterms. reflexivity. }
  assert (Hsc : (get categoriesDoc "categories" ||| Ok (VObj [])) = Ok (VObj entries)).
  { destruct categoriesDoc as [| | | | | | props]; try discriminate Hcategories.
    rewrite get_object. simpl in Hcategories. rewrite Hcategories. reflexivity. }
  assert (Hinfo : (Ok websiteDoc ||| Ok (VObj []))
                  = Ok (if truthy websiteDoc then websiteDoc else VObj [])).
  { unfold or_else. cbn [rbind]. destruct (truthy websiteDoc); reflexivity. }
  set (info := if truthy websiteDoc then websiteDoc else VObj []) in *.
  set (g := {| lexiconData := VArr words;
               categoriesData := VObj entries;
               websiteInfo := info;
               currentFilter := currentFilter (app w);
               currentSearch := currentSearch (app w) |}).
  destruct (renderWords_shape g words eq_refl Hwords Hcats) as [grid Hrender].
  assert (Hdocs : fetch_documents w = (Ok (lexiconDoc, categoriesDoc, websiteDoc), w))
    by (apply fetch_documents_delivers; assumption).
  destruct Hpanels as [Hl [He Hm]].
  destruct w as [g0 d tr net clk dl].
  destruct d as [ld eb mc si fb wg rc sc cm]. cbn in Hl, He, Hm, Hfb, Hwg, Hrc, g.
  destruct ld as [ld |]; [| congruence].
  destruct eb as [eb |]; [| congruence].
  destruct mc as [[md classes] |]; [| congruence].
  destruct fb as [fb |]; [| congruence].
  destruct wg as [wg |]; [| congruence].
  destruct rc as [rc |]; [| congruence].
  cbv zeta.
  assert (Hshown : forall v : world,
             app v = g ->
             filterButtons (dom v)
             = Some (allCategoriesButton ::
                     map (fun entry =>
                            {| className := "filter-btn ";
                               dataset_category := fst entry;
                               button_innerHTML :=
                                 category_icon (snd entry) ++ " "
                                 ++ category_english (snd entry);
                               aria_pressed := "false" |}) entries) ->
             resultsCount (dom v)
             = Some (string_of_nat
                       (List.length
                          (filter (Spec.visible (currentFilter g0) (currentSearch g0)) words))
                     ++ " terms found") ->
             app v = g
             /\ (exists bs, filterButtons (dom v) = Some (allCategoriesButton :: bs)
                            /\ map dataset_category bs = map fst entries)
             /\ resultsCount (dom v)
                = Some (string_of_nat
                          (List.length
                             (filter (Spec.visible (currentFilter g0) (currentSearch g0))
                                words))
                        ++ " terms found")
             /\ (currentFilter g0 = "all" -> currentSearch g0 = EmptyString ->
                 resultsCount (dom v)
                 = Some (string_of_nat (List.length words) ++ " terms found"))).
  { intros v Hv Hb Hc. split; [exact Hv |]. split; [| split; [exact Hc |]].
    - eexists. split; [exact Hb |]. rewrite map_map. reflexivity.
    - intros Hall Hempty. rewrite Hc, Hall, Hempty.
      rewrite filter_all; [reflexivity |]. intros x Hx.
      rewrite forallb_forall in Hwords.
      pose proof (term_ok_term_of x (Hwords x Hx)) as Hterm.
      unfold Spec.visible. destruct (Spec.term_of x) as [t |]; [| congruence].
      reflexivity. }
  assert (Hload : exists v, loadData
                    {| app := g0;
                       dom := {| loading := Some ld; error_box := Some eb;
                                 mainContent := Some (md, classes); searchInput := si;
                                 filterButtons := Some fb; wordGrid := Some wg;
                                 resultsCount := Some rc; statsContainer := sc;
                                 contributeModal := cm |};
                       trace := tr; network := net; clock := clk; download_works := dl |}
                    = (Ok tt, v)
                    /\ app v = g
                    /\ filterButtons (dom v)
                       = Some (allCategoriesButton ::
                               map (fun entry =>
                                      {| className := "filter-btn ";
                                         dataset_category := fst entry;
                                         button_innerHTML :=
                                           category_icon (snd entry) ++ " "
                                           ++ category_english (snd entry);
                                         aria_pressed := "false" |}) entries)
                    /\ resultsCount (dom v)
                       = Some (string_of_nat
                                 (List.length
                                    (filter (Spec.visible (currentFilter g0)
                                               (currentSearch g0)) words))
                               ++ " terms found")).
  { unfold loadData, try_catch.
    erewrite bind_ok by reflexivity.
    erewrite bind_ok
      by (apply fetch_documents_delivers; [exact Hlex | exact Hcat | exact Hweb]).
    unfold store_and_show.
    erewrite bind_ok by (unfold lift; rewrite Hst; reflexivity).
    erewrite bind_ok by reflexivity.
    erewrite bind_ok by (unfold lift; rewrite Hsc; reflexivity).
    erewrite bind_ok by reflexivity.
    erewrite bind_ok by (unfold lift; rewrite Hinfo; reflexivity).
    erewrite bind_ok by reflexivity.
    erewrite bind_ok by reflexivity.
    erewrite bind_ok by reflexivity.
    match goal with
    | |- context [bind initializeInterface _ ?W] =>
        destruct (initializeInterface_shape W words entries) as [stats [events Hinit]];
        [discriminate | reflexivity | exact Hwords | reflexivity | exact Hcats |];
        rewrite (bind_ok _ _ _ _ tt Hinit)
    end.
    cbn [app dom trace network clock download_works with_app with_dom
           set_lexiconData set_categoriesData set_websiteInfo set_filterButtons
           statsContainer set_mainContent set_loading].
    match goal with
    | |- context [bind renderWords _ ?W] =>
        rewrite (bind_ok _ _ _ _ tt (Hrender W eq_refl))
    end.
    destruct sc as [sc |];
      (eexists; split; [reflexivity |]);
      (split; [reflexivity |]); split; reflexivity. }
  destruct Hload as [v [Hrun [Hv [Hb Hc]]]].
  rewrite Hrun. cbn [fst snd].
  split; [reflexivity |]. exact (Hshown v Hv Hb Hc).
Qed.

End LoadShows.

(** ** Concrete runs of debounce and of loads *)

Lemma debounce_history_witness :
  exists s,
    run_events 300 [Call 0 "s"; Call 120 "sc"; Fire 420 2] fresh = Some s
    /\ List.length (timers s) <= 1
    /\ List.length (runs s) + List.length (timers s) <= 2.
Proof.
  eexists. split; [reflexivity |].
  destruct (debounce_history 300 [Call 0 "s"; Call 120 "sc"; Fire 420 2] _ eq_refl)
    as [_ [Hone [_ Hcount]]].
  split; [exact Hone | exact Hcount].
Defined.

Lemma debounce_coalesces_witness :
  let s1 := fold_left (fun st c => executedFunction 300 (fst c) (snd c) st)
              [(0%N, "s"); (120%N, "sc"); (250%N, "sch")] fresh in
  runs s1 = []
  /\ fire 550 3 s1 <> None
  /\ forall s2, fire 550 3 s1 = Some s2 -> runs s2 = [(550%N, "sch")].
Proof.
  destruct (debounce_coalesces 300 [] [(0%N, "s"); (120%N, "sc")] 250%N "sch" fresh eq_refl)
    as [_ [Hruns [Hfire Hafter]]].
  cbv zeta. split; [exact Hruns |]. split.
  - apply Hfire. split; [reflexivity | discriminate].
  - intros s2 H2. destruct (Hafter 550%N 3 s2 H2) as [Hr _]. exact Hr.
Defined.


Lemma loadData_stores_before_failing_witness :
  let w := online (VObj [("terms", VArr sampleTerms)]) VNull (VObj []) in
  lexiconData (app w) = VArr []
  /\ lexiconData (app (snd (loadData w))) = VArr sampleTerms
  /\ categoriesData (app (snd (loadData w))) = VObj []
  /\ error_view (dom (snd (loadData w))).
Proof.
  cbv zeta.
  set (w := online (VObj [("terms", VArr sampleTerms)]) VNull (VObj [])).
  destruct (serves_delivers (VObj [("terms", VArr sampleTerms)]) VNull (VObj []))
    as [D1 [D2 D3]].
  assert (Hpanels : Spec.panels_present (dom w)) by (repeat split; discriminate).
  destruct (loadData_stores_before_failing w (VObj [("terms", VArr sampleTerms)]) VNull
              (VObj []) Hpanels D1 D2 D3 eq_refl eq_refl)
    as [_ [Hview [Hlex [Hcat _]]]].
  split; [reflexivity |]. split; [exact Hlex |]. split; [exact Hcat | exact Hview].
Defined.

Lemma loadData_shows_terms_witness :
  let w := online (VObj [("terms", VArr sampleTerms)])
             (VObj [("categories", storageCategories)]) (VObj []) in
  fst (loadData w) = Ok tt
  /\ resultsCount (dom (snd (loadData w))) = Some "2 terms found"
  /\ exists bs, filterButtons (dom (snd (loadData w))) = Some (allCategoriesButton :: bs)
                /\ map dataset_category bs = ["storage"].
Proof.
  cbv zeta.
  set (w := online (VObj [("terms", VArr sampleTerms)])
              (VObj [("categories", storageCategories)]) (VObj [])).
  destruct (serves_delivers (VObj [("terms", VArr sampleTerms)])
              (VObj [("categories", storageCategories)]) (VObj []))
    as [D1 [D2 D3]].
  assert (Hpanels : Spec.panels_present (dom w)) by (repeat split; discriminate).
  assert (Hfb : filterButtons (dom w) <> None) by discriminate.
  assert (Hwg : wordGrid (dom w) <> None) by discriminate.
  assert (Hrc : resultsCount (dom w) <> None) by discriminate.
  destruct (loadData_shows_terms w (VObj [("terms", VArr sampleTerms)])
              (VObj [("categories", storageCategories)]) (VObj []) sampleTerms
              [("storage",
                VObj [("name", VObj [("english", VStr "Storage"); ("khmer", VStr "ផ្ទុក")]);
                      ("icon", VStr "💾")])]
              Hpanels Hfb Hwg Hrc D1 D2 D3 eq_refl eq_refl eq_refl eq_refl)
    as [Hr [_ [Hbuttons [_ Hall]]]].
  split; [exact Hr |]. split; [exact (Hall eq_refl eq_refl) | exact Hbuttons].
Defined.

(** ** The contribute dialog and the keyboard *)


(** X24.  The key handler and what the page lacks: with Ctrl or Cmd held
    the key [k] prevents the default action and gives the search box the
    focus, and does so without an exception also on a page that has no
    search box or no dialog; no other key prevents the default or moves
    the focus; and on a page without the dialog the key [Escape] throws,
    while every other key is handled. *)
Theorem document_keydown_shortcuts (e : key_event) (c : chrome) :
  ((ctrlKey e || metaKey e) = true -> key e = "k" ->
   fst (document_keydown e c) = Ok true
   /\ search_focused (snd (document_keydown e c))
      = match search_focused c with
        | Some _ => Some true
        | None => None
        end
   /\ contributeModal_element (snd (document_keydown e c)) = contributeModal_element c
   /\ body_overflow (snd (document_keydown e c)) = body_overflow c)
  /\ ((ctrlKey e || metaKey e) = false \/ key e <> "k" ->
      fst (document_keydown e c) <> Ok true
      /\ search_focused (snd (document_keydown e c)) = search_focused c)
  /\ (contributeModal_element c = None ->
      (key e = "Escape" -> document_keydown e c = (Throw TypeError, c))
      /\ (key e <> "Escape" ->
          exists prevented,
            document_keydown e c = (Ok prevented, snd (document_keydown e c))
            /\ contributeModal_element (snd (document_keydown e c)) = None)).
Proof.
  destruct c as [m overflow focus]. unfold document_keydown.
  cbn [contributeModal_element body_overflow search_focused].
  split; [| split].
  - intros Hmod Hk. rewrite Hmod, Hk. cbn. repeat split.
  - intros Hno.
    assert (Hoff : (ctrlKey e || metaKey e) && (key e =? "k") = false).
    { destruct Hno as [-> | Hk]; [reflexivity |].
      apply String.eqb_neq in Hk. rewrite Hk. apply andb_false_r. }
    rewrite Hoff.
    destruct (key e =? "Escape"); [destruct m as [d |]; [destruct (dialog_display d =? "block") |] |];
      cbn; split; try reflexivity; discriminate.
  - intros ->. split.
    + intros ->. reflexivity.
    + intros Hk. apply String.eqb_neq in Hk. rewrite Hk.
      destruct ((ctrlKey e || metaKey e) && (key e =? "k")); eexists; split; reflexivity.
Qed.


(** ** Examples, categories and a card that fails *)

(** X25.  For examples of the data model [renderExamples] prints a text
    only if it is there and not empty; with no text to print it returns
    the empty string, and otherwise the block whose markup is fixed by
    the number of printed texts alone: two [<] and [>] and four double
    quotes for each, next to the four of the enclosing elements. *)
Theorem renderExamples_counts (examples : value) (ex : Spec.Examples) :
  Spec.optional_examples examples = Some (Some ex) ->
  exists out,
    renderExamples examples = Ok out
    /\ (printed_examples examples = 0 -> out = EmptyString)
    /\ (printed_examples examples <> 0 ->
        count_char "<" out = 4 + 2 * printed_examples examples
        /\ count_char ">" out = 4 + 2 * printed_examples examples
        /\ count_char (ascii_of_nat 34) out = 4 + 4 * printed_examples examples).
Proof.
  intros H. destruct examples as [| | | | | | eprops]; simpl in H; try discriminate H.
  destruct (Spec.optional_string (Spec.field eprops "english")) as [en |] eqn:Hen;
    try discriminate H.
  destruct (Spec.optional_string (Spec.field eprops "khmer")) as [km |] eqn:Hkm;
    try discriminate H.
  unfold renderExamples, printed_examples, Spec.member.
  cbn [truthy negb]. rewrite !get_object. cbn [rbind].
  destruct (truthy (Spec.field eprops "english")) eqn:Te;
    destruct (truthy (Spec.field eprops "khmer")) eqn:Tk; cbn [negb andb];
    try (destruct (truthy_optional_string _ _ Hen Te) as [se ->]);
    try (destruct (truthy_optional_string _ _ Hkm Tk) as [sk ->]);
    cbn [escapeHtml to_string rbind];
    (eexists; split; [reflexivity |]);
    (split; [intros Hz; try discriminate Hz; reflexivity |]);
    intros Hnz; try (contradiction Hnz; reflexivity);
    rewrite !count_char_app;
    try (destruct (escape_string_counts se) as [-> [-> [-> _]]]);
    try (destruct (escape_string_counts sk) as [-> [-> [-> _]]]);
    repeat split.
Qed.

(** X26.  The category of a card is looked up by key in the mapping, and
    a key the mapping does not have is looked up in what every object
    inherits: for the key [__proto__] that is the prototype itself, which
    has no [name], and [createWordCard] throws, whatever else the term
    and the mapping say. *)
Theorem createWordCard_proto_category (entries props : list (string * value)) :
  own entries "__proto__" = None ->
  Spec.field props "category" = VStr "__proto__" ->
  exists e, createWordCard (VObj entries) (VObj props) = Throw e.
Proof.
  intros Hown Hcat. unfold createWordCard.
  rewrite get_object, Hcat. cbn [rbind to_string computed_get]. rewrite Hown.
  assert (Hproto : (Ok (inherited "__proto__")
                    ||| Ok (VObj [("icon", VStr "📝");
                                  ("name", VObj [("english", VStr "__proto__")])]))
                   = Ok (VObj [])) by reflexivity.
  rewrite Hproto. cbn [rbind]. rewrite !get_object. cbn [rbind].
  destruct (to_string (escapeHtml (Spec.field props "english"))) as [s1 | e1];
    [| eexists; reflexivity].
  cbn [rbind].
  destruct (to_string (escapeHtml (Spec.field props "khmer"))) as [s2 | e2];
    [| eexists; reflexivity].
  eexists. reflexivity.
Qed.

Section RenderFails.
Context {host : Host}.

(** X27.  The label is written before the cards are made: when one of
    the visible terms has a card that throws, [renderWords] throws too,
    with the label already saying how many terms were found and the grid
    still showing what it showed before. *)
Theorem renderWords_label_before_grid (w : world) (shown : list value) (g c : string)
    (e : error) :
  wordGrid (dom w) = Some g ->
  resultsCount (dom w) = Some c ->
  fst (filterWords w) = Ok shown ->
  map_array (createWordCard (categoriesData (app w))) shown = Throw e ->
  renderWords w
  = (Throw e,
     with_dom (set_resultsCount
                 (Some (string_of_nat (List.length shown) ++ " terms found")) (dom w)) w)
  /\ wordGrid (dom (snd (renderWords w))) = Some g
  /\ resultsCount (dom (snd (renderWords w)))
     = Some (string_of_nat (List.length shown) ++ " terms found").
Proof.
  intros Hg Hc Hf Hcards.
  assert (Hfw : filterWords w = (Ok shown, w)).
  { rewrite (surjective_pairing (filterWords w)), Hf, filterWords_frame. reflexivity. }
  assert (Hne : Nat.eqb (List.length shown) 0 = false).
  { destruct shown; [discriminate Hcards | reflexivity]. }
  assert (Hrun : renderWords w
                 = (Throw e,
                    with_dom (set_resultsCount
                                (Some (string_of_nat (List.length shown) ++ " terms found"))
                                (dom w)) w)).
  { unfold renderWords. rewrite (bind_ok read _ w w w eq_refl). rewrite Hg, Hc.
    rewrite (bind_ok _ _ w w shown Hfw).
    erewrite bind_ok by reflexivity.
    rewrite Hne. unfold renderWordCards.
    erewrite bind_ok by reflexivity.
    rewrite bind_lift. cbn [app with_dom]. rewrite Hcards. reflexivity. }
  rewrite Hrun. split; [reflexivity |]. split; [exact Hg | reflexivity].
Qed.

End RenderFails.

(** ** Concrete runs of the card facts *)

Lemma renderExamples_counts_witness :
  exists out,
    renderExamples (VObj [("english", VStr "The gateway routes calls");
                          ("khmer", VStr "ឧទាហរណ៍")]) = Ok out
    /\ count_char "<" out = 8
    /\ count_char (ascii_of_nat 34) out = 12.
Proof.
  destruct (renderExamples_counts
              (VObj [("english", VStr "The gateway routes calls"); ("khmer", VStr "ឧទាហរណ៍")])
              {| Spec.englishExample := Some "The gateway routes calls";
                 Spec.khmerExample := Some "ឧទាហរណ៍" |} eq_refl)
    as [out [Hrun [_ Hcount]]].
  assert (Hnz : printed_examples
                  (VObj [("english", VStr "The gateway routes calls");
                         ("khmer", VStr "ឧទាហរណ៍")]) <> 0) by discriminate.
  destruct (Hcount Hnz) as [Hlt [_ Hq]].
  exists out. split; [exact Hrun |]. split; [exact Hlt | exact Hq].
Defined.

Lemma createWordCard_proto_category_witness :
  exists e, createWordCard storageCategories protoTerm = Throw e.
Proof.
  exact (createWordCard_proto_category
           [("storage",
             VObj [("name", VObj [("english", VStr "Storage"); ("khmer", VStr "ផ្ទុក")]);
                   ("icon", VStr "💾")])]
           [("english", VStr "Prototype"); ("khmer", VStr "គំរូ");
            ("category", VStr "__proto__")]
           eq_refl eq_refl).
Defined.

Lemma renderWords_label_before_grid_witness :
  fst (renderWords protoSession) = Throw TypeError
  /\ wordGrid (dom (snd (renderWords protoSession))) = Some cardOpening
  /\ resultsCount (dom (snd (renderWords protoSession))) = Some "1 terms found".
Proof.
  destruct (renderWords_label_before_grid protoSession [protoTerm] cardOpening
              "7 terms found" TypeError eq_refl eq_refl eq_refl eq_refl)
    as [Hrun [Hgrid Hlabel]].
  split; [rewrite Hrun; reflexivity |]. split; [exact Hgrid | exact Hlabel].
Defined.
